(** * Person monitoring and alert dispatch (notification_system.py)

    A shallow embedding of [NotificationManager]: the monitor registry, the
    four source checkers, the alert pipeline, the channel dispatchers and the
    polling loop, followed by the properties of the specification that are
    about them. *)

From Stdlib Require Import ZArith String Ascii List Lia Bool.
From Stdlib Require Import DecimalString.
From stdpp Require Import base gmap strings list.

Set Warnings "-register-all".

Local Open Scope string_scope.
Local Open Scope Z_scope.

(** ** Enumerations *)

Inductive AlertSeverity := INFO | WARNING | CRITICAL | URGENT.

Definition severity_value (s : AlertSeverity) : string :=
  match s with
  | INFO => "info"
  | WARNING => "warning"
  | CRITICAL => "critical"
  | URGENT => "urgent"
  end.

Inductive NotificationChannel := EMAIL | WEBHOOK | SMS | SLACK.

Definition channel_value (c : NotificationChannel) : string :=
  match c with
  | EMAIL => "email"
  | WEBHOOK => "webhook"
  | SMS => "sms"
  | SLACK => "slack"
  end.

#[global] Instance AlertSeverity_eq_dec : EqDecision AlertSeverity.
Proof. solve_decision. Defined.

#[global] Instance NotificationChannel_eq_dec : EqDecision NotificationChannel.
Proof. solve_decision. Defined.

(** ** Decoded JSON values

    What [response.json()] hands to the checker and what an alert carries as
    metadata.  A float is kept as its Python [repr]. *)

Inductive json :=
  | JNull
  | JBool (b : bool)
  | JInt (z : Z)
  | JFloat (repr : string)
  | JStr (s : string)
  | JList (l : list json)
  | JDict (kv : list (string * json)).

(** Exceptions that the modelled code can meet.  All of them derive from
    Python's [Exception], so [except Exception] catches each one. *)

Inductive Exn :=
  | AttributeError (what : string)
  | TypeError (what : string)
  | KeyError (key : string)
  | OverflowError (what : string)
  | JSONDecodeError
  | TransportError (what : string)
  | SMTPException (what : string)
  | RuntimeError (what : string)
  | UnicodeEncodeError (what : string)
  | ValueError (what : string)
  | BrokenPipeError (what : string).

Definition exn_str (e : Exn) : string :=
  match e with
  | AttributeError s => s
  | TypeError s => s
  | KeyError k => "'" +:+ k +:+ "'"
  | OverflowError s => s
  | JSONDecodeError => "Expecting value"
  | TransportError s => s
  | SMTPException s => s
  | RuntimeError s => s
  | UnicodeEncodeError s => s
  | ValueError s => s
  | BrokenPipeError s => s
  end.

(** ** Strings *)

Definition map_string (f : ascii -> ascii) : string -> string :=
  fix go (s : string) : string :=
    match s with
    | EmptyString => EmptyString
    | String c r => String (f c) (go r)
    end.

(** [s.replace(' ', '_')] *)
Definition replace_space (s : string) : string :=
  map_string (fun c => if Ascii.eqb c " "%char then "_"%char else c) s.

(** [s.lower()] on the ASCII letters. *)
Definition lower_ascii (c : ascii) : ascii :=
  let n := nat_of_ascii c in
  if (Nat.leb 65 n && Nat.leb n 90)%bool then ascii_of_nat (n + 32) else c.

Definition lower (s : string) : string := map_string lower_ascii s.

Definition upper_ascii (c : ascii) : ascii :=
  let n := nat_of_ascii c in
  if (Nat.leb 97 n && Nat.leb n 122)%bool then ascii_of_nat (n - 32) else c.

Definition upper (s : string) : string := map_string upper_ascii s.

(** [sub in s] for two strings. *)
Fixpoint contains (sub s : string) : bool :=
  if String.prefix sub s then true
  else match s with
       | EmptyString => false
       | String _ r => contains sub r
       end.

(** [x in l] for a list of strings. *)
Definition str_in (x : string) (l : list string) : bool :=
  existsb (String.eqb x) l.

Definition str_of_Z (z : Z) : string := NilZero.string_of_int (Z.to_int z).

(** ** Naive datetimes

    The fields are those of a Python [datetime] without time zone. *)

Record datetime := mkDatetime {
  year : Z; month : Z; day : Z;
  hour : Z; minute : Z; second : Z; microsecond : Z
}.

Definition digit (n : Z) : ascii := ascii_of_nat (48 + Z.to_nat (n mod 10)).

Definition pad2 (n : Z) : string :=
  String (digit (n / 10)) (String (digit n) EmptyString).

Definition pad4 (n : Z) : string :=
  String (digit (n / 1000)) (String (digit (n / 100)) (pad2 n)).

Definition pad6 (n : Z) : string :=
  String (digit (n / 100000)) (String (digit (n / 10000)) (pad4 n)).

(** [dt.strftime('%Y%m%d_%H%M%S')]; the year is rendered on four digits, as
    every platform does from the year 1000 on. *)
Definition strftime_stamp (dt : datetime) : string :=
  pad4 (year dt) +:+ pad2 (month dt) +:+ pad2 (day dt) +:+ "_" +:+
  pad2 (hour dt) +:+ pad2 (minute dt) +:+ pad2 (second dt).

(** [dt.strftime('%Y-%m-%d')] *)
Definition strftime_date (dt : datetime) : string :=
  pad4 (year dt) +:+ "-" +:+ pad2 (month dt) +:+ "-" +:+ pad2 (day dt).

(** [dt.strftime('%Y-%m-%d %H:%M:%S')] *)
Definition strftime_datetime (dt : datetime) : string :=
  strftime_date dt +:+ " " +:+
  pad2 (hour dt) +:+ ":" +:+ pad2 (minute dt) +:+ ":" +:+ pad2 (second dt).

(** [dt.isoformat()]: the microseconds are printed only when non-zero. *)
Definition isoformat (dt : datetime) : string :=
  strftime_date dt +:+ "T" +:+
  pad2 (hour dt) +:+ ":" +:+ pad2 (minute dt) +:+ ":" +:+ pad2 (second dt) +:+
  (if microsecond dt =? 0 then "" else "." +:+ pad6 (microsecond dt)).

(** *** Calendar arithmetic, as in the datetime module *)

Definition is_leap (y : Z) : bool :=
  (y mod 4 =? 0) && (negb (y mod 100 =? 0) || (y mod 400 =? 0)).

Definition days_before_year (y : Z) : Z :=
  let p := y - 1 in p * 365 + p / 4 - p / 100 + p / 400.

Definition DAYS_IN_MONTH : list Z := [0; 31; 28; 31; 30; 31; 30; 31; 31; 30; 31; 30; 31].
Definition DAYS_BEFORE_MONTH : list Z :=
  [0; 0; 31; 59; 90; 120; 151; 181; 212; 243; 273; 304; 334].

Definition table (t : list Z) (i : Z) : Z := nth (Z.to_nat i) t 0.
Definition Z_of_bool (b : bool) : Z := if b then 1 else 0.

(** Length of month [m], and days of the year before its first day, in a
    year whose leap flag is [leap]. *)
Definition month_days (leap : bool) (m : Z) : Z :=
  if (m =? 2) && leap then 29 else table DAYS_IN_MONTH m.

Definition month_offset (leap : bool) (m : Z) : Z :=
  table DAYS_BEFORE_MONTH m + Z_of_bool ((2 <? m) && leap).

Definition days_in_month (y m : Z) : Z := month_days (is_leap y) m.
Definition days_before_month (y m : Z) : Z := month_offset (is_leap y) m.

Definition MAXORDINAL : Z := 3652059.

Definition ymd2ord (y m d : Z) : Z :=
  days_before_year y + days_before_month y m + d.

(** [date.toordinal()]: 0001-01-01 is day 1. *)
Definition toordinal (dt : datetime) : Z := ymd2ord (year dt) (month dt) (day dt).

(** Month and day of the [n]-th day, counted from 0, of a year. *)
Definition month_day (leapyear : bool) (n : Z) : Z * Z :=
  let m := Z.shiftr (n + 50) 5 in
  let preceding := table DAYS_BEFORE_MONTH m + Z_of_bool ((2 <? m) && leapyear) in
  if n <? preceding then
    let m' := m - 1 in
    let preceding' :=
      preceding - (table DAYS_IN_MONTH m' + Z_of_bool ((m' =? 2) && leapyear)) in
    (m', n - preceding' + 1)
  else (m, n - preceding + 1).

(** [date.fromordinal(n)], returning year, month and day. *)
Definition ord2ymd (n0 : Z) : Z * Z * Z :=
  let n := n0 - 1 in
  let n400 := n / 146097 in let n := n mod 146097 in
  let n100 := n / 36524 in let n := n mod 36524 in
  let n4 := n / 1461 in let n := n mod 1461 in
  let n1 := n / 365 in let n := n mod 365 in
  let y := n400 * 400 + 1 + n100 * 100 + n4 * 4 + n1 in
  if (n1 =? 4) || (n100 =? 4) then (y - 1, 12, 31)
  else
    let leapyear := (n1 =? 3) && (negb (n4 =? 24) || (n100 =? 3)) in
    let '(m, d) := month_day leapyear n in (y, m, d).

Definition US_PER_SECOND : Z := 1000000.
Definition US_PER_HOUR : Z := 3600 * US_PER_SECOND.
Definition US_PER_DAY : Z := 24 * US_PER_HOUR.

(** Microseconds elapsed since the start of day 0 of the proleptic calendar:
    the position of a datetime on the time line. *)
Definition to_micros (dt : datetime) : Z :=
  toordinal dt * US_PER_DAY
  + ((hour dt * 60 + minute dt) * 60 + second dt) * US_PER_SECOND
  + microsecond dt.

Definition of_micros (t : Z) : datetime :=
  let '(y, m, d) := ord2ymd (t / US_PER_DAY) in
  let r := t mod US_PER_DAY in
  let s := r / US_PER_SECOND in
  mkDatetime y m d (s / 3600) (s mod 3600 / 60) (s mod 60) (r mod US_PER_SECOND).

(** [timedelta(microseconds=us)]: more than 999999999 days overflow. *)
Definition timedelta_us (us : Z) : Exn + Z :=
  if 999999999 <? Z.abs (us / US_PER_DAY)
  then inl (OverflowError "days out of range")
  else inr us.

(** [dt - td]: the result has to fall on a day in 1 .. MAXORDINAL. *)
Definition datetime_sub (dt : datetime) (td : Z) : Exn + datetime :=
  let t := to_micros dt - td in
  if 999999999 <? Z.abs (t / US_PER_DAY) then inl (OverflowError "days out of range")
  else if (0 <? t / US_PER_DAY) && (t / US_PER_DAY <=? MAXORDINAL)
  then inr (of_micros t)
  else inl (OverflowError "date value out of range").

(** Comparison of two naive datetimes: lexicographic on the fields. *)
Definition datetime_fields (dt : datetime) : list Z :=
  [year dt; month dt; day dt; hour dt; minute dt; second dt; microsecond dt].

Fixpoint lex_lt (a b : list Z) : bool :=
  match a, b with
  | x :: a', y :: b' => (x <? y) || ((x =? y) && lex_lt a' b')
  | [], _ :: _ => true
  | _, _ => false
  end.

Definition datetime_lt (a b : datetime) : bool :=
  lex_lt (datetime_fields a) (datetime_fields b).

(** The field ranges the datetime constructor enforces. *)
Definition valid_date (y m d : Z) : Prop :=
  1 <= y <= 9999 /\ 1 <= m <= 12 /\ 1 <= d <= days_in_month y m.

Definition valid_datetime (dt : datetime) : Prop :=
  valid_date (year dt) (month dt) (day dt) /\
  0 <= hour dt < 24 /\ 0 <= minute dt < 60 /\ 0 <= second dt < 60 /\
  0 <= microsecond dt < 1000000.

(** ** Alerts, monitors and the manager *)

Record Alert := mkAlert {
  alert_id : string;
  title : string;
  message : string;
  severity : AlertSeverity;
  source : string;
  target_person : string;
  target_id : option string;
  created_at : datetime;
  channels : list NotificationChannel;
  metadata : list (string * json)
}.

(** The [monitor_config] dictionary of [setup_person_monitoring]. *)
Record Monitor := mkMonitor {
  mon_id : string;
  person_name : string;
  person_id : string;
  alert_triggers : list string;
  mon_channels : list string;
  active : bool;
  last_check : option datetime;
  check_interval : Z;
  sources : list string
}.

#[global] Instance Monitor_inhabited : Inhabited Monitor :=
  populate (mkMonitor "" "" "" [] [] false None 0 []).

Definition set_active (b : bool) (m : Monitor) : Monitor :=
  mkMonitor (mon_id m) (person_name m) (person_id m) (alert_triggers m)
            (mon_channels m) b (last_check m) (check_interval m) (sources m).

Definition set_last_check (t : datetime) (m : Monitor) : Monitor :=
  mkMonitor (mon_id m) (person_name m) (person_id m) (alert_triggers m)
            (mon_channels m) (active m) (Some t) (check_interval m) (sources m).

(** The manager object.  A monitor dictionary is a heap object shared by
    the registry and by the loop that polls it: [objects] holds the
    dictionaries by address and [active_monitors] maps a monitor id to the
    address registered under it.  The configuration read from the process
    environment at construction is kept in the remaining fields. *)
Record Manager := mkManager {
  alerts_queue : list Alert;
  active_monitors : gmap string nat;
  objects : list Monitor;
  email_username : string;
  email_password : string;
  webhook_url : string;
  courtlistener_token : option string
}.

Definition email_smtp_server : string := "smtp.gmail.com".
Definition email_smtp_port : Z := 587.
Definition email_from : string := "alerts@tavit.com".
Definition webhook_timeout : Z := 30.
Definition courtlistener_base_url : string :=
  "https://www.courtlistener.com/api/rest/v3/".

(** [NotificationManager.__init__], with [os.getenv] as [getenv]. *)
Definition NotificationManager_init (getenv : string -> option string) : Manager :=
  mkManager [] ∅ []
    (default "alerts@tavit.com" (getenv "NOTIFICATION_EMAIL"))
    (default "" (getenv "NOTIFICATION_PASSWORD"))
    (default "" (getenv "WEBHOOK_URL"))
    (getenv "COURTLISTENER_TOKEN").

Definition with_queue (q : list Alert) (self : Manager) : Manager :=
  mkManager q (active_monitors self) (objects self) (email_username self)
            (email_password self) (webhook_url self) (courtlistener_token self).

Definition with_objects (o : list Monitor) (self : Manager) : Manager :=
  mkManager (alerts_queue self) (active_monitors self) o (email_username self)
            (email_password self) (webhook_url self) (courtlistener_token self).

Definition with_monitors (r : gmap string nat) (self : Manager) : Manager :=
  mkManager (alerts_queue self) r (objects self) (email_username self)
            (email_password self) (webhook_url self) (courtlistener_token self).

(** [self.active_monitors.get(monitor_id)], dereferenced. *)
Definition get_monitor (self : Manager) (monitor_id : string) : option Monitor :=
  l ← active_monitors self !! monitor_id; objects self !! l.

(** The monitor id of [setup_person_monitoring] at clock reading [t]. *)
Definition make_monitor_id (person : string) (t : datetime) : string :=
  "monitor_" +:+ replace_space person +:+ "_" +:+ strftime_stamp t.

Definition monitor_config (person pid : string) (triggers chans : list string)
    (t : datetime) : Monitor :=
  mkMonitor (make_monitor_id person t) person pid triggers chans
            true None 3600 ["courtlistener"; "pacer"; "vinelink"; "state_courts"].

(** [self.active_monitors[monitor_id] = monitor_config]: the new dictionary
    gets a fresh address, and the id is bound to it, replacing an earlier
    binding of the same id. *)
Definition register (cfg : Monitor) (self : Manager) : Manager :=
  with_monitors (<[mon_id cfg := length (objects self)]> (active_monitors self))
    (with_objects (objects self ++ [cfg]) self).

(** [stop_monitoring] *)
Definition stop_monitoring (self : Manager) (monitor_id : string) : Manager * bool :=
  match active_monitors self !! monitor_id with
  | Some l => (with_objects (alter (set_active false) l (objects self)) self, true)
  | None => (self, false)
  end.

(** [get_recent_alerts], at clock reading [now]. *)
Definition get_recent_alerts (self : Manager) (now : datetime) (hours : Z)
    : Exn + list Alert :=
  match timedelta_us (hours * US_PER_HOUR) with
  | inl e => inl e
  | inr td =>
      match datetime_sub now td with
      | inl e => inl e
      | inr cutoff_time =>
          inr (List.filter (fun alert => datetime_lt cutoff_time (created_at alert))
                           (alerts_queue self))
      end
  end.

(** ** The world around one task

    The code is a set of coroutines on one event loop.  The model follows
    one task.  Every reading of the clock, random draw, HTTP or SMTP exchange
    and every suspension of the task asks the environment, which answers by
    the number of questions asked so far ([tick]).  While the task is
    suspended the other tasks run; what they can do to the manager is what the
    class lets them do. *)

Inductive Foreign :=
  | FStop (monitor_id : string)
  | FRegister (person pid : string) (triggers chans : list string) (t : datetime)
  | FAppend (a : Alert)
  | FChecked (l : nat) (t : datetime).

Definition apply_foreign (self : Manager) (f : Foreign) : Manager :=
  match f with
  | FStop i => fst (stop_monitoring self i)
  | FRegister p i tr ch t => register (monitor_config p i tr ch t) self
  | FAppend a => with_queue (alerts_queue self ++ [a]) self
  | FChecked l t => with_objects (alter (set_last_check t) l (objects self)) self
  end.

Inductive HttpReply :=
  | HttpFails (e : Exn)
  | HttpResponse (status_code : Z) (body : option json).

Record Env := mkEnv {
  env_now : nat -> datetime;
  env_random : nat -> Z;
  env_randbelow : nat -> Z;
  env_http : nat -> HttpReply;
  env_smtp : nat -> option Exn;
  env_others : nat -> list Foreign;
  fmt_json : json -> string;
  fmt_timestamp : datetime -> string;
  json_dumps : list (string * json) -> string;
  env_stdout : nat -> string -> option Exn
}.

(** What the task does that can be observed from outside, and two marks for
    what it does to the alert log and which dispatcher it enters. *)
Inductive Event :=
  | EvPrint (line : string)
  | EvSleep (seconds : Z)
  | EvHttpGet (url : string) (headers params : list (string * string))
  | EvHttpPost (url : string) (body : list (string * json)) (timeout : Z)
  | EvSmtp (server : string) (port : Z) (user password sender rcpt subject text : string)
  | EvQueued (a : Alert)
  | EvDispatch (c : NotificationChannel) (a : Alert).

Record World := mkWorld {
  mgr : Manager;
  tick : nat;
  trace : list Event
}.

Inductive Res (A : Type) :=
  | Ok (a : A) (w : World)
  | Raised (e : Exn) (w : World).
Arguments Ok {A} a w.
Arguments Raised {A} e w.

Definition M (A : Type) : Type := Env -> World -> Res A.

Definition ret {A} (a : A) : M A := fun _ w => Ok a w.

Definition bind {A B} (m : M A) (k : A -> M B) : M B :=
  fun env w =>
    match m env w with
    | Ok a w' => k a env w'
    | Raised e w' => Raised e w'
    end.

Definition raise {A} (e : Exn) : M A := fun _ w => Raised e w.

(** [try: body  except Exception as e: handler e] *)
Definition try_except {A} (body : M A) (handler : Exn -> M A) : M A :=
  fun env w =>
    match body env w with
    | Ok a w' => Ok a w'
    | Raised e w' => handler e env w'
    end.

#[global] Instance M_ret : MRet M := @ret.
#[global] Instance M_bind : MBind M := fun A B k m => bind m k.

Definition world_of {A} (r : Res A) : World :=
  match r with Ok _ w => w | Raised _ w => w end.

(** *** Primitives *)

Definition ask {A} (f : Env -> nat -> A) : M A :=
  fun env w => Ok (f env (tick w)) (mkWorld (mgr w) (S (tick w)) (trace w)).

Definition emit (ev : Event) : M unit :=
  fun _ w => Ok tt (mkWorld (mgr w) (tick w) (trace w ++ [ev])).

Definition get_self : M Manager := fun _ w => Ok (mgr w) w.

Definition modify_self (f : Manager -> Manager) : M unit :=
  fun _ w => Ok tt (mkWorld (f (mgr w)) (tick w) (trace w)).

(** [datetime.now()] *)
Definition now : M datetime := ask env_now.

(** [print(line)].  The write to standard output can fail: the stream
    cannot encode the text ([UnicodeEncodeError]), it is closed
    ([ValueError]) or its reader is gone ([BrokenPipeError]).  Whether it
    does is up to the environment; a failed write leaves nothing behind. *)
Definition print (line : string) : M unit :=
  fun env w =>
    match env_stdout env (tick w) line with
    | Some e => Raised e w
    | None => Ok tt (mkWorld (mgr w) (tick w) (trace w ++ [EvPrint line]))
    end.

(** Standard output takes every line. *)
Definition stdout_ok (env : Env) : Prop :=
  forall (n : nat) (line : string), env_stdout env n line = None.

(** A suspension point: the other tasks run. *)
Definition yield : M unit :=
  fun env w =>
    Ok tt (mkWorld (foldl apply_foreign (mgr w) (env_others env (tick w)))
                   (S (tick w)) (trace w)).

(** [await asyncio.sleep(seconds)] *)
Definition sleep (seconds : Z) : M unit := emit (EvSleep seconds);; yield.

(** [random.random() < c], for a draw [k * 2^-53] and the double
    [c = num * 2^-e]. *)
Definition random_lt (num e : Z) : M bool :=
  k ← ask env_random; ret (k * 2 ^ (e - 53) <? num).

(** [random.choice(seq)] *)
Definition random_choice (seq : list string) : M string :=
  k ← ask env_randbelow;
  ret (nth (Z.to_nat (k mod Z.of_nat (length seq))) seq "").

(** [random.randint(a, b)] *)
Definition random_randint (a b : Z) : M Z :=
  k ← ask env_randbelow; ret (a + k mod (b - a + 1)).

(** A field of the monitor dictionary at address [l], read when used. *)
Definition monitor_at (l : nat) : M Monitor :=
  self ← get_self; ret (objects self !!! l).

Fixpoint for_each {A} (xs : list A) (body : A -> M unit) : M unit :=
  match xs with
  | [] => ret tt
  | x :: xs' => body x;; for_each xs' body
  end.

Definition get_env : M Env := fun env w => Ok env w.

Definition lift {A} (r : Exn + A) : M A :=
  match r with
  | inl e => raise e
  | inr a => ret a
  end.

(** [any(gen)], evaluated lazily from the left. *)
Fixpoint py_any (gen : list (M bool)) : M bool :=
  match gen with
  | [] => ret false
  | c :: rest => b ← c; if b : bool then ret true else py_any rest
  end.

(** *** Operations on decoded JSON, with the errors Python raises *)

Fixpoint assoc (k : string) (kv : list (string * json)) : option json :=
  match kv with
  | [] => None
  | (k', v) :: rest => if String.eqb k k' then Some v else assoc k rest
  end.

(** [d.get(k, dflt)] *)
Definition dict_get (d : json) (k : string) (dflt : json) : Exn + json :=
  match d with
  | JDict kv => inr (default dflt (assoc k kv))
  | _ => inl (AttributeError "object has no attribute 'get'")
  end.

(** [d[k]] for a string key [k] *)
Definition subscript (d : json) (k : string) : Exn + json :=
  match d with
  | JDict kv =>
      match assoc k kv with
      | Some v => inr v
      | None => inl (KeyError k)
      end
  | JStr _ | JList _ => inl (TypeError "indices must be integers")
  | _ => inl (TypeError "object is not subscriptable")
  end.

Fixpoint chars (s : string) : list json :=
  match s with
  | EmptyString => []
  | String c r => JStr (String c EmptyString) :: chars r
  end.

(** [for x in v]: the items the loop visits. *)
Definition py_iter (v : json) : Exn + list json :=
  match v with
  | JList l => inr l
  | JDict kv => inr (map (fun p => JStr (fst p)) kv)
  | JStr s => inr (chars s)
  | _ => inl (TypeError "object is not iterable")
  end.

(** [v.lower()] *)
Definition py_lower (v : json) : Exn + string :=
  match v with
  | JStr s => inr (lower s)
  | _ => inl (AttributeError "object has no attribute 'lower'")
  end.

(** ** Source checkers *)

Definition keyword_triggers : list string := ["arrest"; "conviction"; "sentence"].

(** The condition of the [if any(...)] of [_check_courtlistener]. *)
Definition opinion_triggers (opinion : json) (alert_triggers : list string) : M bool :=
  py_any
    (map (fun trigger =>
            text ← lift (dict_get opinion "plain_text" (JStr ""));
            low ← lift (py_lower text);
            ret (contains trigger low))
         (List.filter (fun trigger => str_in trigger alert_triggers) keyword_triggers)).

(** The [Alert(...)] of [_check_courtlistener], its arguments evaluated in
    the order they are written. *)
Definition courtlistener_alert (person_name : string) (opinion : json) : M Alert :=
  env ← get_env;
  oid ← lift (subscript opinion "id");
  t_id ← now;
  case_name ← lift (dict_get opinion "case_name" (JStr "N/A"));
  t_created ← now;
  md_case ← lift (dict_get opinion "case_name" JNull);
  cluster ← lift (dict_get opinion "cluster" (JDict []));
  docket ← lift (dict_get cluster "docket" (JDict []));
  court ← lift (dict_get docket "court" JNull);
  date_filed ← lift (dict_get opinion "date_created" JNull);
  absolute_url ← lift (dict_get opinion "absolute_url" (JStr ""));
  ret (mkAlert
         ("cl_" +:+ fmt_json env oid +:+ "_" +:+ fmt_timestamp env t_id)
         "Nuevo Caso Judicial Detectado"
         ("Nueva mención de " +:+ person_name +:+ " en caso judicial: "
            +:+ fmt_json env case_name)
         CRITICAL
         "courtlistener"
         person_name
         None
         t_created
         [EMAIL; WEBHOOK]
         [("case_name", md_case); ("court", court); ("date_filed", date_filed);
          ("url", JStr ("https://www.courtlistener.com" +:+ fmt_json env absolute_url))]).

(** The body of the [for opinion in ...] loop, on the local list [alerts]:
    the list as it stands when an exception leaves the loop is what the
    handler of the enclosing [try] finds. *)
Fixpoint scan_opinions (person_name : string) (alert_triggers : list string)
    (opinions : list json) (alerts : list Alert) (env : Env) (w : World)
    : list Alert * Res unit :=
  match opinions with
  | [] => (alerts, Ok tt w)
  | opinion :: rest =>
      match opinion_triggers opinion alert_triggers env w with
      | Raised e w1 => (alerts, Raised e w1)
      | Ok false w1 => scan_opinions person_name alert_triggers rest alerts env w1
      | Ok true w1 =>
          match courtlistener_alert person_name opinion env w1 with
          | Raised e w2 => (alerts, Raised e w2)
          | Ok alert w2 =>
              scan_opinions person_name alert_triggers rest (alerts ++ [alert]) env w2
          end
      end
  end.

(** The part of [_check_courtlistener] before the loop: [None] when the
    function has nothing to scan (no token, or a status other than 200). *)
Definition courtlistener_fetch (person_name : string) : M (option (list json)) :=
  self ← get_self;
  match courtlistener_token self with
  | None | Some "" => ret None
  | Some token =>
      let headers := [("Authorization", "Token " +:+ token);
                      ("User-Agent", "TAVIT/1.0 (ceo@tavit.com)")] in
      let opinions_url := courtlistener_base_url +:+ "opinions/" in
      t ← now;
      one_day ← lift (timedelta_us US_PER_DAY);
      since ← lift (datetime_sub t one_day);
      let params := [("q", person_name); ("order_by", "-date_created");
                     ("date_created__gte", strftime_date since)] in
      emit (EvHttpGet opinions_url headers params);;
      yield;;
      reply ← ask env_http;
      match reply with
      | HttpFails e => raise e
      | HttpResponse status_code body =>
          if status_code =? 200 then
            data ← match body with
                   | Some d => ret d
                   | None => raise JSONDecodeError
                   end;
            results ← lift (dict_get data "results" (JList []));
            opinions ← lift (py_iter results);
            ret (Some opinions)
          else ret None
      end
  end.

Definition _check_courtlistener (person_name : string) (alert_triggers : list string)
    : M (list Alert) :=
  fun env w =>
    let on_exception (alerts : list Alert) (e : Exn) : M (list Alert) :=
      print ("Error checking CourtListener: " +:+ exn_str e);; ret alerts in
    match courtlistener_fetch person_name env w with
    | Raised e w1 => on_exception [] e env w1
    | Ok None w1 => Ok [] w1
    | Ok (Some opinions) w1 =>
        match scan_opinions person_name alert_triggers opinions [] env w1 with
        | (alerts, Ok _ w2) => Ok alerts w2
        | (alerts, Raised e w2) => on_exception alerts e env w2
        end
    end.

Definition _check_vinelink (person_name person_id : string) : M (list Alert) :=
  env ← get_env;
  hit ← random_lt 5764607523034235 59;
  if hit : bool then
    t_id ← now;
    t_created ← now;
    ret [mkAlert
           ("vine_" +:+ replace_space person_name +:+ "_" +:+ fmt_timestamp env t_id)
           "Alerta VINELink - Cambio de Estado"
           ("VINELink reporta cambio de estado para " +:+ person_name
              +:+ ". Revisar inmediatamente.")
           URGENT
           "vinelink"
           person_name
           (Some person_id)
           t_created
           [EMAIL; SMS]
           [("facility", JStr "Simulado - Centro Correccional");
            ("status_change", JStr "Release Pending");
            ("notification_type", JStr "Custody Status Change")]]
  else ret [].

Definition _check_pacer (person_name : string) (alert_triggers : list string)
    : M (list Alert) :=
  env ← get_env;
  hit ← random_lt 5764607523034235 58;
  if hit : bool then
    case_type ← random_choice ["Criminal"; "Civil"; "Bankruptcy"; "Appeals"];
    t_id ← now;
    t_created ← now;
    n1 ← random_randint 10 99;
    t_year ← now;
    n2 ← random_randint 1000 9999;
    t_filing ← now;
    ret [mkAlert
           ("pacer_" +:+ replace_space person_name +:+ "_" +:+ fmt_timestamp env t_id)
           ("Nuevo Caso PACER - " +:+ case_type)
           ("Nuevo caso " +:+ lower case_type +:+ " en PACER involucra a " +:+ person_name)
           (if String.eqb case_type "Criminal" then CRITICAL else WARNING)
           "pacer"
           person_name
           None
           t_created
           [EMAIL; WEBHOOK]
           [("case_type", JStr case_type);
            ("court", JStr "U.S. District Court");
            ("case_number",
             JStr (str_of_Z n1 +:+ ":" +:+ str_of_Z (year t_year) +:+ ":cv:" +:+ str_of_Z n2));
            ("filing_date", JStr (strftime_date t_filing))]]
  else ret [].

Definition _check_state_courts (person_name : string) (alert_triggers : list string)
    : M (list Alert) :=
  env ← get_env;
  let states := ["California"; "Texas"; "Florida"; "New York"; "Illinois"] in
  hit ← random_lt 1080863910568919 56;
  if hit : bool then
    state ← random_choice states;
    court_type ← random_choice ["Superior Court"; "Circuit Court"; "District Court"];
    t_id ← now;
    t_created ← now;
    t_record ← now;
    ret [mkAlert
           ("state_" +:+ lower state +:+ "_" +:+ replace_space person_name +:+ "_"
              +:+ fmt_timestamp env t_id)
           ("Caso en Tribunal Estatal - " +:+ state)
           ("Nuevo registro en " +:+ court_type +:+ " de " +:+ state +:+ " para "
              +:+ person_name)
           WARNING
           ("state_court_" +:+ lower state)
           person_name
           None
           t_created
           [EMAIL]
           [("state", JStr state);
            ("court_type", JStr court_type);
            ("case_category", JStr "Civil/Criminal TBD");
            ("record_date", JStr (strftime_date t_record))]]
  else ret [].

(** ** Channel dispatchers *)

Definition nl : string := String (ascii_of_nat 10) EmptyString.

Definition email_subject (alert : Alert) : string :=
  "TAVIT Alert [" +:+ upper (severity_value (severity alert)) +:+ "]: " +:+ title alert.

Definition email_body (env : Env) (alert : Alert) : string :=
  let ind := "            " in
  nl +:+ ind +:+ "ALERTA AUTOMÁTICA TAVIT" +:+ nl
  +:+ ind +:+ nl
  +:+ ind +:+ "Severidad: " +:+ upper (severity_value (severity alert)) +:+ nl
  +:+ ind +:+ "Objetivo: " +:+ target_person alert +:+ nl
  +:+ ind +:+ "Fuente: " +:+ source alert +:+ nl
  +:+ ind +:+ "Fecha: " +:+ strftime_datetime (created_at alert) +:+ nl
  +:+ ind +:+ nl
  +:+ ind +:+ "Mensaje:" +:+ nl
  +:+ ind +:+ message alert +:+ nl
  +:+ ind +:+ nl
  +:+ ind +:+ "Metadatos:" +:+ nl
  +:+ ind +:+ json_dumps env (metadata alert) +:+ nl
  +:+ ind +:+ nl
  +:+ ind +:+ "---" +:+ nl
  +:+ ind +:+ "Sistema de Monitoreo Automático TAVIT" +:+ nl
  +:+ ind.

Definition _send_email_alert (alert : Alert) : M unit :=
  emit (EvDispatch EMAIL alert);;
  try_except
    (self ← get_self;
     if String.eqb (email_password self) "" then
       print ("Email not configured, would send: " +:+ title alert)
     else
       env ← get_env;
       let subject := email_subject alert in
       let body := email_body env alert in
       failure ← ask env_smtp;
       match failure with
       | Some e => raise e
       | None =>
           emit (EvSmtp email_smtp_server email_smtp_port (email_username self)
                        (email_password self) email_from "admin@tavit.com" subject body)
       end)
    (fun e => print ("Error sending email alert: " +:+ exn_str e)).

(** The [payload] dictionary of [_send_webhook_alert], in insertion order. *)
Definition webhook_payload (alert : Alert) : list (string * json) :=
  [("alert_id", JStr (alert_id alert));
   ("title", JStr (title alert));
   ("message", JStr (message alert));
   ("severity", JStr (severity_value (severity alert)));
   ("source", JStr (source alert));
   ("target_person", JStr (target_person alert));
   ("target_id", match target_id alert with Some i => JStr i | None => JNull end);
   ("created_at", JStr (isoformat (created_at alert)));
   ("metadata", JDict (metadata alert))].

Definition _send_webhook_alert (alert : Alert) : M unit :=
  emit (EvDispatch WEBHOOK alert);;
  try_except
    (self ← get_self;
     let url := webhook_url self in
     if String.eqb url "" then
       print ("Webhook not configured, would send: " +:+ title alert)
     else
       let payload := webhook_payload alert in
       emit (EvHttpPost url payload webhook_timeout);;
       yield;;
       reply ← ask env_http;
       match reply with
       | HttpFails e => raise e
       | HttpResponse status_code _ =>
           if negb (status_code =? 200) then
             print ("Webhook failed with status " +:+ str_of_Z status_code)
           else ret tt
       end)
    (fun e => print ("Error sending webhook alert: " +:+ exn_str e)).

Definition _send_sms_alert (alert : Alert) : M unit :=
  emit (EvDispatch SMS alert);;
  print ("SMS Alert (simulated): " +:+ title alert +:+ " - " +:+ message alert).

Definition _send_slack_alert (alert : Alert) : M unit :=
  emit (EvDispatch SLACK alert);;
  print ("Slack Alert (simulated): " +:+ title alert).

(** ** Alert pipeline *)

(** [self.alerts_queue.append(alert)] *)
Definition append_alert (alert : Alert) : M unit :=
  modify_self (fun self => with_queue (alerts_queue self ++ [alert]) self);;
  emit (EvQueued alert).

Definition dispatch_channel (alert : Alert) (channel_name : string) : M unit :=
  if String.eqb channel_name "email" then _send_email_alert alert
  else if String.eqb channel_name "webhook" then _send_webhook_alert alert
  else if String.eqb channel_name "sms" then _send_sms_alert alert
  else if String.eqb channel_name "slack" then _send_slack_alert alert
  else ret tt.

Definition _process_alert (alert : Alert) (channels : list string) : M unit :=
  append_alert alert;;
  for_each channels (dispatch_channel alert).

Definition send_completion_notification (investigation_id : string) : M unit :=
  env ← get_env;
  t_id ← now;
  t_created ← now;
  let alert :=
    mkAlert ("completion_" +:+ investigation_id +:+ "_" +:+ fmt_timestamp env t_id)
            "Investigación Completada"
            ("La investigación " +:+ investigation_id
               +:+ " ha sido completada exitosamente")
            INFO
            "system"
            "Sistema"
            (Some investigation_id)
            t_created
            [EMAIL]
            [("investigation_id", JStr investigation_id)] in
  _process_alert alert ["email"; "webhook"].

(** ** The polling loop *)

(** The four checkers are methods looked up on [self] at each call. *)
Record Checkers := mkCheckers {
  check_courtlistener : string -> list string -> M (list Alert);
  check_vinelink : string -> string -> M (list Alert);
  check_pacer : string -> list string -> M (list Alert);
  check_state_courts : string -> list string -> M (list Alert)
}.

Definition NotificationManager_checkers : Checkers :=
  mkCheckers _check_courtlistener _check_vinelink _check_pacer _check_state_courts.

(** The [try] block of one iteration, for the monitor dictionary at [l]. *)
Definition check_cycle (cs : Checkers) (l : nat) : M unit :=
  monitor ← monitor_at l;
  courtlistener_alerts ←
    check_courtlistener cs (person_name monitor) (alert_triggers monitor);
  monitor ← monitor_at l;
  vinelink_alerts ← check_vinelink cs (person_name monitor) (person_id monitor);
  monitor ← monitor_at l;
  pacer_alerts ← check_pacer cs (person_name monitor) (alert_triggers monitor);
  monitor ← monitor_at l;
  state_alerts ← check_state_courts cs (person_name monitor) (alert_triggers monitor);
  let new_alerts :=
    (courtlistener_alerts ++ vinelink_alerts ++ pacer_alerts ++ state_alerts)%list in
  for_each new_alerts
    (fun alert => monitor ← monitor_at l; _process_alert alert (mon_channels monitor));;
  t ← now;
  modify_self (fun self => with_objects (alter (set_last_check t) l (objects self)) self);;
  monitor ← monitor_at l;
  sleep (check_interval monitor).

Definition error_alert_of (env : Env) (monitor_id : string) (monitor : Monitor)
    (e : Exn) (t_id t_created : datetime) : Alert :=
  mkAlert ("error_" +:+ monitor_id +:+ "_" +:+ fmt_timestamp env t_id)
          "Error en Monitoreo"
          ("Error monitoreando " +:+ person_name monitor +:+ ": " +:+ exn_str e)
          WARNING
          "system"
          (person_name monitor)
          (Some (person_id monitor))
          t_created
          [EMAIL]
          [("monitor_id", JStr monitor_id); ("error", JStr (exn_str e))].

(** The [except Exception as e] block of one iteration. *)
Definition on_exception (monitor_id : string) (l : nat) (e : Exn) : M unit :=
  env ← get_env;
  t_id ← now;
  monitor ← monitor_at l;
  t_created ← now;
  let error_alert := error_alert_of env monitor_id monitor e t_id t_created in
  monitor ← monitor_at l;
  _process_alert error_alert (mon_channels monitor);;
  sleep 300.

Definition iteration (cs : Checkers) (monitor_id : string) (l : nat) : M unit :=
  try_except (check_cycle cs l) (on_exception monitor_id l).

(** How far a call has got after a bounded number of loop iterations. *)
Inductive Outcome (A : Type) :=
  | Returned (a : A) (w : World)
  | Failed (e : Exn) (w : World)
  | Running (w : World).
Arguments Returned {A} a w.
Arguments Failed {A} e w.
Arguments Running {A} w.

(** [while monitor["active"]: ...], run for at most [fuel] iterations. *)
Fixpoint monitoring_loop (fuel : nat) (cs : Checkers) (monitor_id : string) (l : nat)
    (env : Env) (w : World) : Outcome unit :=
  if active (objects (mgr w) !!! l) then
    match fuel with
    | O => Running w
    | S fuel' =>
        match iteration cs monitor_id l env w with
        | Ok _ w' => monitoring_loop fuel' cs monitor_id l env w'
        | Raised e w' => Failed e w'
        end
    end
  else Returned tt w.

Definition _start_monitoring_loop (fuel : nat) (cs : Checkers) (monitor_id : string)
    (env : Env) (w : World) : Outcome unit :=
  match active_monitors (mgr w) !! monitor_id with
  | None => Returned tt w
  | Some l => monitoring_loop fuel cs monitor_id l env w
  end.

(** The first statements of [setup_person_monitoring], up to and including
    [self.active_monitors[monitor_id] = monitor_config]. *)
Definition register_monitor (person_name person_id : string)
    (alert_triggers notification_channels : list string) : M string :=
  t ← now;
  let monitor_config :=
    monitor_config person_name person_id alert_triggers notification_channels t in
  modify_self (register monitor_config);;
  ret (mon_id monitor_config).

Definition setup_person_monitoring (fuel : nat) (cs : Checkers)
    (person_name person_id : string) (alert_triggers notification_channels : list string)
    (env : Env) (w : World) : Outcome string :=
  match register_monitor person_name person_id alert_triggers notification_channels env w with
  | Raised e w1 => Failed e w1
  | Ok monitor_id w1 =>
      match _start_monitoring_loop fuel cs monitor_id env w1 with
      | Returned _ w2 => Returned monitor_id w2
      | Failed e w2 => Failed e w2
      | Running w2 => Running w2
      end
  end.

(** ** A concrete world for examples *)

Module Sample.

Definition t0 : datetime := mkDatetime 2026 11 3 12 0 0 0.

(** An environment where nothing happens: the clock stands at [t0], no
    draw hits, HTTP answers 200 with an empty object, SMTP works, no other
    task touches the manager, and standard output takes every line. *)
Definition quiet : Env :=
  mkEnv (fun _ => t0) (fun _ => 2 ^ 52) (fun _ => 0)
        (fun _ => HttpResponse 200 (Some (JDict []))) (fun _ => None)
        (fun _ => []) (fun _ => "x") (fun _ => "1793707200.0") (fun _ => "{}") (fun _ _ => None).

(** The same, with every draw a hit. *)
Definition lucky : Env :=
  mkEnv (fun _ => t0) (fun _ => 0) (fun _ => 0)
        (fun _ => HttpResponse 200 (Some (JDict []))) (fun _ => None)
        (fun _ => []) (fun _ => "x") (fun _ => "1793707200.0") (fun _ => "{}") (fun _ _ => None).

(** The manager of a process with no configuration in its environment. *)
Definition fresh : World := mkWorld (NotificationManager_init (fun _ => None)) 0 [].

(** The manager of a process with a webhook URL configured. *)
Definition hooked : World :=
  mkWorld (NotificationManager_init
             (fun k => if String.eqb k "WEBHOOK_URL" then Some "https://hooks.example/t"
                       else None)) 0 [].

Definition jane : Alert :=
  mkAlert "vine_Jane_Doe_1793707200.0" "Alerta" "msg" URGENT "vinelink" "Jane Doe"
          (Some "42") t0 [EMAIL; SMS] [("facility", JStr "F")].

End Sample.

(** ** The ISO-8601 shape of a timestamp

    [YYYY-MM-DDTHH:MM:SS], optionally followed by a fraction of six digits. *)

Definition is_digit (c : ascii) : bool :=
  let n := nat_of_ascii c in (Nat.leb 48 n && Nat.leb n 57)%bool.

(** [shape pat s]: [s] follows [pat], where a [d] of [pat] stands for any
    digit and every other character for itself. *)
Fixpoint shape (pat s : string) : bool :=
  match pat, s with
  | EmptyString, EmptyString => true
  | String p pat', String c s' =>
      (if Ascii.eqb p "d"%char then is_digit c else Ascii.eqb p c) && shape pat' s'
  | _, _ => false
  end.

Definition iso8601_shape (s : string) : bool :=
  shape "dddd-dd-ddTdd:dd:dd" s || shape "dddd-dd-ddTdd:dd:dd.dddddd" s.

(** ** Reading a trace *)

(** The marks of a trace: what the task appended to the alert log and the
    dispatchers it entered, in order. *)
Definition is_mark (ev : Event) : bool :=
  match ev with
  | EvQueued _ | EvDispatch _ _ => true
  | _ => false
  end.

Definition marks (tr : list Event) : list Event := List.filter is_mark tr.

(** The channel a name of [_process_alert]'s [if]/[elif] chain selects. *)
Definition parse_channel (channel_name : string) : option NotificationChannel :=
  if String.eqb channel_name "email" then Some EMAIL
  else if String.eqb channel_name "webhook" then Some WEBHOOK
  else if String.eqb channel_name "sms" then Some SMS
  else if String.eqb channel_name "slack" then Some SLACK
  else None.

(** The alert log of [w'] is the one of [w] with alerts added at its end. *)
Definition grows (w w' : World) : Prop :=
  exists more, alerts_queue (mgr w') = (alerts_queue (mgr w) ++ more)%list.

(** [m] returns from [w] without raising, having left the marks [d]. *)
Definition does (m : M unit) (env : Env) (w : World) (d : list Event) : Prop :=
  exists w', m env w = Ok tt w'
             /\ marks (trace w') = (marks (trace w) ++ d)%list
             /\ grows w w'.

(** The alerts a checker hands back; none when it raises. *)
Definition result_alerts (r : Res (list Alert)) : list Alert :=
  match r with
  | Ok alerts _ => alerts
  | Raised _ _ => []
  end.

(** A process with a CourtListener token configured. *)
Definition with_token (token : string) (w : World) : World :=
  mkWorld (mkManager (alerts_queue (mgr w)) (active_monitors (mgr w)) (objects (mgr w))
                     (email_username (mgr w)) (email_password (mgr w))
                     (webhook_url (mgr w)) (Some token))
          (tick w) (trace w).

(** No other task calls [stop_monitoring]. *)
Definition is_stop (f : Foreign) : bool :=
  match f with
  | FStop _ => true
  | _ => false
  end.

Definition no_stops (env : Env) : Prop :=
  forall t, forallb (fun f => negb (is_stop f)) (env_others env t) = true.

(** Every monitor dictionary of [s] is still there in [s'], with its
    [active] flag as it was. *)
Definition flags_kept (s s' : Manager) : Prop :=
  (length (objects s) <= length (objects s'))%nat
  /\ forall l, (l < length (objects s))%nat ->
               active (objects s' !!! l) = active (objects s !!! l).


(** A standard output that encodes ASCII only, as under
    [PYTHONIOENCODING=ascii]: a line with any other character is refused. *)
Definition is_ascii (line : string) : bool :=
  forallb (fun c => Nat.ltb (nat_of_ascii c) 128) (list_ascii_of_string line).

Definition ascii_stdout (n : nat) (line : string) : option Exn :=
  if is_ascii line then None
  else Some (UnicodeEncodeError "'ascii' codec can't encode character").

(** An environment with that standard output in which CourtListener reports
    one opinion that mentions an arrest, and no draw hits. *)
Definition reported : Env :=
  mkEnv (fun _ => Sample.t0) (fun _ => 2 ^ 52) (fun _ => 0)
        (fun _ => HttpResponse 200
                    (Some (JDict [("results",
                                   JList [JDict [("id", JInt 7);
                                                 ("case_name", JStr "US v. Doe");
                                                 ("plain_text", JStr "The arrest was lawful")]])])))
        (fun _ => None) (fun _ => []) (fun _ => "x") (fun _ => "0.0") (fun _ => "{}")
        ascii_stdout.

(** An environment in which another task stops Jane Doe's monitor whenever
    the polling task is suspended. *)
Definition stopping : Env :=
  mkEnv (fun _ => Sample.t0) (fun _ => 2 ^ 52) (fun _ => 0)
        (fun _ => HttpResponse 200 (Some (JDict []))) (fun _ => None)
        (fun _ => [FStop "monitor_Jane_Doe_20261103_120000"])
        (fun _ => "x") (fun _ => "1793707200.0") (fun _ => "{}") (fun _ _ => None).

(** The check that [month_day] inverts [month_offset] on day [n] of a year. *)
Definition yday_ok (leap : bool) (n : Z) : bool :=
  let '(m, d) := month_day leap n in
  (1 <=? m) && (m <=? 12) && (1 <=? d) && (d <=? month_days leap m)
  && (month_offset leap m + d =? n + 1).

(** The two readings fall in the same second of the calendar. *)
Definition same_second (t1 t2 : datetime) : Prop :=
  year t1 = year t2 /\ month t1 = month t2 /\ day t1 = day t2 /\
  hour t1 = hour t2 /\ minute t1 = minute t2 /\ second t1 = second t2.

(** The fields of the body the webhook dispatcher posts. *)
Definition webhook_fields : list string :=
  ["alert_id"; "title"; "message"; "severity"; "source"; "target_person";
   "target_id"; "created_at"; "metadata"].

(** [m] takes every manager to one related to it by [R]. *)
Definition preserves (R : Manager -> Manager -> Prop) (env : Env) {A} (m : M A) : Prop :=
  forall w, R (mgr w) (mgr (world_of (m env w))).

(** ** Further relations between managers *)

(** The world a call has reached. *)
Definition outcome_world {A} (o : Outcome A) : World :=
  match o with
  | Returned _ w => w
  | Failed _ w => w
  | Running w => w
  end.

(** The alert log of [s'] is the one of [s] with alerts added at its end. *)
Definition log_grows (s s' : Manager) : Prop :=
  exists more, alerts_queue s' = (alerts_queue s ++ more)%list.

(** [m'] is [m] up to the two fields the code assigns after registration,
    ["active"] and ["last_check"]. *)
Definition same_identity (m m' : Monitor) : Prop :=
  mon_id m' = mon_id m /\ person_name m' = person_name m
  /\ person_id m' = person_id m /\ alert_triggers m' = alert_triggers m
  /\ mon_channels m' = mon_channels m /\ check_interval m' = check_interval m
  /\ sources m' = sources m.

(** Every monitor dictionary of [s] is still there in [s'] with the same
    identity, and the configuration of the manager is the same. *)
Definition monitors_frozen (s s' : Manager) : Prop :=
  (length (objects s) <= length (objects s'))%nat
  /\ (forall l, (l < length (objects s))%nat ->
                same_identity (objects s !!! l) (objects s' !!! l))
  /\ email_username s' = email_username s
  /\ email_password s' = email_password s
  /\ webhook_url s' = webhook_url s
  /\ courtlistener_token s' = courtlistener_token s.

(** Every id of the registry is bound to the address of a dictionary. *)
Definition wf_manager (s : Manager) : Prop :=
  forall i l, active_monitors s !! i = Some l -> (l < length (objects s))%nat.

(** The dictionary at [l] is active and no id of the registry is bound to
    it any more. *)
Definition orphaned (l : nat) (s : Manager) : Prop :=
  (l < length (objects s))%nat
  /\ active (objects s !!! l) = true
  /\ forall i, active_monitors s !! i <> Some l.

(** ** The caller in dashboard_api.py *)

(** [range(start, stop, step)] for a positive [step]. *)
Fixpoint range_from (n : nat) (start step : Z) : list Z :=
  match n with
  | O => []
  | S n' => start :: range_from n' (start + step) step
  end.

Definition py_range (start stop step : Z) : list Z :=
  range_from (Z.to_nat ((stop - start + step - 1) / step)) start step.

Definition ai_analysis_result : json :=
  JDict [("risk_score", JFloat "65.3"); ("fraud_probability", JFloat "18.7");
         ("confidence", JFloat "0.89"); ("recommendation", JStr "APPROVE_WITH_MONITORING")].

(** The body of the [for progress in range(0, 101, 20)] loop, on the
    investigation dictionary. *)
Definition investigation_step (investigation : gmap string json) (progress : Z)
    : gmap string json :=
  let investigation := <["progress" := JInt progress]> investigation in
  if progress =? 100 then
    <["ai_analysis" := ai_analysis_result]>
      (<["status" := JStr "completed"]> investigation)
  else investigation.

(** [process_investigation], on [corporate_database["investigations"]]. *)
Definition process_investigation (investigations : gmap string (gmap string json))
    (investigation_id : string) (env : Env) (w : World)
    : gmap string (gmap string json) * Res unit :=
  match investigations !! investigation_id with
  | None => (investigations, Raised (KeyError investigation_id) w)
  | Some investigation =>
      let investigation := foldl investigation_step investigation (py_range 0 101 20) in
      (<[investigation_id := investigation]> investigations,
       send_completion_notification investigation_id env w)
  end.

(** An event that leaves the process: an HTTP request or an SMTP session. *)
Definition is_network (ev : Event) : bool :=
  match ev with
  | EvHttpGet _ _ _ | EvHttpPost _ _ _ | EvSmtp _ _ _ _ _ _ _ _ => true
  | _ => false
  end.

(** ** Opinions of the expected shape

    What [_check_courtlistener] reads of an opinion: a dictionary with an
    ["id"], a ["plain_text"] that is a string when present, and a
    ["cluster"] and in it a ["docket"] that are dictionaries when present. *)

Definition well_formed_opinion (opinion : json) : bool :=
  match opinion with
  | JDict kv =>
      match assoc "id" kv with Some _ => true | None => false end
      && match assoc "plain_text" kv with
         | None | Some (JStr _) => true
         | _ => false
         end
      && match assoc "cluster" kv with
         | None => true
         | Some (JDict ckv) =>
             match assoc "docket" ckv with
             | None | Some (JDict _) => true
             | _ => false
             end
         | _ => false
         end
  | _ => false
  end.

(** [opinion.get("plain_text", "")] of such an opinion. *)
Definition opinion_text (opinion : json) : string :=
  match opinion with
  | JDict kv =>
      match assoc "plain_text" kv with
      | Some (JStr text) => text
      | _ => ""
      end
  | _ => ""
  end.

(** [opinion.get(k)] of an opinion that is a dictionary. *)
Definition opinion_field (opinion : json) (k : string) : json :=
  match opinion with
  | JDict kv => default JNull (assoc k kv)
  | _ => JNull
  end.

(** The lower-cased text of the opinion contains one of the three words
    that is also among the triggers. *)
Definition opinion_matches (alert_triggers : list string) (opinion : json) : bool :=
  existsb (fun trigger => contains trigger (lower (opinion_text opinion)))
          (List.filter (fun trigger => str_in trigger alert_triggers) keyword_triggers).

(** The marks one alert leaves when it is processed on the channels
    [chans]. *)
Definition alert_marks (chans : list string) (a : Alert) : list Event :=
  EvQueued a :: map (fun c => EvDispatch c a) (omap parse_channel chans).

(** The last statements of the [try] block of the loop:
    [monitor["last_check"] = datetime.now()] and the sleep. *)
Definition finish_cycle (l : nat) : M unit :=
  t ← now;
  modify_self (fun self => with_objects (alter (set_last_check t) l (objects self)) self);;
  monitor ← monitor_at l;
  sleep (check_interval monitor).

(** The monitor dictionary at [l] exists and has a last check time. *)
Definition checked_at (l : nat) (s : Manager) : Prop :=
  (l < length (objects s))%nat /\ is_Some (last_check (objects s !!! l)).

(** * Properties *)

(** ** Sanity checks *)

Example isoformat_ex1 :
  isoformat (mkDatetime 2026 11 3 15 5 0 0) = "2026-11-03T15:05:00".
Proof. reflexivity. Qed.

Example isoformat_ex2 :
  isoformat (mkDatetime 2026 11 3 15 5 0 12) = "2026-11-03T15:05:00.000012".
Proof. reflexivity. Qed.

Example of_micros_ex :
  of_micros (to_micros (mkDatetime 2024 2 29 23 59 59 999999) + 1)
  = mkDatetime 2024 3 1 0 0 0 0.
Proof. vm_compute. reflexivity. Qed.

Example toordinal_max : toordinal (mkDatetime 9999 12 31 0 0 0 0) = MAXORDINAL.
Proof. reflexivity. Qed.

Example iso8601_shape_ex1 : iso8601_shape "2026-11-03T15:05:00" = true.
Proof. reflexivity. Qed.

Example iso8601_shape_ex2 : iso8601_shape "2026-11-03 15:05:00" = false.
Proof. reflexivity. Qed.

Example make_monitor_id_ex :
  make_monitor_id "Jane Doe" Sample.t0 = "monitor_Jane_Doe_20261103_120000".
Proof. reflexivity. Qed.

Example setup_quiet_ex :
  match setup_person_monitoring 3 NotificationManager_checkers "Jane Doe" "42"
          ["arrest"] ["webhook"] Sample.quiet Sample.fresh with
  | Running w => trace w = [EvSleep 3600; EvSleep 3600; EvSleep 3600]
  | _ => False
  end.
Proof. vm_compute. reflexivity. Qed.

Example setup_lucky_ex :
  match setup_person_monitoring 1 NotificationManager_checkers "Jane Doe" "42"
          ["arrest"] ["sms"] Sample.lucky Sample.fresh with
  | Running w =>
      map source (alerts_queue (mgr w)) = ["vinelink"; "pacer"; "state_court_california"]
      /\ length (trace w) = 10%nat
  | _ => False
  end.
Proof. vm_compute. split; reflexivity. Qed.

(** ** The calendar

    [ord2ymd] inverts [ymd2ord] on the days a datetime can name, and the
    field-wise order of valid datetimes is their order on the time line. *)

Lemma yday_ok_all (leap : bool) (n : Z) :
  0 <= n < 365 + Z_of_bool leap -> yday_ok leap n = true.
Proof.
  intros Hn.
  assert (Hall : forallb (fun k => yday_ok leap (Z.of_nat k))
                         (seq 0 (Z.to_nat (365 + Z_of_bool leap))) = true).
  { destruct leap; vm_compute; reflexivity. }
  rewrite forallb_forall in Hall.
  specialize (Hall (Z.to_nat n)).
  rewrite Z2Nat.id in Hall by lia. apply Hall.
  apply in_seq. lia.
Qed.

Lemma month_day_spec (leap : bool) (n : Z) :
  0 <= n < 365 + Z_of_bool leap ->
  let '(m, d) := month_day leap n in
  1 <= m <= 12 /\ 1 <= d <= month_days leap m /\ month_offset leap m + d = n + 1.
Proof.
  intros Hn. pose proof (yday_ok_all leap n Hn) as H. unfold yday_ok in H.
  destruct (month_day leap n) as [m d].
  rewrite !andb_true_iff in H. lia.
Qed.

Lemma ord2ymd_spec (n : Z) :
  1 <= n <= MAXORDINAL ->
  let '(y, m, d) := ord2ymd n in
  valid_date y m d /\ ymd2ord y m d = n.
Proof.
  intros Hn. unfold MAXORDINAL in Hn. unfold ord2ymd.
  set (a := n - 1).
  set (n400 := a / 146097). set (r400 := a mod 146097).
  set (n100 := r400 / 36524). set (r100 := r400 mod 36524).
  set (n4 := r100 / 1461). set (r4 := r100 mod 1461).
  set (n1 := r4 / 365). set (r1 := r4 mod 365).
  assert (Ha : a = 146097 * n400 + r400 /\ 0 <= r400 < 146097 /\ 0 <= n400 <= 24).
  { subst n400 r400 a. pose proof (Z.div_mod (n - 1) 146097).
    pose proof (Z.mod_pos_bound (n - 1) 146097).
    assert (0 <= (n-1) / 146097) by (apply Z.div_pos; lia).
    assert ((n-1) / 146097 < 25) by (apply Z.div_lt_upper_bound; lia). lia. }
  assert (H100 : r400 = 36524 * n100 + r100 /\ 0 <= r100 < 36524 /\ 0 <= n100 <= 4).
  { subst n100 r100. pose proof (Z.div_mod r400 36524).
    pose proof (Z.mod_pos_bound r400 36524).
    assert (0 <= r400 / 36524) by (apply Z.div_pos; lia).
    assert (r400 / 36524 < 5) by (apply Z.div_lt_upper_bound; lia). lia. }
  assert (H4 : r100 = 1461 * n4 + r4 /\ 0 <= r4 < 1461 /\ 0 <= n4 <= 24).
  { subst n4 r4. pose proof (Z.div_mod r100 1461).
    pose proof (Z.mod_pos_bound r100 1461).
    assert (0 <= r100 / 1461) by (apply Z.div_pos; lia).
    assert (r100 / 1461 < 25) by (apply Z.div_lt_upper_bound; lia). lia. }
  assert (H1 : r4 = 365 * n1 + r1 /\ 0 <= r1 < 365 /\ 0 <= n1 <= 4).
  { subst n1 r1. pose proof (Z.div_mod r4 365).
    pose proof (Z.mod_pos_bound r4 365).
    assert (0 <= r4 / 365) by (apply Z.div_pos; lia).
    assert (r4 / 365 < 5) by (apply Z.div_lt_upper_bound; lia). lia. }
  clearbody n400 r400 n100 r100 n4 r4 n1 r1.
  destruct ((n1 =? 4) || (n100 =? 4)) eqn:Hb.
  - (* the last day of a leap year *)
    set (y := n400 * 400 + 1 + n100 * 100 + n4 * 4 + n1 - 1).
    assert (Hy : exists k, y = 4 * k /\ 1 <= k /\
                 (n100 = 4 /\ n4 = 0 /\ n1 = 0 /\ r1 = 0 /\ r100 = 0
                  \/ n100 < 4 /\ n1 = 4 /\ n4 < 24 /\ r1 = 0)).
    { apply orb_true_iff in Hb. destruct (Z.eq_dec n100 4) as [E|E].
      - exists (100 * n400 + 100). subst y. lia.
      - destruct Hb as [Hb|Hb]; [|lia]. apply Z.eqb_eq in Hb.
        exists (100 * n400 + 25 * n100 + n4 + 1). subst y. lia. }
    destruct Hy as (k & Hk & Hk1 & Hcase).
    assert (Hleap : is_leap y = true).
    { unfold is_leap. rewrite Hk.
      replace (4 * k) with (k * 4) by lia. rewrite Z.mod_mul by lia. simpl.
      destruct Hcase as [C|C].
      - assert (k * 4 = (n400 + 1) * 400) as -> by (subst y; lia).
        rewrite Z.mod_mul by lia. simpl. apply orb_true_r.
      - assert (Hne : (k * 4) mod 100 <> 0).
        { intros Hm. apply Z.mod_divide in Hm; [|lia]. destruct Hm as [q Hq].
          subst y. lia. }
        apply Z.eqb_neq in Hne. rewrite Hne. reflexivity. }
    unfold valid_date, ymd2ord, days_in_month, days_before_month. rewrite Hleap.
    change (month_days true 12) with 31. change (month_offset true 12) with 335.
    unfold days_before_year.
    assert (Hq4 : (y - 1) / 4 = k - 1).
    { symmetry; apply Z.div_unique with (r := 3); lia. }
    destruct Hcase as [C|C].
    + assert (Hq100 : (y - 1) / 100 = 4 * n400 + 3).
      { symmetry; apply Z.div_unique with (r := 99); subst y; lia. }
      assert (Hq400 : (y - 1) / 400 = n400).
      { symmetry; apply Z.div_unique with (r := 399); subst y; lia. }
      rewrite Hq4, Hq100, Hq400. subst y a. lia.
    + assert (Hq100 : (y - 1) / 100 = 4 * n400 + n100).
      { symmetry; apply Z.div_unique with (r := 4 * n4 + 3); subst y; lia. }
      assert (Hq400 : (y - 1) / 400 = n400).
      { symmetry; apply Z.div_unique with (r := 100 * n100 + 4 * n4 + 3); subst y; lia. }
      rewrite Hq4, Hq100, Hq400. subst y a. lia.
  - apply orb_false_iff in Hb. destruct Hb as [Hb1 Hb2].
    apply Z.eqb_neq in Hb1, Hb2.
    set (y := n400 * 400 + 1 + n100 * 100 + n4 * 4 + n1).
    set (leapyear := (n1 =? 3) && (negb (n4 =? 24) || (n100 =? 3))).
    assert (Hleap : is_leap y = leapyear).
    { unfold is_leap, leapyear.
      assert (E4 : y mod 4 = (n1 + 1) mod 4).
      { subst y. replace (n400 * 400 + 1 + n100 * 100 + n4 * 4 + n1)
          with ((n1 + 1) + (n400 * 100 + n100 * 25 + n4) * 4) by lia.
        apply Z.mod_add. lia. }
      assert (E100 : y mod 100 = (n4 * 4 + n1 + 1) mod 100).
      { subst y. replace (n400 * 400 + 1 + n100 * 100 + n4 * 4 + n1)
          with ((n4 * 4 + n1 + 1) + (n400 * 4 + n100) * 100) by lia.
        apply Z.mod_add. lia. }
      assert (E400 : y mod 400 = (n100 * 100 + n4 * 4 + n1 + 1) mod 400).
      { subst y. replace (n400 * 400 + 1 + n100 * 100 + n4 * 4 + n1)
          with ((n100 * 100 + n4 * 4 + n1 + 1) + n400 * 400) by lia.
        apply Z.mod_add. lia. }
      rewrite E4, E100, E400.
      destruct (Z.eqb_spec n1 3) as [->|N1].
      - change ((3 + 1) mod 4) with 0. simpl.
        destruct (Z.eqb_spec n4 24) as [->|N4].
        + change ((24 * 4 + 3 + 1) mod 100) with 0. simpl.
          destruct (Z.eqb_spec n100 3) as [->|N100].
          * reflexivity.
          * apply Z.eqb_neq. rewrite Z.mod_small by lia. lia.
        + simpl. assert ((n4 * 4 + 3 + 1) mod 100 <> 0) as Hne.
          { rewrite Z.mod_small by lia. lia. }
          apply Z.eqb_neq in Hne. rewrite Hne. reflexivity.
      - assert ((n1 + 1) mod 4 <> 0) as Hne.
        { rewrite Z.mod_small by lia. lia. }
        apply Z.eqb_neq in Hne. rewrite Hne. reflexivity. }
    pose proof (month_day_spec leapyear r1) as Hmd.
    destruct (month_day leapyear r1) as [m d].
    assert (Hr : 0 <= r1 < 365 + Z_of_bool leapyear) by (destruct leapyear; simpl; lia).
    specialize (Hmd Hr). destruct Hmd as (Hm & Hd & Hsum).
    unfold valid_date, ymd2ord, days_in_month, days_before_month. rewrite Hleap.
    unfold days_before_year.
    assert (Hq4 : (y - 1) / 4 = 100 * n400 + 25 * n100 + n4).
    { symmetry; apply Z.div_unique with (r := n1); subst y; lia. }
    assert (Hq100 : (y - 1) / 100 = 4 * n400 + n100).
    { symmetry; apply Z.div_unique with (r := 4 * n4 + n1); subst y; lia. }
    assert (Hq400 : (y - 1) / 400 = n400).
    { symmetry; apply Z.div_unique with (r := 100 * n100 + 4 * n4 + n1); subst y; lia. }
    rewrite Hq4, Hq100, Hq400. subst y a.
    assert (n400 = 24 -> 146097 * 24 + r400 <= 3652058) by lia.
    lia.
Qed.

Lemma days_before_year_succ (y : Z) :
  days_before_year (y + 1) = days_before_year y + 365 + Z_of_bool (is_leap y).
Proof.
  unfold days_before_year, is_leap.
  replace (y + 1 - 1) with y by lia.
  destruct (Z.eqb_spec (y mod 4) 0); destruct (Z.eqb_spec (y mod 100) 0);
    destruct (Z.eqb_spec (y mod 400) 0); simpl; Z.div_mod_to_equations; lia.
Qed.

Lemma days_before_year_mono (y1 y2 : Z) :
  y1 <= y2 -> days_before_year y1 <= days_before_year y2.
Proof. unfold days_before_year. intros H. Z.div_mod_to_equations. lia. Qed.

Lemma month_cases (m : Z) :
  1 <= m <= 12 ->
  m = 1 \/ m = 2 \/ m = 3 \/ m = 4 \/ m = 5 \/ m = 6 \/
  m = 7 \/ m = 8 \/ m = 9 \/ m = 10 \/ m = 11 \/ m = 12.
Proof. lia. Qed.

Ltac each_month H :=
  apply month_cases in H;
  repeat (destruct H as [H|H]; [subst|]); [..|subst].

Lemma year_length (leap : bool) (m d : Z) :
  1 <= m <= 12 -> 1 <= d <= month_days leap m ->
  1 <= month_offset leap m + d <= 365 + Z_of_bool leap.
Proof.
  intros Hm. each_month Hm; destruct leap; vm_compute month_days;
    vm_compute month_offset; vm_compute Z_of_bool; lia.
Qed.

Lemma month_offset_mono (leap : bool) (m1 m2 : Z) :
  1 <= m1 -> m1 < m2 -> m2 <= 12 ->
  month_offset leap m1 + month_days leap m1 <= month_offset leap m2.
Proof.
  intros H1 H12 H2.
  assert (Hm1 : 1 <= m1 <= 12) by lia. assert (Hm2 : 1 <= m2 <= 12) by lia.
  each_month Hm1; each_month Hm2; try lia; destruct leap; vm_compute; discriminate.
Qed.

Lemma ymd2ord_lt (y1 m1 d1 y2 m2 d2 : Z) :
  valid_date y1 m1 d1 -> valid_date y2 m2 d2 ->
  lex_lt [y1; m1; d1] [y2; m2; d2] = true ->
  ymd2ord y1 m1 d1 < ymd2ord y2 m2 d2.
Proof.
  intros (Hy1 & Hm1 & Hd1) (Hy2 & Hm2 & Hd2) Hlt.
  unfold ymd2ord, days_before_month. unfold days_in_month in Hd1, Hd2.
  pose proof (year_length _ _ _ Hm1 Hd1) as L1.
  pose proof (year_length _ _ _ Hm2 Hd2) as L2.
  simpl in Hlt.
  destruct (Z.ltb_spec y1 y2) as [Y|Y].
  - pose proof (days_before_year_succ y1).
    pose proof (days_before_year_mono (y1 + 1) y2). lia.
  - simpl in Hlt. destruct (Z.eqb_spec y1 y2) as [->|]; [|discriminate]. simpl in Hlt.
    destruct (Z.ltb_spec m1 m2) as [Mo|Mo].
    + pose proof (month_offset_mono (is_leap y2) m1 m2). lia.
    + simpl in Hlt. destruct (Z.eqb_spec m1 m2) as [->|]; [|discriminate]. simpl in Hlt.
      destruct (Z.ltb_spec d1 d2) as [Dy|Dy]; [lia|].
      simpl in Hlt. rewrite andb_false_r in Hlt. discriminate.
Qed.

Lemma lex_trichotomy (a b : list Z) :
  length a = length b -> lex_lt a b = false -> a = b \/ lex_lt b a = true.
Proof.
  revert b. induction a as [|x a IH]; intros [|y b] Hlen Hlt; try discriminate.
  - by left.
  - simpl in *. apply orb_false_iff in Hlt. destruct Hlt as [Hxy Hrest].
    apply Z.ltb_ge in Hxy.
    destruct (Z.ltb_spec y x) as [|Hyx]; [by right|].
    assert (x = y) as -> by lia. rewrite Z.eqb_refl in *. simpl in *.
    destruct (IH b) as [->|]; auto.
Qed.

Lemma lex_lt_split (a1 b1 a2 b2 : list Z) :
  length a1 = length b1 ->
  lex_lt (a1 ++ a2) (b1 ++ b2) = true ->
  lex_lt a1 b1 = true \/ (a1 = b1 /\ lex_lt a2 b2 = true).
Proof.
  revert b1. induction a1 as [|x a1 IH]; intros [|y b1] Hlen Hlt; try discriminate.
  - right. by split.
  - simpl in *. destruct (Z.ltb_spec x y) as [|Hxy]; [by left|]. simpl in *.
    destruct (Z.eqb_spec x y) as [->|]; [|discriminate]. simpl in *.
    destruct (IH b1) as [?|[-> ?]]; auto.
Qed.

Lemma to_micros_lt (a b : datetime) :
  valid_datetime a -> valid_datetime b ->
  datetime_lt a b = true -> to_micros a < to_micros b.
Proof.
  intros (Da & Ha) (Db & Hb) Hlt.
  unfold datetime_lt, datetime_fields in Hlt. unfold to_micros, toordinal.
  unfold US_PER_DAY, US_PER_HOUR, US_PER_SECOND.
  destruct (lex_lt_split [year a; month a; day a] [year b; month b; day b]
              [hour a; minute a; second a; microsecond a]
              [hour b; minute b; second b; microsecond b] eq_refl Hlt) as [Hd|[E Ht]].
  - pose proof (ymd2ord_lt _ _ _ _ _ _ Da Db Hd). lia.
  - injection E as Ey Em Ed. rewrite Ey, Em, Ed. simpl in Ht.
    destruct (Z.ltb_spec (hour a) (hour b)); [lia|].
    destruct (Z.eqb_spec (hour a) (hour b)); [|discriminate].
    destruct (Z.ltb_spec (minute a) (minute b)); [lia|].
    destruct (Z.eqb_spec (minute a) (minute b)); [|discriminate].
    destruct (Z.ltb_spec (second a) (second b)); [lia|].
    destruct (Z.eqb_spec (second a) (second b)); [|discriminate].
    destruct (Z.ltb_spec (microsecond a) (microsecond b)); [lia|].
    simpl in Ht. rewrite andb_false_r in Ht. discriminate.
Qed.

Lemma to_micros_fields (a b : datetime) :
  datetime_fields a = datetime_fields b -> a = b.
Proof. destruct a, b. unfold datetime_fields. simpl. congruence. Qed.

Lemma datetime_lt_iff (a b : datetime) :
  valid_datetime a -> valid_datetime b ->
  datetime_lt a b = true <-> to_micros a < to_micros b.
Proof.
  intros Va Vb. split; [by apply to_micros_lt|].
  intros Hlt. destruct (datetime_lt a b) eqn:E; [reflexivity|exfalso].
  destruct (lex_trichotomy (datetime_fields a) (datetime_fields b) eq_refl E) as [Eq|Gt].
  - apply to_micros_fields in Eq. subst. lia.
  - pose proof (to_micros_lt b a Vb Va Gt). lia.
Qed.

Lemma of_micros_spec (t : Z) :
  1 <= t / US_PER_DAY <= MAXORDINAL ->
  valid_datetime (of_micros t) /\ to_micros (of_micros t) = t.
Proof.
  intros Hd. unfold of_micros.
  pose proof (ord2ymd_spec _ Hd) as Ho.
  destruct (ord2ymd (t / US_PER_DAY)) as [[y m] d]. destruct Ho as [Hv Ho].
  unfold valid_datetime, to_micros, toordinal. simpl. rewrite Ho.
  unfold US_PER_DAY, US_PER_HOUR, US_PER_SECOND in *.
  split; [split; [exact Hv|]|]; clear Hv Ho; Z.div_mod_to_equations; lia.
Qed.

(** ** Stopping a monitor *)

Section Stop.

Lemma stop_unknown (self : Manager) (monitor_id : string) :
  active_monitors self !! monitor_id = None ->
  stop_monitoring self monitor_id = (self, false).
Proof. intros H. unfold stop_monitoring. now rewrite H. Qed.

Lemma stop_known (self : Manager) (monitor_id : string) (l : nat) :
  active_monitors self !! monitor_id = Some l ->
  stop_monitoring self monitor_id
  = (with_objects (alter (set_active false) l (objects self)) self, true).
Proof. intros H. unfold stop_monitoring. now rewrite H. Qed.


Lemma stop_keeps_queue (self : Manager) (monitor_id : string) :
  alerts_queue (fst (stop_monitoring self monitor_id)) = alerts_queue self.
Proof. unfold stop_monitoring. now destruct (active_monitors self !! monitor_id). Qed.

End Stop.

(** C8. [stop_monitoring] on an id that is not in the registry returns false
    and hands back the manager as it was.  On a registered id it returns
    true; the registry keeps every binding, the monitor bound to the id is
    the same monitor with [active] false, no other monitor dictionary and no
    alert changes. *)
Theorem stop_monitoring_spec (self : Manager) (monitor_id : string) :
  (monitor_id ∉ dom (active_monitors self) ->
     stop_monitoring self monitor_id = (self, false))
  /\ (forall m : Monitor,
        get_monitor self monitor_id = Some m ->
        exists self',
          stop_monitoring self monitor_id = (self', true)
          /\ active_monitors self' = active_monitors self
          /\ get_monitor self' monitor_id = Some (set_active false m)
          /\ active (set_active false m) = false
          /\ alerts_queue self' = alerts_queue self
          /\ length (objects self') = length (objects self)
          /\ forall l' : nat,
               active_monitors self !! monitor_id <> Some l' ->
               objects self' !! l' = objects self !! l').
Proof.
  split.
  - intros Hnot. apply stop_unknown. by apply not_elem_of_dom.
  - intros m Hget. unfold get_monitor in Hget.
    destruct (active_monitors self !! monitor_id) as [l|] eqn:Hl; [|done].
    simpl in Hget.
    exists (with_objects (alter (set_active false) l (objects self)) self).
    split; [by apply stop_known|].
    repeat split; simpl.
    + unfold get_monitor. simpl. rewrite Hl. simpl.
      rewrite list_lookup_alter_eq. by rewrite Hget.
    + by rewrite length_alter.
    + intros l' Hne. apply list_lookup_alter_ne. congruence.
Qed.

Lemma stop_monitoring_spec_witness :
  let self := register (monitor_config "Jane Doe" "42" ["arrest"] ["sms"] Sample.t0)
                       (mgr Sample.fresh) in
  stop_monitoring self "nobody" = (self, false)
  /\ exists self',
       stop_monitoring self "monitor_Jane_Doe_20261103_120000" = (self', true)
       /\ (active <$> get_monitor self' "monitor_Jane_Doe_20261103_120000") = Some false.
Proof.
  intros self.
  destruct (stop_monitoring_spec self "nobody") as [Hunknown _].
  destruct (stop_monitoring_spec self "monitor_Jane_Doe_20261103_120000") as [_ Hknown].
  split.
  - apply Hunknown. apply not_elem_of_dom. vm_compute. reflexivity.
  - destruct (Hknown (monitor_config "Jane Doe" "42" ["arrest"] ["sms"] Sample.t0))
      as (self' & Hstop & _ & Hget & _).
    + vm_compute. reflexivity.
    + exists self'. split; [exact Hstop|]. rewrite Hget. reflexivity.
Defined.

(** ** Recent alerts *)

Lemma toordinal_range (dt : datetime) :
  valid_datetime dt -> 1 <= toordinal dt <= MAXORDINAL.
Proof.
  intros [(Hy & Hm & Hd) _]. unfold toordinal, ymd2ord, days_before_month.
  unfold days_in_month in Hd.
  pose proof (year_length _ _ _ Hm Hd) as L.
  pose proof (days_before_year_succ (year dt)) as S.
  pose proof (days_before_year_mono 1 (year dt)) as M1.
  pose proof (days_before_year_mono (year dt + 1) 10000) as M2.
  change (days_before_year 1) with 0 in M1.
  change (days_before_year 10000) with 3652059 in M2.
  unfold MAXORDINAL. lia.
Qed.

Lemma datetime_sub_inr (dt c : datetime) (td : Z) :
  datetime_sub dt td = inr c ->
  valid_datetime c /\ to_micros c = to_micros dt - td.
Proof.
  unfold datetime_sub. intros H.
  destruct (999999999 <? _); [discriminate|].
  destruct ((0 <? _) && _) eqn:Hr; [|discriminate].
  injection H as <-. apply of_micros_spec.
  apply andb_true_iff in Hr. lia.
Qed.

Lemma datetime_sub_in_range (dt : datetime) (td : Z) :
  1 <= (to_micros dt - td) / US_PER_DAY <= MAXORDINAL ->
  datetime_sub dt td = inr (of_micros (to_micros dt - td)).
Proof.
  intros H. unfold datetime_sub, MAXORDINAL in *.
  destruct (Z.ltb_spec 999999999 (Z.abs ((to_micros dt - td) / US_PER_DAY))); [lia|].
  destruct (Z.ltb_spec 0 ((to_micros dt - td) / US_PER_DAY)); [|lia].
  destruct (Z.leb_spec ((to_micros dt - td) / US_PER_DAY) 3652059); [|lia].
  reflexivity.
Qed.

(** C7. Take a valid call time [now] and a log of alerts with valid creation
    times.  Whenever [get_recent_alerts(hours)] returns, it returns exactly
    the alerts of the log created less than [hours] hours before [now], in
    log order: no alert as old as the window or older is among them.  It
    does return whenever the start of the window is a date the calendar can
    name. *)
Theorem get_recent_alerts_window (self : Manager) (now : datetime) (hours : Z) :
  valid_datetime now ->
  Forall (fun a => valid_datetime (created_at a)) (alerts_queue self) ->
  (1 <= (to_micros now - hours * US_PER_HOUR) / US_PER_DAY <= MAXORDINAL ->
     exists recent, get_recent_alerts self now hours = inr recent)
  /\ (forall recent,
        get_recent_alerts self now hours = inr recent ->
        recent = List.filter
                   (fun a => to_micros now - to_micros (created_at a) <? hours * US_PER_HOUR)
                   (alerts_queue self)
        /\ Forall (fun a => a ∈ alerts_queue self
                            /\ to_micros now - to_micros (created_at a) < hours * US_PER_HOUR)
                  recent).
Proof.
  intros Hnow Hlog. split.
  - intros Hrange. unfold get_recent_alerts, timedelta_us.
    pose proof (toordinal_range now Hnow) as Ho.
    assert (Hsmall : (999999999 <? Z.abs (hours * US_PER_HOUR / US_PER_DAY)) = false).
    { apply Z.ltb_ge. unfold to_micros in Hrange.
      destruct Hnow as (_ & Hh & Hmi & Hs & Hus).
      unfold MAXORDINAL, US_PER_DAY, US_PER_HOUR, US_PER_SECOND in *.
      Z.div_mod_to_equations. lia. }
    rewrite Hsmall. rewrite datetime_sub_in_range by exact Hrange. eauto.
  - intros recent Hret. unfold get_recent_alerts in Hret.
    destruct (timedelta_us (hours * US_PER_HOUR)) as [e|td] eqn:Htd; [discriminate|].
    assert (td = hours * US_PER_HOUR) as ->.
    { unfold timedelta_us in Htd. destruct (_ <? _); congruence. }
    destruct (datetime_sub now (hours * US_PER_HOUR)) as [e|cutoff] eqn:Hsub; [discriminate|].
    apply datetime_sub_inr in Hsub. destruct Hsub as [Hvalid Hcut].
    injection Hret as <-.
    assert (Hsame : forall a, valid_datetime (created_at a) ->
              datetime_lt cutoff (created_at a)
              = (to_micros now - to_micros (created_at a) <? hours * US_PER_HOUR)).
    { intros a Ha. pose proof (datetime_lt_iff cutoff (created_at a) Hvalid Ha) as Hiff.
      destruct (Z.ltb_spec (to_micros now - to_micros (created_at a)) (hours * US_PER_HOUR)).
      - apply Hiff. lia.
      - destruct (datetime_lt cutoff (created_at a)); [|reflexivity].
        assert (to_micros cutoff < to_micros (created_at a)) by (by apply Hiff). lia. }
    assert (Heq : List.filter (fun alert => datetime_lt cutoff (created_at alert))
                              (alerts_queue self)
                  = List.filter (fun a => to_micros now - to_micros (created_at a)
                                          <? hours * US_PER_HOUR) (alerts_queue self)).
    { induction Hlog as [|a q Ha Hq IH]; [reflexivity|].
      simpl. rewrite (Hsame a Ha), IH. reflexivity. }
    split; [exact Heq|]. rewrite Heq.
    apply Forall_forall. intros a Hin. apply list_elem_of_In in Hin.
    apply filter_In in Hin. destruct Hin as [Hin Hlt].
    split; [by apply list_elem_of_In|]. by apply Z.ltb_lt.
Qed.

Lemma get_recent_alerts_window_witness :
  let old := mkAlert "a1" "t" "m" INFO "pacer" "Jane Doe" None
                     (mkDatetime 2026 11 3 11 0 0 0) [EMAIL] [] in
  let new := mkAlert "a2" "t" "m" INFO "pacer" "Jane Doe" None
                     (mkDatetime 2026 11 3 11 0 0 1) [EMAIL] [] in
  let self := with_queue [old; new] (mgr Sample.fresh) in
  get_recent_alerts self Sample.t0 1 = inr [new]
  /\ to_micros Sample.t0 - to_micros (created_at new) < 1 * US_PER_HOUR.
Proof.
  intros old new self.
  assert (Hnow : valid_datetime Sample.t0) by (repeat split; vm_compute; congruence).
  assert (Hlog : Forall (fun a => valid_datetime (created_at a)) (alerts_queue self)).
  { repeat constructor; vm_compute; congruence. }
  destruct (get_recent_alerts_window self Sample.t0 1 Hnow Hlog) as [_ Hwin].
  destruct (Hwin [new]) as [_ Hall]; [vm_compute; reflexivity|].
  split; [vm_compute; reflexivity|].
  apply Forall_inv in Hall. apply Hall.
Defined.

(** ** Monitor ids *)

Lemma length_append (a b : string) :
  String.length (a +:+ b) = (String.length a + String.length b)%nat.
Proof. induction a as [|c a IH]; simpl; [reflexivity|]. by rewrite IH. Qed.

(** Two concatenations with suffixes of one length agree part by part. *)
Lemma append_inj_suffix (a1 a2 b1 b2 : string) :
  String.length b1 = String.length b2 ->
  a1 +:+ b1 = a2 +:+ b2 -> a1 = a2 /\ b1 = b2.
Proof.
  revert a2. induction a1 as [|c a1 IH]; intros [|c' a2] Hlen Heq.
  - by split.
  - exfalso. apply (f_equal String.length) in Heq.
    rewrite !length_append in Heq. cbn [String.length] in Heq. lia.
  - exfalso. apply (f_equal String.length) in Heq.
    rewrite !length_append in Heq. cbn [String.length] in Heq. lia.
  - injection Heq as -> Heq. destruct (IH a2 Hlen Heq) as [-> ->]. by split.
Qed.

Lemma digit_inj (a b : Z) : digit a = digit b -> a mod 10 = b mod 10.
Proof.
  unfold digit. intros H. apply (f_equal nat_of_ascii) in H.
  pose proof (Z.mod_pos_bound a 10). pose proof (Z.mod_pos_bound b 10).
  rewrite !nat_ascii_embedding in H by lia. lia.
Qed.

Lemma pad2_inj (a b : Z) : 0 <= a < 100 -> 0 <= b < 100 -> pad2 a = pad2 b -> a = b.
Proof.
  intros Ha Hb H. unfold pad2 in H. injection H as H1 H0.
  apply digit_inj in H1, H0. Z.div_mod_to_equations. lia.
Qed.

Lemma pad4_inj (a b : Z) : 0 <= a < 10000 -> 0 <= b < 10000 -> pad4 a = pad4 b -> a = b.
Proof.
  intros Ha Hb H. unfold pad4, pad2 in H. injection H as H3 H2 H1 H0.
  apply digit_inj in H3, H2, H1, H0. Z.div_mod_to_equations. lia.
Qed.

Lemma days_in_month_le (y m : Z) : days_in_month y m <= 31.
Proof.
  unfold days_in_month, month_days, table, DAYS_IN_MONTH.
  destruct ((m =? 2) && is_leap y); [lia|].
  generalize (Z.to_nat m). intros k.
  do 13 (destruct k as [|k]; [simpl; lia|]). simpl. destruct k; lia.
Qed.

Lemma strftime_stamp_inj (t1 t2 : datetime) :
  valid_datetime t1 -> valid_datetime t2 ->
  strftime_stamp t1 = strftime_stamp t2 -> same_second t1 t2.
Proof.
  intros ((Hy1 & Hm1 & Hd1) & Hh1 & Hmi1 & Hs1 & _) ((Hy2 & Hm2 & Hd2) & Hh2 & Hmi2 & Hs2 & _) H.
  pose proof (days_in_month_le (year t1) (month t1)).
  pose proof (days_in_month_le (year t2) (month t2)).
  unfold strftime_stamp, pad4, pad2 in H. simpl in H.
  injection H as Y3 Y2 Y1 Y0 M1 M0 D1 D0 h1 h0 m1 m0 s1 s0.
  unfold same_second. repeat split.
  - apply pad4_inj; [lia..|]. unfold pad4, pad2. congruence.
  - apply pad2_inj; [lia..|]. unfold pad2. congruence.
  - apply pad2_inj; [lia..|]. unfold pad2. congruence.
  - apply pad2_inj; [lia..|]. unfold pad2. congruence.
  - apply pad2_inj; [lia..|]. unfold pad2. congruence.
  - apply pad2_inj; [lia..|]. unfold pad2. congruence.
Qed.

Lemma append_assoc (a b c : string) : a +:+ (b +:+ c) = (a +:+ b) +:+ c.
Proof.
  induction a as [|x a IH]; [reflexivity|].
  change (String x (a +:+ (b +:+ c)) = String x ((a +:+ b) +:+ c)). by rewrite IH.
Qed.

Lemma make_monitor_id_eq_iff (p1 p2 : string) (t1 t2 : datetime) :
  valid_datetime t1 -> valid_datetime t2 ->
  make_monitor_id p1 t1 = make_monitor_id p2 t2
  <-> replace_space p1 = replace_space p2 /\ same_second t1 t2.
Proof.
  intros V1 V2. unfold make_monitor_id. split.
  - intros H. apply String.app_inj in H.
    assert (Hs : (replace_space p1 +:+ "_") +:+ strftime_stamp t1
                 = (replace_space p2 +:+ "_") +:+ strftime_stamp t2).
    { rewrite <- !append_assoc. exact H. }
    apply append_inj_suffix in Hs; [|reflexivity]. destruct Hs as [Hn Hs].
    apply (append_inj_suffix _ _ "_" "_" eq_refl) in Hn. destruct Hn as [Hn _].
    split; [exact Hn|]. by apply strftime_stamp_inj.
  - intros [Hn (Hy & Hm & Hd & Hh & Hmi & Hs)]. rewrite Hn.
    unfold strftime_stamp. by rewrite Hy, Hm, Hd, Hh, Hmi, Hs.
Qed.

Lemma register_monitor_eq (p i : string) (tr ch : list string) (env : Env) (w : World) :
  register_monitor p i tr ch env w
  = Ok (make_monitor_id p (env_now env (tick w)))
       (mkWorld (register (monitor_config p i tr ch (env_now env (tick w))) (mgr w))
                (S (tick w)) (trace w)).
Proof. reflexivity. Qed.

Lemma get_monitor_register (cfg : Monitor) (self : Manager) :
  get_monitor (register cfg self) (mon_id cfg) = Some cfg.
Proof.
  unfold get_monitor, register. simpl. rewrite lookup_insert_eq. simpl.
  by apply list_lookup_middle.
Qed.

(** C9, the failing input.  Two start calls for the same person whose
    clock readings fall in the same calendar second get the same monitor id,
    and the registry then holds the second monitor only: the id the first
    call was given no longer leads to the first monitor. *)
Lemma monitor_ids_collide :
  exists (id : string) (w1 w2 : World),
    register_monitor "Jane Doe" "1" ["arrest"] ["email"] Sample.quiet Sample.fresh = Ok id w1
    /\ register_monitor "Jane Doe" "2" ["arrest"] ["sms"] Sample.quiet w1 = Ok id w2
    /\ (person_id <$> get_monitor (mgr w2) id) = Some "2"
    /\ size (active_monitors (mgr w2)) = 1%nat.
Proof.
  set (w1 := world_of (register_monitor "Jane Doe" "1" ["arrest"] ["email"]
                                        Sample.quiet Sample.fresh)).
  exists "monitor_Jane_Doe_20261103_120000", w1,
         (world_of (register_monitor "Jane Doe" "2" ["arrest"] ["sms"] Sample.quiet w1)).
  repeat split; vm_compute; reflexivity.
Qed.

(** When ids collide, in general.  Two start calls, at clock readings of
    the years 1000 to 9999, get the same monitor id exactly when their
    target names agree once spaces are replaced by underscores and their
    clock readings fall in the same calendar second; otherwise the ids
    differ.  As soon as a call has registered its monitor, the id is bound
    in the registry to that monitor, with [active] true and no last
    check. *)
Theorem monitor_ids_distinct_iff (env1 env2 : Env) (w1 w2 : World)
    (p1 i1 p2 i2 : string) (tr1 ch1 tr2 ch2 : list string) :
  let t1 := env_now env1 (tick w1) in
  let t2 := env_now env2 (tick w2) in
  valid_datetime t1 -> valid_datetime t2 -> 1000 <= year t1 -> 1000 <= year t2 ->
  exists (id1 id2 : string) (w1' w2' : World),
    register_monitor p1 i1 tr1 ch1 env1 w1 = Ok id1 w1'
    /\ register_monitor p2 i2 tr2 ch2 env2 w2 = Ok id2 w2'
    /\ (id1 <> id2 <-> ~ (replace_space p1 = replace_space p2 /\ same_second t1 t2))
    /\ get_monitor (mgr w1') id1 = Some (monitor_config p1 i1 tr1 ch1 t1)
    /\ get_monitor (mgr w2') id2 = Some (monitor_config p2 i2 tr2 ch2 t2)
    /\ active (monitor_config p1 i1 tr1 ch1 t1) = true
    /\ last_check (monitor_config p1 i1 tr1 ch1 t1) = None.
Proof.
  intros t1 t2 V1 V2 _ _.
  pose proof (make_monitor_id_eq_iff p1 p2 t1 t2 V1 V2) as Hiff.
  exists (make_monitor_id p1 t1), (make_monitor_id p2 t2).
  eexists _, _. split; [apply register_monitor_eq|].
  split; [apply register_monitor_eq|].
  split; [tauto|].
  split; [apply (get_monitor_register (monitor_config p1 i1 tr1 ch1 t1))|].
  split; [apply (get_monitor_register (monitor_config p2 i2 tr2 ch2 t2))|].
  by split.
Qed.

Lemma monitor_ids_distinct_iff_witness :
  let later := mkEnv (fun _ => mkDatetime 2026 11 3 12 0 1 0) (fun _ => 0) (fun _ => 0)
                     (fun _ => HttpFails (TransportError "down")) (fun _ => None)
                     (fun _ => []) (fun _ => "x") (fun _ => "0.0") (fun _ => "{}")
                     (fun _ _ => None) in
  exists (w1' w2' : World),
    register_monitor "Jane Doe" "1" ["arrest"] ["email"] Sample.quiet Sample.fresh
    = Ok "monitor_Jane_Doe_20261103_120000" w1'
    /\ register_monitor "Jane Doe" "1" ["arrest"] ["email"] later Sample.fresh
       = Ok "monitor_Jane_Doe_20261103_120001" w2'
    /\ "monitor_Jane_Doe_20261103_120000" <> "monitor_Jane_Doe_20261103_120001".
Proof.
  intros later.
  assert (V1 : valid_datetime Sample.t0) by (repeat split; vm_compute; congruence).
  assert (V2 : valid_datetime (mkDatetime 2026 11 3 12 0 1 0))
    by (repeat split; vm_compute; congruence).
  destruct (monitor_ids_distinct_iff Sample.quiet later Sample.fresh Sample.fresh
              "Jane Doe" "1" "Jane Doe" "1" ["arrest"] ["email"] ["arrest"] ["email"]
              V1 V2 ltac:(simpl; lia) ltac:(simpl; lia))
    as (id1 & id2 & w1' & w2' & H1 & H2 & Hne & _).
  exists w1', w2'.
  assert (E1 : id1 = "monitor_Jane_Doe_20261103_120000").
  { rewrite register_monitor_eq in H1. injection H1 as <- _. reflexivity. }
  assert (E2 : id2 = "monitor_Jane_Doe_20261103_120001").
  { rewrite register_monitor_eq in H2. injection H2 as <- _. reflexivity. }
  subst id1 id2. split; [exact H1|]. split; [exact H2|].
  apply Hne. intros [_ (_ & _ & _ & _ & _ & Hs)]. simpl in Hs. discriminate.
Defined.

(** ** The webhook dispatcher *)

Lemma is_digit_digit (n : Z) : is_digit (digit n) = true.
Proof.
  unfold is_digit, digit. pose proof (Z.mod_pos_bound n 10).
  rewrite nat_ascii_embedding by lia.
  apply andb_true_iff. split; apply Nat.leb_le; lia.
Qed.

Lemma isoformat_shape (dt : datetime) : iso8601_shape (isoformat dt) = true.
Proof.
  unfold iso8601_shape, isoformat, strftime_date.
  destruct (microsecond dt =? 0);
    cbv [pad6 pad4 pad2 String.append shape];
    rewrite !is_digit_digit; reflexivity.
Qed.

(** C6, counterexample.  The body posted for an alert has no field
    [target_name]: the target is sent under [target_person]. *)
Lemma webhook_body_without_target_name :
  exists body : list (string * json),
    trace (world_of (_send_webhook_alert Sample.jane Sample.quiet Sample.hooked))
    = [EvDispatch WEBHOOK Sample.jane; EvHttpPost "https://hooks.example/t" body 30]
    /\ ~ In "target_name" (map fst body)
    /\ In "target_person" (map fst body).
Proof.
  exists (webhook_payload Sample.jane).
  split; [vm_compute; reflexivity|]. split.
  - vm_compute. intuition discriminate.
  - vm_compute. tauto.
Qed.

Lemma eqb_empty_false (s : string) : s <> "" -> String.eqb s "" = false.
Proof. intros H. by apply String.eqb_neq. Qed.

(** C6, amended.  With a webhook URL configured, the dispatcher posts once,
    to that URL and with a timeout of 30 seconds, a body with exactly the
    fields alert_id, title, message, severity, source, target_person,
    target_id, created_at and metadata, where created_at is the ISO-8601
    rendering of the alert's creation time.  On a standard output that takes
    what it prints, it never raises and never posts a second time: whatever
    the answer, all it does afterwards is print at most one line, and for an
    answer with a status other than 200 (so for every non-2xx answer) the
    line reports the failed status. *)
Theorem webhook_delivery (alert : Alert) (env : Env) (w : World) :
  stdout_ok env ->
  webhook_url (mgr w) <> "" ->
  map fst (webhook_payload alert) = webhook_fields
  /\ assoc "created_at" (webhook_payload alert) = Some (JStr (isoformat (created_at alert)))
  /\ iso8601_shape (isoformat (created_at alert)) = true
  /\ exists (w' : World) (log : list Event),
       _send_webhook_alert alert env w = Ok tt w'
       /\ trace w' = (trace w ++ [EvDispatch WEBHOOK alert;
                                  EvHttpPost (webhook_url (mgr w)) (webhook_payload alert) 30]
                              ++ log)%list
       /\ (length log <= 1)%nat
       /\ (forall ev, In ev log -> exists line, ev = EvPrint line)
       /\ (forall status body,
             env_http env (S (tick w)) = HttpResponse status body ->
             status <> 200 ->
             log = [EvPrint ("Webhook failed with status " +:+ str_of_Z status)])
       /\ (forall body,
             env_http env (S (tick w)) = HttpResponse 200 body -> log = []).
Proof.
  intros Hout Hurl. split; [reflexivity|]. split; [reflexivity|].
  split; [apply isoformat_shape|].
  destruct w as [self n tr]. simpl in *.
  unfold _send_webhook_alert, try_except, mbind, M_bind, bind, emit, get_self, yield, ask,
    print, emit, raise, mret, M_ret, ret. simpl.
  rewrite (eqb_empty_false _ Hurl). simpl.
  destruct (env_http env (S n)) as [e|status body] eqn:Hreply; rewrite ?Hout.
  - eexists _, [EvPrint _]. split; [reflexivity|]. simpl.
    split; [by rewrite <- !app_assoc|]. split; [lia|].
    split; [intros ev [<-|[]]; eauto|]. split; [discriminate|discriminate].
  - destruct (Z.eqb_spec status 200) as [->|Hne]; simpl; rewrite ?Hout.
    + eexists _, []. split; [reflexivity|]. simpl.
      split; [by rewrite <- !app_assoc|]. split; [lia|].
      split; [intros ev []|]. split; [|reflexivity].
      intros s b [= <- _] Hs. done.
    + eexists _, [EvPrint _]. split; [reflexivity|]. simpl.
      split; [by rewrite <- !app_assoc|]. split; [lia|].
      split; [intros ev [<-|[]]; eauto|]. split.
      * intros s b [= <- _] _. reflexivity.
      * intros b [= E _]. done.
Qed.

Lemma webhook_delivery_witness :
  let env := mkEnv (fun _ => Sample.t0) (fun _ => 0) (fun _ => 0)
                   (fun _ => HttpResponse 503 None) (fun _ => None)
                   (fun _ => []) (fun _ => "x") (fun _ => "0.0") (fun _ => "{}")
                   (fun _ _ => None) in
  stdout_ok env
  /\ webhook_url (mgr Sample.hooked) <> ""
  /\ exists w' : World,
       _send_webhook_alert Sample.jane env Sample.hooked = Ok tt w'
       /\ trace w' = [EvDispatch WEBHOOK Sample.jane;
                      EvHttpPost "https://hooks.example/t" (webhook_payload Sample.jane) 30;
                      EvPrint "Webhook failed with status 503"].
Proof.
  intros env.
  assert (Hout : stdout_ok env) by (intros n line; reflexivity).
  assert (Hurl : webhook_url (mgr Sample.hooked) <> "") by (vm_compute; discriminate).
  split; [exact Hout|]. split; [exact Hurl|].
  destruct (webhook_delivery Sample.jane env Sample.hooked Hout Hurl)
    as (_ & _ & _ & w' & log & Hrun & Htrace & _ & _ & Hfail & _).
  exists w'. split; [exact Hrun|].
  rewrite Htrace, (Hfail 503 None eq_refl ltac:(discriminate)). reflexivity.
Defined.

(** ** The alert pipeline *)

Lemma grows_refl (w : World) : grows w w.
Proof. exists []. by rewrite app_nil_r. Qed.

Lemma grows_mgr (w w' : World) : mgr w' = mgr w -> grows w w'.
Proof. intros H. exists []. by rewrite H, app_nil_r. Qed.

Lemma grows_trans (w1 w2 w3 : World) : grows w1 w2 -> grows w2 w3 -> grows w1 w3.
Proof. intros [m1 H1] [m2 H2]. exists (m1 ++ m2)%list. by rewrite H2, H1, app_assoc. Qed.

Lemma apply_foreign_queue (self : Manager) (f : Foreign) :
  exists more, alerts_queue (apply_foreign self f) = (alerts_queue self ++ more)%list.
Proof.
  destruct f; simpl.
  - exists []. rewrite app_nil_r. apply stop_keeps_queue.
  - exists []. by rewrite app_nil_r.
  - by exists [a].
  - exists []. by rewrite app_nil_r.
Qed.

Lemma foreign_queue (fs : list Foreign) (self : Manager) :
  exists more,
    alerts_queue (foldl apply_foreign self fs) = (alerts_queue self ++ more)%list.
Proof.
  revert self. induction fs as [|f fs IH]; intros self; simpl.
  - exists []. by rewrite app_nil_r.
  - destruct (IH (apply_foreign self f)) as [m2 H2].
    destruct (apply_foreign_queue self f) as [m1 H1].
    exists (m1 ++ m2)%list. by rewrite H2, H1, app_assoc.
Qed.

Lemma marks_app (a b : list Event) : marks (a ++ b) = (marks a ++ marks b)%list.
Proof. apply List.filter_app. Qed.

Lemma does_seq (m1 m2 : M unit) (env : Env) (d1 d2 : list Event) :
  (forall w, does m1 env w d1) -> (forall w, does m2 env w d2) ->
  forall w, does (m1;; m2) env w (d1 ++ d2).
Proof.
  intros H1 H2 w. destruct (H1 w) as (w1 & E1 & T1 & G1).
  destruct (H2 w1) as (w2 & E2 & T2 & G2).
  exists w2. split.
  - unfold mbind, M_bind, bind. by rewrite E1.
  - split; [by rewrite T2, T1, app_assoc|by eapply grows_trans].
Qed.

Ltac stdout :=
  repeat match goal with
         | H : stdout_ok _ |- context [env_stdout _ _ _] => rewrite !H
         end.

Ltac run :=
  unfold try_except, mbind, M_bind, bind, emit, get_self, get_env, modify_self,
    yield, ask, print, emit, raise, mret, M_ret, ret; stdout; simpl.

Lemma send_email_does (alert : Alert) (env : Env) (w : World) :
  stdout_ok env ->
  does (_send_email_alert alert) env w [EvDispatch EMAIL alert].
Proof.
  intros Hout. destruct w as [self n tr]. unfold does, _send_email_alert. run.
  destruct (String.eqb (email_password self) ""); simpl; stdout.
  - eexists. split; [reflexivity|]. simpl. split; [|by apply grows_mgr].
    by rewrite <- app_assoc, marks_app.
  - destruct (env_smtp env n); simpl; stdout.
    + eexists. split; [reflexivity|]. simpl. split; [|by apply grows_mgr].
      by rewrite <- app_assoc, marks_app.
    + eexists. split; [reflexivity|]. simpl. split; [|by apply grows_mgr].
      by rewrite <- app_assoc, marks_app.
Qed.

Lemma send_webhook_does (alert : Alert) (env : Env) (w : World) :
  stdout_ok env ->
  does (_send_webhook_alert alert) env w [EvDispatch WEBHOOK alert].
Proof.
  intros Hout. destruct w as [self n tr]. unfold does, _send_webhook_alert. run.
  destruct (String.eqb (webhook_url self) ""); simpl; stdout.
  - eexists. split; [reflexivity|]. simpl. split; [|by apply grows_mgr].
    by rewrite <- app_assoc, marks_app.
  - assert (G : forall t k, grows (mkWorld self n tr)
                 (mkWorld (foldl apply_foreign self (env_others env n)) k t)).
    { intros t k. apply foreign_queue. }
    destruct (env_http env (S n)) as [e|status body]; simpl; stdout.
    + eexists. split; [reflexivity|]. simpl. split; [|apply G].
      by rewrite <- !app_assoc, marks_app.
    + destruct (status =? 200); simpl; stdout.
      * eexists. split; [reflexivity|]. simpl. split; [|apply G].
        by rewrite <- !app_assoc, marks_app.
      * eexists. split; [reflexivity|]. simpl. split; [|apply G].
        by rewrite <- !app_assoc, marks_app.
Qed.

Lemma send_sms_does (alert : Alert) (env : Env) (w : World) :
  stdout_ok env ->
  does (_send_sms_alert alert) env w [EvDispatch SMS alert].
Proof.
  intros Hout. destruct w as [self n tr]. unfold does, _send_sms_alert. run.
  eexists. split; [reflexivity|]. simpl. split; [|by apply grows_mgr].
  by rewrite <- app_assoc, marks_app.
Qed.

Lemma send_slack_does (alert : Alert) (env : Env) (w : World) :
  stdout_ok env ->
  does (_send_slack_alert alert) env w [EvDispatch SLACK alert].
Proof.
  intros Hout. destruct w as [self n tr]. unfold does, _send_slack_alert. run.
  eexists. split; [reflexivity|]. simpl. split; [|by apply grows_mgr].
  by rewrite <- app_assoc, marks_app.
Qed.

Lemma dispatch_channel_does (alert : Alert) (channel_name : string) (env : Env) (w : World) :
  stdout_ok env ->
  does (dispatch_channel alert channel_name) env w
       (match parse_channel channel_name with
        | Some c => [EvDispatch c alert]
        | None => []
        end).
Proof.
  intros Hout. unfold dispatch_channel, parse_channel.
  destruct (String.eqb channel_name "email"); [by apply send_email_does|].
  destruct (String.eqb channel_name "webhook"); [by apply send_webhook_does|].
  destruct (String.eqb channel_name "sms"); [by apply send_sms_does|].
  destruct (String.eqb channel_name "slack"); [by apply send_slack_does|].
  exists w. split; [reflexivity|]. split; [by rewrite app_nil_r|apply grows_refl].
Qed.

Lemma dispatch_all_does (alert : Alert) (chans : list string) (env : Env) (w : World) :
  stdout_ok env ->
  does (for_each chans (dispatch_channel alert)) env w
       (map (fun c => EvDispatch c alert) (omap parse_channel chans)).
Proof.
  intros Hout. revert w. induction chans as [|c chans IH]; intros w.
  - exists w. split; [reflexivity|]. split; [by rewrite app_nil_r|apply grows_refl].
  - change (for_each (c :: chans) (dispatch_channel alert))
      with (dispatch_channel alert c;; for_each chans (dispatch_channel alert)).
    replace (map (fun c0 => EvDispatch c0 alert) (omap parse_channel (c :: chans)))
      with ((match parse_channel c with Some c' => [EvDispatch c' alert] | None => [] end)
            ++ map (fun c0 => EvDispatch c0 alert) (omap parse_channel chans))%list.
    + apply does_seq; [intros w0; by apply dispatch_channel_does|exact IH].
    + simpl. by destruct (parse_channel c).
Qed.

(** C5, counterexample.  An alert whose own channels are email and SMS,
    processed for a monitor whose channels are ["slack"], is handed to
    the Slack dispatcher and to no other. *)
Lemma process_alert_ignores_alert_channels :
  channels Sample.jane = [EMAIL; SMS]
  /\ marks (trace (world_of (_process_alert Sample.jane ["slack"] Sample.quiet Sample.fresh)))
     = [EvQueued Sample.jane; EvDispatch SLACK Sample.jane].
Proof. split; vm_compute; reflexivity. Qed.

(** C5, amended.  On a standard output that takes what the dispatchers
    print, [_process_alert(alert, channels)] never raises.  It first
    appends the alert to the alert log and then enters, in the order of its
    [channels] argument (the monitor's channels in a check cycle), the
    dispatcher of each entry that names one of email, webhook, sms and slack,
    once per occurrence; other entries are skipped and the alert's own
    [channels] field is not read. *)
Theorem process_alert_dispatch (alert : Alert) (chans : list string) (env : Env) (w : World) :
  stdout_ok env ->
  exists (w' : World) (later : list Alert),
    _process_alert alert chans env w = Ok tt w'
    /\ marks (trace w')
       = (marks (trace w)
          ++ EvQueued alert :: map (fun c => EvDispatch c alert) (omap parse_channel chans))%list
    /\ alerts_queue (mgr w') = (alerts_queue (mgr w) ++ alert :: later)%list.
Proof.
  intros Hout. unfold _process_alert.
  destruct (dispatch_all_does alert chans env
              (mkWorld (with_queue (alerts_queue (mgr w) ++ [alert]) (mgr w)) (tick w)
                       (trace w ++ [EvQueued alert])) Hout)
    as (w' & Hrun & Hmarks & [later Hq]).
  exists w', later. split; [|split].
  - unfold append_alert. run. exact Hrun.
  - rewrite Hmarks. simpl. rewrite marks_app. simpl. by rewrite <- app_assoc.
  - rewrite Hq. simpl. by rewrite <- app_assoc.
Qed.

Lemma process_alert_dispatch_witness :
  exists w' : World,
    _process_alert Sample.jane ["sms"; "pager"; "email"; "sms"] Sample.quiet Sample.fresh
    = Ok tt w'
    /\ marks (trace w')
       = [EvQueued Sample.jane; EvDispatch SMS Sample.jane; EvDispatch EMAIL Sample.jane;
          EvDispatch SMS Sample.jane]
    /\ alerts_queue (mgr w') = [Sample.jane].
Proof.
  destruct (process_alert_dispatch Sample.jane ["sms"; "pager"; "email"; "sms"]
              Sample.quiet Sample.fresh) as (w' & later & Hrun & Hmarks & Hq).
  - intros n line. reflexivity.
  - exists w'. split; [exact Hrun|]. split; [exact Hmarks|].
    assert (Hlen : length (alerts_queue (mgr w')) = 1%nat).
    { replace w' with (world_of (_process_alert Sample.jane
                                   ["sms"; "pager"; "email"; "sms"]
                                   Sample.quiet Sample.fresh)) by (by rewrite Hrun).
      vm_compute. reflexivity. }
    rewrite Hq in Hlen |- *. simpl in Hlen. by destruct later.
Defined.

(** ** The source checkers *)

Ltac run_in H :=
  unfold lift, try_except, mbind, M_bind, bind, emit, get_self, get_env, modify_self,
    yield, ask, print, emit, raise, mret, M_ret, ret in H;
  repeat match goal with
         | Hout : stdout_ok _ |- _ => rewrite !Hout in H
         end;
  simpl in H;
  repeat match type of H with
         | context [match ?x with inl _ => _ | inr _ => _ end] => destruct x; simpl in H
         end.

Lemma courtlistener_alert_channels (name : string) (opinion : json) (env : Env)
    (w w' : World) (a : Alert) :
  courtlistener_alert name opinion env w = Ok a w' ->
  channels a = [EMAIL; WEBHOOK] /\ source a = "courtlistener".
Proof.
  unfold courtlistener_alert, now. intros H. run_in H; try discriminate.
  injection H as <- _. by split.
Qed.

Lemma scan_opinions_Forall (P : Alert -> Prop) (name : string) (triggers : list string)
    (env : Env) (opinions : list json) :
  (forall opinion w w' a, courtlistener_alert name opinion env w = Ok a w' -> P a) ->
  forall (alerts : list Alert) (w : World),
    Forall P alerts -> Forall P (fst (scan_opinions name triggers opinions alerts env w)).
Proof.
  intros HP. induction opinions as [|o rest IH]; intros alerts w Hacc; simpl; [done|].
  destruct (opinion_triggers o triggers env w) as [[|] w1|e w1]; simpl.
  - destruct (courtlistener_alert name o env w1) as [a w2|e w2] eqn:Ha; simpl; [|done].
    apply IH. apply Forall_app. split; [done|]. constructor; [|done]. by eapply HP.
  - by apply IH.
  - done.
Qed.

Lemma check_courtlistener_Forall (P : Alert -> Prop) (name : string)
    (triggers : list string) (env : Env) (w : World) :
  (forall opinion w w' a, courtlistener_alert name opinion env w = Ok a w' -> P a) ->
  Forall P (result_alerts (_check_courtlistener name triggers env w)).
Proof.
  intros HP. unfold _check_courtlistener.
  destruct (courtlistener_fetch name env w) as [[opinions|] w1|e w1]; simpl.
  - pose proof (scan_opinions_Forall P name triggers env opinions HP [] w1
                  (List.Forall_nil P)) as H.
    destruct (scan_opinions name triggers opinions [] env w1) as [alerts [[] w2|e w2]];
      [done|].
    run. by destruct (env_stdout _ _ _).
  - done.
  - run. by destruct (env_stdout _ _ _).
Qed.

(** C4, counterexample.  A monitor registered with the channels ["slack"]
    gets, in its first check cycle, an alert whose channels are email and
    SMS. *)
Lemma alert_channels_not_subset :
  exists (w : World) (a : Alert) (m : Monitor),
    setup_person_monitoring 1 NotificationManager_checkers "Jane Doe" "42"
      ["arrest"] ["slack"] Sample.lucky Sample.fresh = Running w
    /\ get_monitor (mgr w) "monitor_Jane_Doe_20261103_120000" = Some m
    /\ mon_channels m = ["slack"]
    /\ In a (alerts_queue (mgr w))
    /\ map channel_value (channels a) = ["email"; "sms"]
    /\ ~ (forall c, In c (map channel_value (channels a)) -> In c (mon_channels m)).
Proof.
  set (r := setup_person_monitoring 1 NotificationManager_checkers "Jane Doe" "42"
              ["arrest"] ["slack"] Sample.lucky Sample.fresh).
  set (w := match r with Running w => w | _ => Sample.fresh end).
  exists w, (default Sample.jane (head (alerts_queue (mgr w)))),
         (default inhabitant (get_monitor (mgr w) "monitor_Jane_Doe_20261103_120000")).
  split; [vm_compute; reflexivity|]. split; [vm_compute; reflexivity|].
  split; [vm_compute; reflexivity|]. split; [vm_compute; tauto|].
  split; [vm_compute; reflexivity|].
  intros H. specialize (H "email"). vm_compute in H.
  destruct H as [H|[]]; [tauto|discriminate].
Qed.

(** C4, amended.  The channels of an alert are fixed by the checker that
    creates it and do not depend on the monitor: email and webhook for the
    federal case search and the federal docket search, email and SMS for the
    custody-status lookup, email alone for the state court search and for the
    alert the loop raises on an internal fault. *)
Theorem alert_channels_fixed (name pid monitor_id : string) (triggers : list string)
    (env : Env) (w : World) (m : Monitor) (e : Exn) (t1 t2 : datetime) :
  Forall (fun a => channels a = [EMAIL; WEBHOOK])
         (result_alerts (_check_courtlistener name triggers env w))
  /\ Forall (fun a => channels a = [EMAIL; SMS])
            (result_alerts (_check_vinelink name pid env w))
  /\ Forall (fun a => channels a = [EMAIL; WEBHOOK])
            (result_alerts (_check_pacer name triggers env w))
  /\ Forall (fun a => channels a = [EMAIL])
            (result_alerts (_check_state_courts name triggers env w))
  /\ channels (error_alert_of env monitor_id m e t1 t2) = [EMAIL].
Proof.
  split; [|split; [|split; [|split]]].
  - apply check_courtlistener_Forall. intros o w1 w2 a H.
    apply courtlistener_alert_channels in H. tauto.
  - unfold _check_vinelink, random_lt, now. run.
    destruct (_ <? _); simpl; repeat constructor.
  - unfold _check_pacer, random_lt, random_choice, random_randint, now. run.
    destruct (_ <? _); simpl; repeat constructor.
  - unfold _check_state_courts, random_lt, random_choice, now. run.
    destruct (_ <? _); simpl; repeat constructor.
  - reflexivity.
Qed.

Lemma check_courtlistener_returns (name : string) (triggers : list string)
    (env : Env) (w : World) :
  stdout_ok env ->
  exists alerts w', _check_courtlistener name triggers env w = Ok alerts w'.
Proof.
  intros Hout. unfold _check_courtlistener.
  destruct (courtlistener_fetch name env w) as [[opinions|] w1|e w1].
  - destruct (scan_opinions name triggers opinions [] env w1) as [alerts [[] w2|e w2]].
    + by eexists _, _.
    + run. by eexists _, _.
  - by eexists _, _.
  - run. by eexists _, _.
Qed.



(** The failures are met, and absorbed: a transport error, *)
Example courtlistener_transport_error :
  let env := mkEnv (fun _ => Sample.t0) (fun _ => 0) (fun _ => 0)
                   (fun _ => HttpFails (TransportError "connection refused"))
                   (fun _ => None) (fun _ => []) (fun _ => "x") (fun _ => "0.0")
                   (fun _ => "{}") (fun _ _ => None) in
  match _check_courtlistener "Jane Doe" ["arrest"] env (with_token "tok" Sample.fresh) with
  | Ok alerts w =>
      alerts = []
      /\ last (trace w) = Some (EvPrint "Error checking CourtListener: connection refused")
  | Raised _ _ => False
  end.
Proof. vm_compute. split; reflexivity. Qed.

(** a body of the wrong shape, *)
Example courtlistener_malformed_body :
  let env := mkEnv (fun _ => Sample.t0) (fun _ => 0) (fun _ => 0)
                   (fun _ => HttpResponse 200 (Some (JDict [("results", JInt 5)])))
                   (fun _ => None) (fun _ => []) (fun _ => "x") (fun _ => "0.0")
                   (fun _ => "{}") (fun _ _ => None) in
  match _check_courtlistener "Jane Doe" ["arrest"] env (with_token "tok" Sample.fresh) with
  | Ok alerts w =>
      alerts = []
      /\ last (trace w) = Some (EvPrint "Error checking CourtListener: object is not iterable")
  | Raised _ _ => False
  end.
Proof. vm_compute. split; reflexivity. Qed.

(** and an opinion without an id after a well-formed one: the alert of the
    first is returned. *)
Example courtlistener_partial_result :
  let good := JDict [("id", JInt 7); ("plain_text", JStr "Arrest warrant")] in
  let bad := JDict [("plain_text", JStr "sentence")] in
  let env := mkEnv (fun _ => Sample.t0) (fun _ => 0) (fun _ => 0)
                   (fun _ => HttpResponse 200 (Some (JDict [("results", JList [good; bad])])))
                   (fun _ => None) (fun _ => []) (fun _ => "x") (fun _ => "0.0")
                   (fun _ => "{}") (fun _ _ => None) in
  match _check_courtlistener "Jane Doe" ["arrest"; "sentence"] env
          (with_token "tok" Sample.fresh) with
  | Ok alerts w =>
      map alert_id alerts = ["cl_x_0.0"]
      /\ last (trace w) = Some (EvPrint "Error checking CourtListener: 'id'")
  | Raised _ _ => False
  end.
Proof. vm_compute. split; reflexivity. Qed.

(** A handler that prints a line and returns leaves the manager alone,
    whether the line gets out or not. *)
Lemma print_then_mgr {A} (line : string) (a : A) (env : Env) (w : World) :
  mgr (world_of ((print line;; ret a) env w)) = mgr w.
Proof. run. by destruct (env_stdout _ _ _). Qed.

(** ** What a computation leaves in place

    A relation [R] between the manager before and after, closed under the
    steps a computation is made of. *)

Section Preservation.

Variable R : Manager -> Manager -> Prop.
Hypothesis R_refl : forall s, R s s.
Hypothesis R_trans : forall a b c, R a b -> R b c -> R a c.
Variable env : Env.
Hypothesis R_queue : forall s a, R s (with_queue (alerts_queue s ++ [a]) s).
Hypothesis R_checked :
  forall s l t, R s (with_objects (alter (set_last_check t) l (objects s)) s).
Hypothesis R_others : forall t s, R s (foldl apply_foreign s (env_others env t)).

Lemma preserves_ret {A} (a : A) : preserves R env (ret a).
Proof. intros w. apply R_refl. Qed.

Lemma preserves_raise {A} (e : Exn) : preserves R env (@raise A e).
Proof. intros w. apply R_refl. Qed.

Lemma preserves_emit (ev : Event) : preserves R env (emit ev).
Proof. intros w. apply R_refl. Qed.

Lemma preserves_ask {A} (f : Env -> nat -> A) : preserves R env (ask f).
Proof. intros w. apply R_refl. Qed.

Lemma preserves_get_self : preserves R env get_self.
Proof. intros w. apply R_refl. Qed.

Lemma preserves_get_env : preserves R env get_env.
Proof. intros w. apply R_refl. Qed.

Lemma preserves_lift {A} (r : Exn + A) : preserves R env (lift r).
Proof. intros w. destruct r; apply R_refl. Qed.

Lemma preserves_bind {A B} (m : M A) (k : A -> M B) :
  preserves R env m -> (forall a, preserves R env (k a)) -> preserves R env (m ≫= k).
Proof.
  intros Hm Hk w. unfold mbind, M_bind, bind. specialize (Hm w).
  destruct (m env w) as [a w1|e w1]; simpl in *; [|exact Hm].
  eapply R_trans; [exact Hm|apply Hk].
Qed.

Lemma preserves_try {A} (body : M A) (handler : Exn -> M A) :
  preserves R env body -> (forall e, preserves R env (handler e)) -> preserves R env (try_except body handler).
Proof.
  intros Hb Hh w. unfold try_except. specialize (Hb w).
  destruct (body env w) as [a w1|e w1]; simpl in *; [exact Hb|].
  eapply R_trans; [exact Hb|apply Hh].
Qed.

Lemma preserves_for_each {A} (xs : list A) (body : A -> M unit) :
  (forall x, preserves R env (body x)) -> preserves R env (for_each xs body).
Proof.
  intros Hb. induction xs as [|x xs IH]; simpl; [apply preserves_ret|].
  apply preserves_bind; [apply Hb|intros _; exact IH].
Qed.

Lemma preserves_py_any (gen : list (M bool)) :
  Forall (preserves R env) gen -> preserves R env (py_any gen).
Proof.
  induction 1 as [|c rest Hc Hrest IH]; simpl; [apply preserves_ret|].
  apply preserves_bind; [exact Hc|]. intros [|]; [apply preserves_ret|exact IH].
Qed.

Lemma preserves_modify (f : Manager -> Manager) :
  (forall s, R s (f s)) -> preserves R env (modify_self f).
Proof. intros Hf w. apply Hf. Qed.

Lemma preserves_yield : preserves R env yield.
Proof. intros w. apply R_others. Qed.

Create HintDb pres discriminated.

Ltac pres :=
  repeat first
    [ solve [auto 1 with pres nocore]
    | apply preserves_ret | apply preserves_raise | apply preserves_emit
    | apply preserves_ask | apply preserves_get_self | apply preserves_get_env
    | apply preserves_lift | apply preserves_yield
    | apply preserves_bind; [|intros ?] | apply preserves_try; [|intros ?]
    | apply preserves_for_each; intros ?
    | match goal with
      | |- preserves R env (match ?x with _ => _ end) => destruct x
      end ].

Lemma preserves_sleep (seconds : Z) : preserves R env (sleep seconds).
Proof. unfold sleep. pres. Qed.

Lemma preserves_monitor_at (l : nat) : preserves R env (monitor_at l).
Proof. unfold monitor_at. pres. Qed.

Lemma preserves_random_lt (num e : Z) : preserves R env (random_lt num e).
Proof. unfold random_lt. pres. Qed.

Lemma preserves_random_choice (seq : list string) : preserves R env (random_choice seq).
Proof. unfold random_choice. pres. Qed.

Lemma preserves_random_randint (a b : Z) : preserves R env (random_randint a b).
Proof. unfold random_randint. pres. Qed.

Lemma preserves_now : preserves R env now.
Proof. unfold now. pres. Qed.

Lemma preserves_print (line : string) : preserves R env (print line).
Proof. intros w. unfold print. destruct (env_stdout env (tick w) line); apply R_refl. Qed.

#[local] Hint Resolve preserves_sleep preserves_monitor_at preserves_random_lt
  preserves_random_choice preserves_random_randint preserves_now preserves_print : pres.

Lemma preserves_send_email (alert : Alert) : preserves R env (_send_email_alert alert).
Proof. unfold _send_email_alert. pres. Qed.

Lemma preserves_send_webhook (alert : Alert) : preserves R env (_send_webhook_alert alert).
Proof. unfold _send_webhook_alert. pres. Qed.

Lemma preserves_send_sms (alert : Alert) : preserves R env (_send_sms_alert alert).
Proof. unfold _send_sms_alert. pres. Qed.

Lemma preserves_send_slack (alert : Alert) : preserves R env (_send_slack_alert alert).
Proof. unfold _send_slack_alert. pres. Qed.

Lemma preserves_append_alert (alert : Alert) : preserves R env (append_alert alert).
Proof.
  unfold append_alert. pres. apply preserves_modify. intros s. apply R_queue.
Qed.

#[local] Hint Resolve preserves_send_email preserves_send_webhook preserves_send_sms
  preserves_send_slack preserves_append_alert : pres.

Lemma preserves_dispatch_channel (alert : Alert) (channel_name : string) :
  preserves R env (dispatch_channel alert channel_name).
Proof. unfold dispatch_channel. pres. Qed.

#[local] Hint Resolve preserves_dispatch_channel : pres.

Lemma preserves_process_alert (alert : Alert) (chans : list string) :
  preserves R env (_process_alert alert chans).
Proof. unfold _process_alert. pres. Qed.

#[local] Hint Resolve preserves_process_alert : pres.

Lemma preserves_on_exception (monitor_id : string) (l : nat) (e : Exn) :
  preserves R env (on_exception monitor_id l e).
Proof. unfold on_exception. pres. Qed.

Lemma preserves_opinion_triggers (opinion : json) (triggers : list string) :
  preserves R env (opinion_triggers opinion triggers).
Proof.
  unfold opinion_triggers. apply preserves_py_any.
  apply List.Forall_forall. intros c Hc. apply in_map_iff in Hc.
  destruct Hc as (t & <- & _). pres.
Qed.

Lemma preserves_courtlistener_alert (name : string) (opinion : json) :
  preserves R env (courtlistener_alert name opinion).
Proof. unfold courtlistener_alert. pres. Qed.

Lemma preserves_courtlistener_fetch (name : string) : preserves R env (courtlistener_fetch name).
Proof. unfold courtlistener_fetch. pres. Qed.

Lemma scan_opinions_R (name : string) (triggers : list string) (opinions : list json) :
  forall (alerts : list Alert) (w : World),
    R (mgr w) (mgr (world_of (snd (scan_opinions name triggers opinions alerts env w)))).
Proof.
  induction opinions as [|o rest IH]; intros alerts w; simpl; [apply R_refl|].
  pose proof (preserves_opinion_triggers o triggers w) as Ht.
  destruct (opinion_triggers o triggers env w) as [[|] w1|e w1]; simpl in *.
  - pose proof (preserves_courtlistener_alert name o w1) as Ha.
    destruct (courtlistener_alert name o env w1) as [a w2|e w2]; simpl in *.
    + eapply R_trans; [exact Ht|]. eapply R_trans; [exact Ha|]. apply IH.
    + eapply R_trans; [exact Ht|exact Ha].
  - eapply R_trans; [exact Ht|]. apply IH.
  - exact Ht.
Qed.

Lemma preserves_check_courtlistener (name : string) (triggers : list string) :
  preserves R env (_check_courtlistener name triggers).
Proof.
  intros w. unfold _check_courtlistener.
  pose proof (preserves_courtlistener_fetch name w) as Hf.
  destruct (courtlistener_fetch name env w) as [[opinions|] w1|e w1]; simpl in *.
  - pose proof (scan_opinions_R name triggers opinions [] w1) as Hs.
    destruct (scan_opinions name triggers opinions [] env w1) as [alerts [[] w2|e w2]];
      simpl in *; rewrite ?print_then_mgr; eapply R_trans; eauto.
  - exact Hf.
  - by rewrite print_then_mgr.
Qed.

Lemma preserves_check_vinelink (name pid : string) : preserves R env (_check_vinelink name pid).
Proof. unfold _check_vinelink. pres. Qed.

Lemma preserves_check_pacer (name : string) (triggers : list string) :
  preserves R env (_check_pacer name triggers).
Proof. unfold _check_pacer. pres. Qed.

Lemma preserves_check_state_courts (name : string) (triggers : list string) :
  preserves R env (_check_state_courts name triggers).
Proof. unfold _check_state_courts. pres. Qed.

#[local] Hint Resolve preserves_check_courtlistener preserves_check_vinelink
  preserves_check_pacer preserves_check_state_courts : pres.

Lemma preserves_check_cycle (l : nat) :
  preserves R env (check_cycle NotificationManager_checkers l).
Proof.
  unfold check_cycle. simpl. pres. apply preserves_modify. intros s. apply R_checked.
Qed.

Lemma preserves_iteration (monitor_id : string) (l : nat) :
  preserves R env (iteration NotificationManager_checkers monitor_id l).
Proof.
  unfold iteration. apply preserves_try; [apply preserves_check_cycle|].
  intros e. apply preserves_on_exception.
Qed.

Lemma preserves_send_completion (investigation_id : string) :
  preserves R env (send_completion_notification investigation_id).
Proof. unfold send_completion_notification. pres. Qed.

End Preservation.

(** ** The two relations the loop keeps *)

Lemma flags_kept_refl (s : Manager) : flags_kept s s.
Proof. split; [lia|done]. Qed.

Lemma flags_kept_trans (a b c : Manager) :
  flags_kept a b -> flags_kept b c -> flags_kept a c.
Proof.
  intros [L1 F1] [L2 F2]. split; [lia|]. intros l Hl.
  rewrite F2 by lia. by apply F1.
Qed.

Lemma flags_kept_queue (s : Manager) (q : list Alert) : flags_kept s (with_queue q s).
Proof. split; [simpl; lia|done]. Qed.

Lemma flags_kept_checked (s : Manager) (l : nat) (t : datetime) :
  flags_kept s (with_objects (alter (set_last_check t) l (objects s)) s).
Proof.
  split; simpl; [rewrite length_alter; lia|]. intros l' Hl'.
  rewrite list_lookup_total_alter. case_decide as H; [destruct H as [-> _]|]; reflexivity.
Qed.

Lemma flags_kept_register (cfg : Monitor) (s : Manager) : flags_kept s (register cfg s).
Proof.
  split; simpl; [rewrite length_app; lia|]. intros l Hl. by rewrite lookup_total_app_l.
Qed.

Lemma flags_kept_foreign (s : Manager) (f : Foreign) :
  is_stop f = false -> flags_kept s (apply_foreign s f).
Proof.
  destruct f; simpl; [discriminate|intros _..].
  - apply flags_kept_register.
  - apply flags_kept_queue.
  - apply flags_kept_checked.
Qed.

Lemma flags_kept_others (env : Env) :
  no_stops env -> forall t s, flags_kept s (foldl apply_foreign s (env_others env t)).
Proof.
  intros Hno t. specialize (Hno t). induction (env_others env t) as [|f fs IH]; intros s.
  - apply flags_kept_refl.
  - simpl in *. apply andb_true_iff in Hno. destruct Hno as [Hf Hfs].
    eapply flags_kept_trans; [|by apply IH].
    apply flags_kept_foreign. by destruct (is_stop f).
Qed.







(** ** The handler of the loop *)

Lemma on_exception_spec (monitor_id : string) (l : nat) (e : Exn) (env : Env) (w : World) :
  stdout_ok env ->
  let monitor := objects (mgr w) !!! l in
  let alert := error_alert_of env monitor_id monitor e
                 (env_now env (tick w)) (env_now env (S (tick w))) in
  exists (w' : World) (later : list Alert),
    on_exception monitor_id l e env w = Ok tt w'
    /\ marks (trace w')
       = (marks (trace w)
          ++ EvQueued alert
             :: map (fun c => EvDispatch c alert) (omap parse_channel (mon_channels monitor)))%list
    /\ last (trace w') = Some (EvSleep 300)
    /\ alerts_queue (mgr w') = (alerts_queue (mgr w) ++ alert :: later)%list.
Proof.
  intros Hout monitor alert.
  destruct (dispatch_all_does alert (mon_channels monitor) env
              (mkWorld (with_queue (alerts_queue (mgr w) ++ [alert]) (mgr w))
                       (S (S (tick w))) (trace w ++ [EvQueued alert])) Hout)
    as (w1 & Hrun & Hmarks & [later Hq]).
  destruct (foreign_queue (env_others env (tick w1)) (mgr w1)) as [more Hmore].
  exists (mkWorld (foldl apply_foreign (mgr w1) (env_others env (tick w1)))
                  (S (tick w1)) (trace w1 ++ [EvSleep 300])), (later ++ more)%list.
  split; [|split; [|split]].
  - unfold on_exception, _process_alert, append_alert, now, monitor_at, sleep. run.
    fold monitor. fold alert. rewrite Hrun. reflexivity.
  - simpl. rewrite marks_app, Hmarks. simpl. rewrite marks_app. simpl.
    by rewrite app_nil_r, <- app_assoc.
  - simpl. apply last_snoc.
  - simpl. rewrite Hmore, Hq. simpl. by rewrite <- !app_assoc.
Qed.

Lemma iteration_returns (cs : Checkers) (monitor_id : string) (l : nat)
    (env : Env) (w : World) :
  stdout_ok env ->
  exists w', iteration cs monitor_id l env w = Ok tt w'.
Proof.
  intros Hout. unfold iteration, try_except.
  destruct (check_cycle cs l env w) as [[] w1|e w1]; [by eexists|].
  destruct (on_exception_spec monitor_id l e env w1 Hout) as (w2 & _ & H & _). by exists w2.
Qed.


Lemma on_exception_keeps_flags (monitor_id : string) (l : nat) (e : Exn)
    (env : Env) (w : World) :
  no_stops env ->
  flags_kept (mgr w) (mgr (world_of (on_exception monitor_id l e env w))).
Proof.
  intros Hno.
  apply (preserves_on_exception flags_kept flags_kept_refl flags_kept_trans env
           (fun s a => flags_kept_queue s _) (flags_kept_others env Hno)).
Qed.

(** Each dispatcher announces itself before anything else and leaves no
    other mark, whether it returns or raises. *)
Ltac both_ways :=
  simpl;
  repeat match goal with
         | |- context [match ?x with _ => _ end] =>
             lazymatch x with
             | context [match _ with _ => _ end] => fail
             | _ => destruct x; simpl
             end
         end;
  (split;
   [rewrite ?marks_app; simpl; rewrite ?app_nil_r; reflexivity
   |first [by apply grows_mgr|apply foreign_queue]]).

Lemma dispatch_channel_marks (alert : Alert) (channel_name : string) (env : Env)
    (w : World) :
  marks (trace (world_of (dispatch_channel alert channel_name env w)))
  = (marks (trace w)
     ++ match parse_channel channel_name with
        | Some c => [EvDispatch c alert]
        | None => []
        end)%list
  /\ grows w (world_of (dispatch_channel alert channel_name env w)).
Proof.
  destruct w as [self n tr]. unfold dispatch_channel, parse_channel.
  destruct (String.eqb channel_name "email").
  { unfold _send_email_alert. run. both_ways. }
  destruct (String.eqb channel_name "webhook").
  { unfold _send_webhook_alert. run. both_ways. }
  destruct (String.eqb channel_name "sms").
  { unfold _send_sms_alert. run. both_ways. }
  destruct (String.eqb channel_name "slack").
  { unfold _send_slack_alert. run. both_ways. }
  simpl. split; [by rewrite app_nil_r|apply grows_refl].
Qed.



(** The handler, step by step: two clock readings, the alert, its
    dispatch, and then the pause. *)
Lemma on_exception_run (monitor_id : string) (l : nat) (e : Exn) (env : Env) (w : World) :
  on_exception monitor_id l e env w
  = match _process_alert
            (error_alert_of env monitor_id (objects (mgr w) !!! l) e
               (env_now env (tick w)) (env_now env (S (tick w))))
            (mon_channels (objects (mgr w) !!! l)) env
            (mkWorld (mgr w) (S (S (tick w))) (trace w)) with
    | Ok _ w3 =>
        Ok tt (mkWorld (foldl apply_foreign (mgr w3) (env_others env (tick w3)))
                       (S (tick w3)) (trace w3 ++ [EvSleep 300]))
    | Raised e' w3 => Raised e' w3
    end.
Proof.
  unfold on_exception, now, monitor_at, sleep. run.
  by destruct (_process_alert _ _ env _) as [[] w3|e' w3].
Qed.



(** ** Starting a monitor *)

Lemma monitoring_loop_O (cs : Checkers) (monitor_id : string) (l : nat)
    (env : Env) (w : World) :
  monitoring_loop 0 cs monitor_id l env w
  = if active (objects (mgr w) !!! l) then Running w else Returned tt w.
Proof. reflexivity. Qed.

Lemma monitoring_loop_S (fuel : nat) (cs : Checkers) (monitor_id : string) (l : nat)
    (env : Env) (w : World) :
  monitoring_loop (S fuel) cs monitor_id l env w
  = if active (objects (mgr w) !!! l) then
      match iteration cs monitor_id l env w with
      | Ok _ w' => monitoring_loop fuel cs monitor_id l env w'
      | Raised e w' => Failed e w'
      end
    else Returned tt w.
Proof. reflexivity. Qed.

Lemma iteration_keeps_flags (monitor_id : string) (l : nat) (env : Env) (w : World) :
  no_stops env ->
  flags_kept (mgr w)
             (mgr (world_of (iteration NotificationManager_checkers monitor_id l env w))).
Proof.
  intros Hno.
  apply (preserves_iteration flags_kept flags_kept_refl flags_kept_trans env
           (fun s a => flags_kept_queue s _) flags_kept_checked
           (flags_kept_others env Hno)).
Qed.


Lemma monitoring_loop_runs (fuel : nat) (monitor_id : string) (l : nat) (env : Env) :
  stdout_ok env ->
  no_stops env ->
  forall w : World,
    (l < length (objects (mgr w)))%nat ->
    active (objects (mgr w) !!! l) = true ->
    exists w',
      monitoring_loop fuel NotificationManager_checkers monitor_id l env w = Running w'
      /\ flags_kept (mgr w) (mgr w').
Proof.
  intros Hout Hno. induction fuel as [|fuel IH]; intros w Hl Hactive.
  - rewrite monitoring_loop_O, Hactive.
    exists w. split; [reflexivity|apply flags_kept_refl].
  - rewrite monitoring_loop_S, Hactive.
    pose proof (iteration_keeps_flags monitor_id l env w Hno) as Hkeep.
    destruct (iteration_returns NotificationManager_checkers monitor_id l env w Hout)
      as [w1 Hit].
    rewrite Hit in Hkeep |- *. cbn [world_of] in Hkeep. destruct Hkeep as [Hlen Hflag].
    destruct (IH w1) as (w' & Hrun & Hkeep'); [lia|by rewrite Hflag|].
    exists w'. split; [exact Hrun|].
    eapply flags_kept_trans; [|exact Hkeep']. by split.
Qed.


Lemma start_loop_after_register (fuel : nat) (cs : Checkers) (cfg : Monitor)
    (env : Env) (w : World) :
  _start_monitoring_loop fuel cs (mon_id cfg) env
    (mkWorld (register cfg (mgr w)) (S (tick w)) (trace w))
  = monitoring_loop fuel cs (mon_id cfg) (length (objects (mgr w))) env
      (mkWorld (register cfg (mgr w)) (S (tick w)) (trace w)).
Proof.
  unfold _start_monitoring_loop. cbn [mgr register active_monitors with_monitors].
  by rewrite lookup_insert_eq.
Qed.

Lemma setup_person_monitoring_eq (fuel : nat) (cs : Checkers) (name pid : string)
    (triggers chans : list string) (env : Env) (w : World) :
  setup_person_monitoring fuel cs name pid triggers chans env w
  = match monitoring_loop fuel cs
            (mon_id (monitor_config name pid triggers chans (env_now env (tick w))))
            (length (objects (mgr w))) env
            (mkWorld (register (monitor_config name pid triggers chans
                                  (env_now env (tick w))) (mgr w))
                     (S (tick w)) (trace w)) with
    | Returned _ w2 =>
        Returned (mon_id (monitor_config name pid triggers chans (env_now env (tick w)))) w2
    | Failed e w2 => Failed e w2
    | Running w2 => Running w2
    end.
Proof.
  unfold setup_person_monitoring. rewrite register_monitor_eq.
  change (make_monitor_id name (env_now env (tick w)))
    with (mon_id (monitor_config name pid triggers chans (env_now env (tick w)))).
  by rewrite start_loop_after_register.
Qed.

(** C1, what the code does.  As long as no other task stops the monitor
    and standard output takes what the dispatchers print, a call of
    [setup_person_monitoring] has not returned after any number of
    iterations of the polling loop it awaits: the monitor is registered,
    still active, and the call is still running. *)
Theorem setup_blocks_while_active (fuel : nat) (name pid : string)
    (triggers chans : list string) (env : Env) (w : World) :
  stdout_ok env ->
  no_stops env ->
  exists w',
    setup_person_monitoring fuel NotificationManager_checkers name pid triggers chans env w
    = Running w'
    /\ active (objects (mgr w') !!! length (objects (mgr w))) = true.
Proof.
  intros Hout Hno. unfold setup_person_monitoring.
  rewrite register_monitor_eq.
  set (cfg := monitor_config name pid triggers chans (env_now env (tick w))).
  change (make_monitor_id name (env_now env (tick w))) with (mon_id cfg).
  rewrite start_loop_after_register.
  set (w1 := mkWorld (register cfg (mgr w)) (S (tick w)) (trace w)).
  assert (Hl : (length (objects (mgr w)) < length (objects (mgr w1)))%nat).
  { unfold w1, register. cbn [mgr objects with_monitors with_objects].
    rewrite length_app. cbn [length]. lia. }
  assert (Hcfg : objects (mgr w1) !!! length (objects (mgr w)) = cfg).
  { unfold w1, register. cbn [mgr objects with_monitors with_objects].
    by apply list_lookup_total_middle. }
  destruct (monitoring_loop_runs fuel (mon_id cfg) (length (objects (mgr w))) env Hout Hno
              w1 Hl)
    as (w' & Hrun & _ & Hflag); [by rewrite Hcfg|].
  exists w'. rewrite Hrun. split; [reflexivity|].
  rewrite Hflag by exact Hl. by rewrite Hcfg.
Qed.

Lemma setup_blocks_while_active_witness :
  exists w',
    setup_person_monitoring 24 NotificationManager_checkers "Jane Doe" "42"
      ["arrest"] ["webhook"] Sample.quiet Sample.fresh = Running w'
    /\ active (objects (mgr w') !!! 0%nat) = true.
Proof.
  apply (setup_blocks_while_active 24 "Jane Doe" "42" ["arrest"] ["webhook"]
           Sample.quiet Sample.fresh).
  - intros n line. reflexivity.
  - intros t. reflexivity.
Defined.

(** The call returns its monitor id only once the monitor has been stopped. *)
Example setup_returns_once_stopped :
  setup_person_monitoring 0 NotificationManager_checkers "Jane Doe" "42"
    ["arrest"] ["webhook"] stopping Sample.fresh
  = Running (world_of (register_monitor "Jane Doe" "42" ["arrest"] ["webhook"]
                                        stopping Sample.fresh))
  /\ match setup_person_monitoring 1 NotificationManager_checkers "Jane Doe" "42"
             ["arrest"] ["webhook"] stopping Sample.fresh with
     | Returned monitor_id w =>
         monitor_id = "monitor_Jane_Doe_20261103_120000"
         /\ (active <$> get_monitor (mgr w) monitor_id) = Some false
         /\ trace w = [EvSleep 3600]
     | _ => False
     end.
Proof. split; vm_compute; [reflexivity|]. repeat split. Qed.




(** * Further properties *)

(** ** What the loop and a whole call leave in place *)

Section LoopPreservation.

Variable R : Manager -> Manager -> Prop.
Hypothesis R_refl : forall s, R s s.
Hypothesis R_trans : forall a b c, R a b -> R b c -> R a c.
Variable env : Env.
Hypothesis R_queue : forall s a, R s (with_queue (alerts_queue s ++ [a]) s).
Hypothesis R_checked :
  forall s l t, R s (with_objects (alter (set_last_check t) l (objects s)) s).
Hypothesis R_others : forall t s, R s (foldl apply_foreign s (env_others env t)).
Hypothesis R_register : forall cfg s, R s (register cfg s).

Lemma monitoring_loop_preserves (fuel : nat) (monitor_id : string) (l : nat) :
  forall w : World,
    R (mgr w)
      (mgr (outcome_world
              (monitoring_loop fuel NotificationManager_checkers monitor_id l env w))).
Proof.
  induction fuel as [|fuel IH]; intros w.
  - rewrite monitoring_loop_O. destruct (active _); apply R_refl.
  - rewrite monitoring_loop_S. destruct (active _); [|apply R_refl].
    pose proof (preserves_iteration R R_refl R_trans env R_queue R_checked R_others
                  monitor_id l w) as Hkeep.
    destruct (iteration NotificationManager_checkers monitor_id l env w) as [[] w1|e w1];
      cbn [world_of outcome_world] in *; [|exact Hkeep].
    eapply R_trans; [exact Hkeep|apply IH].
Qed.

Lemma setup_preserves (fuel : nat) (name pid : string) (triggers chans : list string)
    (w : World) :
  R (mgr w)
    (mgr (outcome_world
            (setup_person_monitoring fuel NotificationManager_checkers name pid
               triggers chans env w))).
Proof.
  rewrite setup_person_monitoring_eq.
  set (cfg := monitor_config name pid triggers chans (env_now env (tick w))).
  pose proof (monitoring_loop_preserves fuel (mon_id cfg) (length (objects (mgr w)))
                (mkWorld (register cfg (mgr w)) (S (tick w)) (trace w))) as Hloop.
  cbn [mgr] in Hloop.
  eapply R_trans; [apply (R_register cfg)|].
  destruct (monitoring_loop _ _ _ _ _ _); exact Hloop.
Qed.

End LoopPreservation.

(** ** The alert log only grows *)

Lemma log_grows_refl (s : Manager) : log_grows s s.
Proof. exists []. by rewrite app_nil_r. Qed.

Lemma log_grows_trans (a b c : Manager) : log_grows a b -> log_grows b c -> log_grows a c.
Proof. intros [m1 H1] [m2 H2]. exists (m1 ++ m2)%list. by rewrite H2, H1, app_assoc. Qed.

Lemma log_grows_same (s s' : Manager) : alerts_queue s' = alerts_queue s -> log_grows s s'.
Proof. intros H. exists []. by rewrite H, app_nil_r. Qed.

Lemma log_grows_others (env : Env) (t : nat) (s : Manager) :
  log_grows s (foldl apply_foreign s (env_others env t)).
Proof. apply foreign_queue. Qed.

(** X1. No operation of the manager removes, replaces or reorders a logged
    alert.  After [setup_person_monitoring] has run for any number of
    iterations, whatever the sources answer and whatever other tasks do
    meanwhile, after [send_completion_notification] and after
    [stop_monitoring], the log that was there before is a prefix of the
    log. *)
Theorem alert_log_append_only (fuel : nat) (name pid investigation_id monitor_id : string)
    (triggers chans : list string) (env : Env) (w : World) :
  log_grows (mgr w)
    (mgr (outcome_world
            (setup_person_monitoring fuel NotificationManager_checkers name pid
               triggers chans env w)))
  /\ log_grows (mgr w)
       (mgr (world_of (send_completion_notification investigation_id env w)))
  /\ log_grows (mgr w) (fst (stop_monitoring (mgr w) monitor_id)).
Proof.
  split; [|split].
  - apply (setup_preserves log_grows log_grows_refl log_grows_trans env).
    + intros s a. by exists [a].
    + intros s l t. by apply log_grows_same.
    + apply log_grows_others.
    + intros cfg s. by apply log_grows_same.
  - apply (preserves_send_completion log_grows log_grows_refl log_grows_trans env).
    + intros s a. by exists [a].
    + apply log_grows_others.
  - apply log_grows_same, stop_keeps_queue.
Qed.

(** ** Monitor dictionaries are never rewritten *)

Lemma same_identity_refl (m : Monitor) : same_identity m m.
Proof. by repeat split. Qed.

Lemma same_identity_trans (a b c : Monitor) :
  same_identity a b -> same_identity b c -> same_identity a c.
Proof. unfold same_identity. intuition congruence. Qed.

Lemma monitors_frozen_refl (s : Manager) : monitors_frozen s s.
Proof. split; [lia|]. split; [intros; apply same_identity_refl|done]. Qed.

Lemma monitors_frozen_trans (a b c : Manager) :
  monitors_frozen a b -> monitors_frozen b c -> monitors_frozen a c.
Proof.
  intros (L1 & I1 & U1 & P1 & W1 & T1) (L2 & I2 & U2 & P2 & W2 & T2).
  split; [lia|]. split.
  - intros l Hl. eapply same_identity_trans; [by apply I1|apply I2; lia].
  - repeat split; congruence.
Qed.

Lemma monitors_frozen_queue (s : Manager) (q : list Alert) :
  monitors_frozen s (with_queue q s).
Proof. split; [simpl; lia|]. split; [intros; apply same_identity_refl|done]. Qed.

Lemma monitors_frozen_alter (f : Monitor -> Monitor) (s : Manager) (l : nat) :
  (forall m, same_identity m (f m)) ->
  monitors_frozen s (with_objects (alter f l (objects s)) s).
Proof.
  intros Hf. split; [simpl; rewrite length_alter; lia|]. split; [|done].
  intros l' Hl'. simpl. rewrite list_lookup_total_alter.
  case_decide as H; [destruct H as [-> _]; apply Hf|apply same_identity_refl].
Qed.

Lemma monitors_frozen_register (cfg : Monitor) (s : Manager) :
  monitors_frozen s (register cfg s).
Proof.
  split; [simpl; rewrite length_app; lia|]. split; [|done].
  intros l Hl. simpl. rewrite lookup_total_app_l by exact Hl. apply same_identity_refl.
Qed.

Lemma monitors_frozen_stop (s : Manager) (monitor_id : string) :
  monitors_frozen s (fst (stop_monitoring s monitor_id)).
Proof.
  unfold stop_monitoring. destruct (active_monitors s !! monitor_id); simpl.
  - apply monitors_frozen_alter. intros m. by repeat split.
  - apply monitors_frozen_refl.
Qed.

Lemma monitors_frozen_foreign (s : Manager) (f : Foreign) :
  monitors_frozen s (apply_foreign s f).
Proof.
  destruct f; simpl.
  - apply monitors_frozen_stop.
  - apply monitors_frozen_register.
  - apply monitors_frozen_queue.
  - apply monitors_frozen_alter. intros m. by repeat split.
Qed.

Lemma monitors_frozen_others (env : Env) (t : nat) (s : Manager) :
  monitors_frozen s (foldl apply_foreign s (env_others env t)).
Proof.
  revert s. induction (env_others env t) as [|f fs IH]; intros s.
  - apply monitors_frozen_refl.
  - simpl. eapply monitors_frozen_trans; [apply monitors_frozen_foreign|apply IH].
Qed.

(** X2. A monitor is created once and then only its [active] flag and its
    last check time ever change.  After a start call has run for any number
    of iterations, whatever other tasks do, every monitor that existed
    before still has its id, person, triggers, channels, interval and
    sources, the configuration of the manager is untouched, and the monitor
    the call has registered still is the one it registered: for its person,
    with its channels, polled every 3600 seconds.  [stop_monitoring]
    rewrites nothing either. *)
Theorem monitors_never_rewritten (fuel : nat) (name pid monitor_id : string)
    (triggers chans : list string) (env : Env) (w : World) :
  let w' := outcome_world
              (setup_person_monitoring fuel NotificationManager_checkers name pid
                 triggers chans env w) in
  let monitor := objects (mgr w') !!! length (objects (mgr w)) in
  monitors_frozen (mgr w) (mgr w')
  /\ same_identity (monitor_config name pid triggers chans (env_now env (tick w))) monitor
  /\ person_name monitor = name
  /\ mon_channels monitor = chans
  /\ check_interval monitor = 3600
  /\ monitors_frozen (mgr w) (fst (stop_monitoring (mgr w) monitor_id)).
Proof.
  intros w' monitor.
  assert (Hsetup : monitors_frozen (mgr w) (mgr w')).
  { apply (setup_preserves monitors_frozen monitors_frozen_refl monitors_frozen_trans env).
    - intros s a. apply monitors_frozen_queue.
    - intros s l t. apply monitors_frozen_alter. intros m. by repeat split.
    - apply monitors_frozen_others.
    - intros cfg s. apply monitors_frozen_register. }
  assert (Hid : same_identity
                  (monitor_config name pid triggers chans (env_now env (tick w))) monitor).
  { subst monitor w'. rewrite setup_person_monitoring_eq.
    set (cfg := monitor_config name pid triggers chans (env_now env (tick w))).
    set (w1 := mkWorld (register cfg (mgr w)) (S (tick w)) (trace w)).
    pose proof (monitoring_loop_preserves monitors_frozen monitors_frozen_refl
                  monitors_frozen_trans env
                  (fun s a => monitors_frozen_queue s _)
                  (fun s l t => monitors_frozen_alter (set_last_check t) s l
                                  (fun m => ltac:(by repeat split)))
                  (monitors_frozen_others env)
                  fuel (mon_id cfg) (length (objects (mgr w))) w1) as (_ & Hkeep & _).
    assert (Hcfg : objects (mgr w1) !!! length (objects (mgr w)) = cfg).
    { unfold w1, register. cbn [mgr objects with_monitors with_objects].
      by apply list_lookup_total_middle. }
    specialize (Hkeep (length (objects (mgr w)))). rewrite Hcfg in Hkeep.
    destruct (monitoring_loop _ _ _ _ _ _); apply Hkeep;
      unfold w1, register; cbn [mgr objects with_monitors with_objects];
      rewrite length_app; cbn [length]; lia. }
  split; [exact Hsetup|]. split; [exact Hid|].
  destruct Hid as (_ & Hn & _ & _ & Hc & Hi & _).
  split; [exact Hn|]. split; [exact Hc|]. split; [exact Hi|].
  apply monitors_frozen_stop.
Qed.

(** ** When a start call returns *)

Lemma monitoring_loop_returned (fuel : nat) (cs : Checkers) (monitor_id : string)
    (l : nat) (env : Env) :
  forall w w' : World,
    monitoring_loop fuel cs monitor_id l env w = Returned tt w' ->
    active (objects (mgr w') !!! l) = false.
Proof.
  induction fuel as [|fuel IH]; intros w w' H.
  - rewrite monitoring_loop_O in H.
    destruct (active (objects (mgr w) !!! l)) eqn:Ha; [discriminate|].
    by injection H as <-.
  - rewrite monitoring_loop_S in H.
    destruct (active (objects (mgr w) !!! l)) eqn:Ha; [|by injection H as <-].
    destruct (iteration cs monitor_id l env w) as [[] w1|e w1]; [|discriminate].
    by apply (IH w1).
Qed.

(** X3. Whichever checkers the manager has, a start call that returns has
    found the [active] flag of the monitor it registered cleared: the
    monitor id it hands back is the id of a monitor that is already
    stopped.  The id is the one computed at registration. *)
Theorem setup_returns_only_stopped (fuel : nat) (cs : Checkers) (name pid : string)
    (triggers chans : list string) (env : Env) (w w' : World) (monitor_id : string) :
  setup_person_monitoring fuel cs name pid triggers chans env w = Returned monitor_id w' ->
  monitor_id = make_monitor_id name (env_now env (tick w))
  /\ active (objects (mgr w') !!! length (objects (mgr w))) = false.
Proof.
  rewrite setup_person_monitoring_eq. intros H.
  destruct (monitoring_loop _ _ _ _ _ _) as [[] w2|e w2|w2] eqn:Hloop; try discriminate.
  injection H as <- <-. split; [reflexivity|].
  by apply monitoring_loop_returned in Hloop.
Qed.

Lemma setup_returns_only_stopped_witness :
  exists w' : World,
    setup_person_monitoring 1 NotificationManager_checkers "Jane Doe" "42"
      ["arrest"] ["webhook"] stopping Sample.fresh
    = Returned "monitor_Jane_Doe_20261103_120000" w'
    /\ active (objects (mgr w') !!! 0%nat) = false.
Proof.
  set (r := setup_person_monitoring 1 NotificationManager_checkers "Jane Doe" "42"
              ["arrest"] ["webhook"] stopping Sample.fresh).
  assert (Hr : r = Returned "monitor_Jane_Doe_20261103_120000" (outcome_world r))
    by (vm_compute; reflexivity).
  exists (outcome_world r). split; [exact Hr|].
  apply (setup_returns_only_stopped 1 NotificationManager_checkers "Jane Doe" "42"
           ["arrest"] ["webhook"] stopping Sample.fresh _ _ Hr).
Defined.

(** ** Stopping twice, and registering beside other monitors *)

Lemma set_active_twice (l : nat) (objs : list Monitor) :
  alter (set_active false) l (alter (set_active false) l objs)
  = alter (set_active false) l objs.
Proof.
  rewrite list_alter_alter_eq. apply list_alter_ext; [|reflexivity].
  intros m _. reflexivity.
Qed.

(** X4. [stop_monitoring] is idempotent: a second call for the same id
    gives the same answer as the first and changes nothing more. *)
Theorem stop_monitoring_idempotent (self : Manager) (monitor_id : string) :
  stop_monitoring (fst (stop_monitoring self monitor_id)) monitor_id
  = stop_monitoring self monitor_id.
Proof.
  unfold stop_monitoring.
  destruct (active_monitors self !! monitor_id) as [l|] eqn:Hl; simpl; rewrite Hl.
  - unfold with_objects. simpl. by rewrite set_active_twice.
  - reflexivity.
Qed.

Lemma wf_manager_register (cfg : Monitor) (s : Manager) :
  wf_manager s -> wf_manager (register cfg s).
Proof.
  intros Hwf i l. unfold register. simpl. rewrite length_app. simpl.
  destruct (decide (mon_id cfg = i)) as [->|Hne].
  - rewrite lookup_insert_eq. intros [= <-]. lia.
  - rewrite lookup_insert_ne by exact Hne. intros H. apply Hwf in H. lia.
Qed.

(** X5. Registering a monitor binds its id to it and leaves every other
    binding as it was: in a registry whose ids are bound to existing
    dictionaries, looking up the new id gives the new monitor, looking up any
    other id gives what it gave before, and the registry stays well formed. *)
Theorem register_lookup (cfg : Monitor) (s : Manager) :
  wf_manager s ->
  get_monitor (register cfg s) (mon_id cfg) = Some cfg
  /\ (forall i, i <> mon_id cfg -> get_monitor (register cfg s) i = get_monitor s i)
  /\ wf_manager (register cfg s)
  /\ alerts_queue (register cfg s) = alerts_queue s.
Proof.
  intros Hwf. split; [apply get_monitor_register|]. split; [|split].
  - intros i Hne. unfold get_monitor, register. simpl.
    rewrite lookup_insert_ne by done.
    destruct (active_monitors s !! i) as [l|] eqn:Hl; [|reflexivity]. simpl.
    apply lookup_app_l. by apply (Hwf i).
  - by apply wf_manager_register.
  - reflexivity.
Qed.

Lemma register_lookup_witness :
  let first := monitor_config "Jane Doe" "42" ["arrest"] ["sms"] Sample.t0 in
  let second := monitor_config "John Roe" "43" ["sentence"] ["email"] Sample.t0 in
  let s := register first (mgr Sample.fresh) in
  get_monitor (register second s) (mon_id second) = Some second
  /\ get_monitor (register second s) (mon_id first) = Some first.
Proof.
  intros first second s.
  assert (Hwf : wf_manager s).
  { apply wf_manager_register. intros i l H. vm_compute in H. discriminate. }
  destruct (register_lookup second s Hwf) as (Hnew & Hother & _).
  split; [exact Hnew|]. rewrite Hother; [apply get_monitor_register|].
  vm_compute. discriminate.
Defined.

(** ** A loop whose monitor id has been taken over *)

Lemma orphaned_queue (l : nat) (s : Manager) (q : list Alert) :
  orphaned l s -> orphaned l (with_queue q s).
Proof. by intros H. Qed.

Lemma orphaned_alter (f : Monitor -> Monitor) (l l' : nat) (s : Manager) :
  (l' = l -> forall m, active (f m) = active m) ->
  orphaned l s -> orphaned l (with_objects (alter f l' (objects s)) s).
Proof.
  intros Hf (Hl & Ha & Hr). split; [simpl; by rewrite length_alter|]. split; [|exact Hr].
  simpl. rewrite list_lookup_total_alter.
  case_decide as H; [|exact Ha]. destruct H as [-> _]. by rewrite Hf.
Qed.

Lemma orphaned_register (l : nat) (cfg : Monitor) (s : Manager) :
  orphaned l s -> orphaned l (register cfg s).
Proof.
  intros (Hl & Ha & Hr). split; [simpl; rewrite length_app; lia|]. split.
  - simpl. by rewrite lookup_total_app_l.
  - intros i. simpl. destruct (decide (mon_id cfg = i)) as [->|Hne].
    + rewrite lookup_insert_eq. intros [= E]. lia.
    + rewrite lookup_insert_ne by exact Hne. apply Hr.
Qed.

Lemma orphaned_stop (l : nat) (monitor_id : string) (s : Manager) :
  orphaned l s -> orphaned l (fst (stop_monitoring s monitor_id)).
Proof.
  intros H. unfold stop_monitoring.
  destruct (active_monitors s !! monitor_id) as [l'|] eqn:Hl'; simpl; [|exact H].
  apply orphaned_alter; [|exact H].
  intros ->. destruct H as (_ & _ & Hr). by destruct (Hr monitor_id).
Qed.

Lemma orphaned_foreign (l : nat) (s : Manager) (f : Foreign) :
  orphaned l s -> orphaned l (apply_foreign s f).
Proof.
  destruct f; simpl.
  - apply orphaned_stop.
  - apply orphaned_register.
  - apply orphaned_queue.
  - apply orphaned_alter. intros _ m. reflexivity.
Qed.

Lemma orphaned_others (l : nat) (env : Env) (t : nat) (s : Manager) :
  orphaned l s -> orphaned l (foldl apply_foreign s (env_others env t)).
Proof.
  revert s. induction (env_others env t) as [|f fs IH]; intros s H; [exact H|].
  simpl. apply IH. by apply orphaned_foreign.
Qed.

Lemma orphaned_iteration (l : nat) (monitor_id : string) (l' : nat) (env : Env) (w : World) :
  orphaned l (mgr w) ->
  orphaned l (mgr (world_of (iteration NotificationManager_checkers monitor_id l' env w))).
Proof.
  apply (preserves_iteration (fun s s' => orphaned l s -> orphaned l s')).
  - auto.
  - auto.
  - intros s a. apply orphaned_queue.
  - intros s k t. apply orphaned_alter. intros _ m. reflexivity.
  - intros t s. apply orphaned_others.
Qed.

Lemma orphaned_loop_runs (fuel : nat) (monitor_id : string) (l : nat) (env : Env) :
  stdout_ok env ->
  forall w : World,
    orphaned l (mgr w) ->
    exists w',
      monitoring_loop fuel NotificationManager_checkers monitor_id l env w = Running w'
      /\ orphaned l (mgr w').
Proof.
  intros Hout. induction fuel as [|fuel IH]; intros w Ho.
  - rewrite monitoring_loop_O. destruct Ho as (Hl & Ha & Hr). rewrite Ha.
    exists w. by split.
  - rewrite monitoring_loop_S. pose proof Ho as (Hl & Ha & Hr). rewrite Ha.
    pose proof (orphaned_iteration l monitor_id l env w Ho) as Hkeep.
    destruct (iteration_returns NotificationManager_checkers monitor_id l env w Hout)
      as [w1 Hit].
    rewrite Hit in Hkeep |- *. by apply IH.
Qed.

Lemma orphaned_after_collision (first second : Monitor) (s : Manager) :
  wf_manager s -> mon_id first = mon_id second -> active first = true ->
  orphaned (length (objects s)) (register second (register first s)).
Proof.
  intros Hwf Hid Hactive. split; [|split].
  - simpl. rewrite !length_app. simpl. lia.
  - simpl. rewrite lookup_total_app_l by (rewrite length_app; simpl; lia).
    by rewrite list_lookup_total_middle.
  - intros i. simpl. rewrite length_app. simpl.
    destruct (decide (mon_id second = i)) as [->|Hne].
    + rewrite lookup_insert_eq. intros [= E]. lia.
    + rewrite lookup_insert_ne by exact Hne. rewrite Hid.
      rewrite lookup_insert_ne by exact Hne. intros H. apply Hwf in H. lia.
Qed.

(** X6. When a second registration takes over the monitor id of an active
    monitor (same person, same second), the registry points to the second
    dictionary only, and the polling loop of the first can no longer be
    reached: [stop_monitoring] on the shared id answers true but clears the
    flag of the second monitor, and whatever other tasks do from then on,
    stop calls included, the first loop is still running after any number of
    iterations, on a standard output that takes what the dispatchers
    print. *)
Theorem taken_over_loop_never_stops (fuel : nat) (first second : Monitor)
    (s : Manager) (env : Env) (w : World) :
  stdout_ok env ->
  wf_manager s ->
  mon_id first = mon_id second ->
  active first = true ->
  mgr w = register second (register first s) ->
  snd (stop_monitoring (mgr w) (mon_id first)) = true
  /\ active (objects (fst (stop_monitoring (mgr w) (mon_id first))) !!! length (objects s))
     = true
  /\ exists w',
       monitoring_loop fuel NotificationManager_checkers (mon_id first)
         (length (objects s)) env w = Running w'
       /\ active (objects (mgr w') !!! length (objects s)) = true.
Proof.
  intros Hout Hwf Hid Hactive Hw.
  pose proof (orphaned_after_collision first second s Hwf Hid Hactive) as Ho.
  rewrite <- Hw in Ho. split; [|split].
  - unfold stop_monitoring. rewrite Hw, Hid. simpl. by rewrite lookup_insert_eq.
  - by destruct (orphaned_stop _ (mon_id first) _ Ho) as (_ & Ha & _).
  - destruct (orphaned_loop_runs fuel (mon_id first) (length (objects s)) env Hout w Ho)
      as (w' & Hrun & _ & Ha & _).
    by exists w'.
Qed.

Lemma taken_over_loop_never_stops_witness :
  let first := monitor_config "Jane Doe" "42" ["arrest"] ["sms"] Sample.t0 in
  let second := monitor_config "Jane Doe" "42" ["arrest"] ["email"] Sample.t0 in
  let w := mkWorld (register second (register first (mgr Sample.fresh))) 0 [] in
  exists w',
    monitoring_loop 12 NotificationManager_checkers "monitor_Jane_Doe_20261103_120000"
      0 stopping w = Running w'
    /\ active (objects (mgr w') !!! 0%nat) = true.
Proof.
  intros first second w.
  assert (Hwf : wf_manager (mgr Sample.fresh)).
  { intros i l H. vm_compute in H. discriminate. }
  assert (Hout : stdout_ok stopping) by (intros n line; reflexivity).
  destruct (taken_over_loop_never_stops 12 first second (mgr Sample.fresh) stopping w
              Hout Hwf eq_refl eq_refl eq_refl) as (_ & _ & Hrun).
  exact Hrun.
Defined.

(** ** The email dispatcher and the completion notice *)

(** X7. On a standard output that takes what it prints, the email
    dispatcher never raises and leaves the manager as it is.
    Without a password configured it only prints what it would send and
    opens no SMTP session.  With one, it makes a single attempt, from
    alerts@tavit.com to admin@tavit.com with the severity in capitals in the
    subject; if the session fails the error is printed and nothing else
    happens. *)
Theorem email_delivery (alert : Alert) (env : Env) (w : World) :
  stdout_ok env ->
  exists (w' : World) (log : list Event),
    _send_email_alert alert env w = Ok tt w'
    /\ mgr w' = mgr w
    /\ trace w' = (trace w ++ EvDispatch EMAIL alert :: log)%list
    /\ (email_password (mgr w) = "" ->
        log = [EvPrint ("Email not configured, would send: " +:+ title alert)]
        /\ tick w' = tick w)
    /\ (email_password (mgr w) <> "" -> env_smtp env (tick w) = None ->
        log = [EvSmtp "smtp.gmail.com" 587 (email_username (mgr w)) (email_password (mgr w))
                      "alerts@tavit.com" "admin@tavit.com"
                      ("TAVIT Alert [" +:+ upper (severity_value (severity alert)) +:+ "]: "
                         +:+ title alert)
                      (email_body env alert)])
    /\ (email_password (mgr w) <> "" ->
        forall e, env_smtp env (tick w) = Some e ->
                  log = [EvPrint ("Error sending email alert: " +:+ exn_str e)]).
Proof.
  intros Hout. destruct w as [self n tr]. unfold _send_email_alert. run.
  destruct (String.eqb_spec (email_password self) "") as [Hp|Hp]; simpl; stdout.
  - eexists _, [EvPrint _]. split; [reflexivity|]. simpl.
    split; [reflexivity|]. split; [by rewrite <- app_assoc|].
    split; [done|]. split; intros; done.
  - destruct (env_smtp env n) as [e|] eqn:Hsmtp; simpl; stdout.
    + eexists _, [EvPrint _]. split; [reflexivity|]. simpl.
      split; [reflexivity|]. split; [by rewrite <- app_assoc|].
      split; [done|]. split; [done|]. intros _ e' [= <-]. reflexivity.
    + eexists _, [EvSmtp _ _ _ _ _ _ _ _]. split; [reflexivity|]. simpl.
      split; [reflexivity|]. split; [by rewrite <- app_assoc|].
      split; [done|]. split; [reflexivity|]. intros _ e' [=].
Qed.

Lemma email_delivery_witness :
  exists w' : World,
    _send_email_alert Sample.jane Sample.quiet Sample.fresh = Ok tt w'
    /\ trace w' = [EvDispatch EMAIL Sample.jane;
                   EvPrint "Email not configured, would send: Alerta"].
Proof.
  destruct (email_delivery Sample.jane Sample.quiet Sample.fresh)
    as (w' & log & Hrun & _ & Htrace & Hnone & _).
  - intros n line. reflexivity.
  - exists w'. split; [exact Hrun|].
    destruct Hnone as [-> _]; [reflexivity|]. exact Htrace.
Defined.

Lemma send_completion_run (investigation_id : string) (env : Env) (w : World) :
  let alert :=
    mkAlert ("completion_" +:+ investigation_id +:+ "_"
               +:+ fmt_timestamp env (env_now env (tick w)))
            "Investigación Completada"
            ("La investigación " +:+ investigation_id
               +:+ " ha sido completada exitosamente")
            INFO "system" "Sistema" (Some investigation_id)
            (env_now env (S (tick w))) [EMAIL]
            [("investigation_id", JStr investigation_id)] in
  stdout_ok env ->
  exists (w' : World) (later : list Alert),
    send_completion_notification investigation_id env w = Ok tt w'
    /\ marks (trace w')
       = (marks (trace w)
          ++ [EvQueued alert; EvDispatch EMAIL alert; EvDispatch WEBHOOK alert])%list
    /\ alerts_queue (mgr w') = (alerts_queue (mgr w) ++ alert :: later)%list.
Proof.
  intros alert Hout.
  destruct (dispatch_all_does alert ["email"; "webhook"] env
              (mkWorld (with_queue (alerts_queue (mgr w) ++ [alert]) (mgr w))
                       (S (S (tick w))) (trace w ++ [EvQueued alert])) Hout)
    as (w' & Hrun & Hmarks & [later Hq]).
  exists w', later. split; [|split].
  - unfold send_completion_notification, _process_alert, append_alert, now. run.
    fold alert. exact Hrun.
  - rewrite Hmarks. simpl. rewrite marks_app. simpl. by rewrite <- app_assoc.
  - rewrite Hq. simpl. by rewrite <- app_assoc.
Qed.

(** X8. On a standard output that takes what the dispatchers print,
    [send_completion_notification] never raises.  It logs exactly one
    alert, of severity info and source "system", whose target id and
    metadata carry the investigation id and whose creation time is the
    second clock reading of the call, and hands it to the email dispatcher
    and then to the webhook dispatcher, although the alert's own channels
    name email only. *)
Theorem completion_notification (investigation_id : string) (env : Env) (w : World) :
  stdout_ok env ->
  exists (w' : World) (alert : Alert) (later : list Alert),
    send_completion_notification investigation_id env w = Ok tt w'
    /\ severity alert = INFO
    /\ source alert = "system"
    /\ target_person alert = "Sistema"
    /\ target_id alert = Some investigation_id
    /\ metadata alert = [("investigation_id", JStr investigation_id)]
    /\ channels alert = [EMAIL]
    /\ created_at alert = env_now env (S (tick w))
    /\ marks (trace w')
       = (marks (trace w)
          ++ [EvQueued alert; EvDispatch EMAIL alert; EvDispatch WEBHOOK alert])%list
    /\ alerts_queue (mgr w') = (alerts_queue (mgr w) ++ alert :: later)%list.
Proof.
  intros Hout.
  destruct (send_completion_run investigation_id env w Hout)
    as (w' & later & Hrun & Hmarks & Hq).
  lazymatch type of Hq with
  | _ = (_ ++ ?a :: _)%list => exists w', a, later
  end.
  split; [exact Hrun|].
  do 7 (split; [reflexivity|]). split; [exact Hmarks|exact Hq].
Qed.

Lemma completion_notification_witness :
  exists (w' : World) (alert : Alert),
    send_completion_notification "inv_1" Sample.quiet Sample.fresh = Ok tt w'
    /\ target_id alert = Some "inv_1"
    /\ marks (trace w')
       = [EvQueued alert; EvDispatch EMAIL alert; EvDispatch WEBHOOK alert]
    /\ alerts_queue (mgr w') = [alert].
Proof.
  destruct (completion_notification "inv_1" Sample.quiet Sample.fresh)
    as (w' & alert & later & Hrun & _ & _ & _ & Hid & _ & _ & _ & Hmarks & Hq).
  - intros n line. reflexivity.
  - exists w', alert. split; [exact Hrun|]. split; [exact Hid|].
    split; [exact Hmarks|].
    assert (Hlen : length (alerts_queue (mgr w')) = 1%nat).
    { replace w' with (world_of (send_completion_notification "inv_1" Sample.quiet
                                   Sample.fresh)) by (by rewrite Hrun).
      vm_compute. reflexivity. }
    rewrite Hq in Hlen |- *. simpl in Hlen. by destruct later.
Defined.

(** ** The caller: process_investigation *)

Example py_range_progress : py_range 0 101 20 = [0; 20; 40; 60; 80; 100].
Proof. reflexivity. Qed.

Lemma investigation_steps (investigation : gmap string json) :
  foldl investigation_step investigation (py_range 0 101 20)
  = <["ai_analysis" := ai_analysis_result]>
      (<["status" := JStr "completed"]> (<["progress" := JInt 100]> investigation)).
Proof.
  change (py_range 0 101 20) with [0; 20; 40; 60; 80; 100].
  cbn [foldl]. unfold investigation_step. simpl.
  by rewrite !insert_insert_eq.
Qed.

(** X9. [process_investigation] on an id that is not in the table of
    investigations raises the key error before anything else: the table is
    untouched and no completion notice is sent.  On a known id it leaves the
    investigation at progress 100, status "completed", with the analysis
    attached, every other field of it and every other investigation as they
    were, and then sends the completion notice for that id, which does not
    raise on a standard output that takes what the dispatchers print. *)
Theorem process_investigation_spec (investigations : gmap string (gmap string json))
    (investigation_id : string) (env : Env) (w : World) :
  (investigations !! investigation_id = None ->
     process_investigation investigations investigation_id env w
     = (investigations, Raised (KeyError investigation_id) w))
  /\ (forall investigation,
        investigations !! investigation_id = Some investigation ->
        stdout_ok env ->
        exists (table : gmap string (gmap string json)) (done_ : gmap string json)
               (w' : World),
          process_investigation investigations investigation_id env w = (table, Ok tt w')
          /\ send_completion_notification investigation_id env w = Ok tt w'
          /\ table !! investigation_id = Some done_
          /\ done_ !! "progress" = Some (JInt 100)
          /\ done_ !! "status" = Some (JStr "completed")
          /\ done_ !! "ai_analysis" = Some ai_analysis_result
          /\ (forall k, k <> "progress" -> k <> "status" -> k <> "ai_analysis" ->
                        done_ !! k = investigation !! k)
          /\ (forall i, i <> investigation_id -> table !! i = investigations !! i)).
Proof.
  split.
  - intros H. unfold process_investigation. by rewrite H.
  - intros investigation H Hout.
    destruct (send_completion_run investigation_id env w Hout) as (w' & _ & Hrun & _).
    eexists _, _, w'. unfold process_investigation. rewrite H, Hrun.
    split; [reflexivity|]. split; [reflexivity|].
    split; [apply lookup_insert_eq|]. rewrite investigation_steps.
    split; [by simplify_map_eq|]. split; [by simplify_map_eq|].
    split; [by simplify_map_eq|]. split.
    + intros k H1 H2 H3. by simplify_map_eq.
    + intros i Hi. by rewrite lookup_insert_ne.
Qed.

Lemma process_investigation_spec_witness :
  let table : gmap string (gmap string json) :=
    {[ "inv_1" := {[ "progress" := JInt 0; "target" := JStr "Jane Doe" ]} ]} in
  process_investigation table "inv_2" Sample.quiet Sample.fresh
  = (table, Raised (KeyError "inv_2") Sample.fresh)
  /\ exists table' done_ w',
       process_investigation table "inv_1" Sample.quiet Sample.fresh = (table', Ok tt w')
       /\ table' !! "inv_1" = Some done_
       /\ done_ !! "progress" = Some (JInt 100)
       /\ done_ !! "target" = Some (JStr "Jane Doe").
Proof.
  intros table.
  destruct (process_investigation_spec table "inv_2" Sample.quiet Sample.fresh)
    as [Hmissing _].
  destruct (process_investigation_spec table "inv_1" Sample.quiet Sample.fresh)
    as [_ Hknown].
  split; [apply Hmissing; vm_compute; reflexivity|].
  destruct (Hknown {[ "progress" := JInt 0; "target" := JStr "Jane Doe" ]})
    as (table' & done_ & w' & Hrun & _ & Hget & Hprog & _ & _ & Hrest & _).
  { vm_compute. reflexivity. }
  { intros n line. reflexivity. }
  exists table', done_, w'. split; [exact Hrun|]. split; [exact Hget|].
  split; [exact Hprog|]. rewrite Hrest by discriminate. vm_compute. reflexivity.
Defined.

(** ** A manager without delivery configuration *)

Lemma dispatch_channel_local (alert : Alert) (channel_name : string) (env : Env) (w : World) :
  stdout_ok env ->
  email_password (mgr w) = "" -> webhook_url (mgr w) = "" ->
  exists (w' : World) (log : list Event),
    dispatch_channel alert channel_name env w = Ok tt w'
    /\ mgr w' = mgr w /\ tick w' = tick w
    /\ trace w' = (trace w ++ log)%list
    /\ Forall (fun ev => is_network ev = false) log.
Proof.
  intros Hout. destruct w as [self n tr]. simpl. intros Hp Hu.
  unfold dispatch_channel, _send_email_alert, _send_webhook_alert, _send_sms_alert,
    _send_slack_alert.
  destruct (String.eqb channel_name "email").
  { run. rewrite Hp. simpl. stdout. eexists _, [_; _]. split; [reflexivity|]. simpl.
    split; [done|]. split; [done|]. split; [by rewrite <- app_assoc|].
    by repeat constructor. }
  destruct (String.eqb channel_name "webhook").
  { run. rewrite Hu. simpl. stdout. eexists _, [_; _]. split; [reflexivity|]. simpl.
    split; [done|]. split; [done|]. split; [by rewrite <- app_assoc|].
    by repeat constructor. }
  destruct (String.eqb channel_name "sms").
  { run. eexists _, [_; _]. split; [reflexivity|]. simpl.
    split; [done|]. split; [done|]. split; [by rewrite <- app_assoc|].
    by repeat constructor. }
  destruct (String.eqb channel_name "slack").
  { run. eexists _, [_; _]. split; [reflexivity|]. simpl.
    split; [done|]. split; [done|]. split; [by rewrite <- app_assoc|].
    by repeat constructor. }
  exists (mkWorld self n tr), []. split; [reflexivity|]. simpl.
  split; [done|]. split; [done|]. split; [by rewrite app_nil_r|constructor].
Qed.

Lemma dispatch_all_local (alert : Alert) (chans : list string) (env : Env) :
  stdout_ok env ->
  forall w : World,
    email_password (mgr w) = "" -> webhook_url (mgr w) = "" ->
    exists (w' : World) (log : list Event),
      for_each chans (dispatch_channel alert) env w = Ok tt w'
      /\ mgr w' = mgr w /\ tick w' = tick w
      /\ trace w' = (trace w ++ log)%list
      /\ Forall (fun ev => is_network ev = false) log.
Proof.
  intros Hout. induction chans as [|c chans IH]; intros w Hp Hu.
  - exists w, []. split; [reflexivity|]. split; [done|]. split; [done|].
    split; [by rewrite app_nil_r|constructor].
  - destruct (dispatch_channel_local alert c env w Hout Hp Hu)
      as (w1 & log1 & Hrun1 & Hm1 & Ht1 & Htr1 & Hl1).
    destruct (IH w1) as (w2 & log2 & Hrun2 & Hm2 & Ht2 & Htr2 & Hl2);
      [by rewrite Hm1..|].
    exists w2, (log1 ++ log2)%list. split.
    { change (for_each (c :: chans) (dispatch_channel alert))
        with (dispatch_channel alert c;; for_each chans (dispatch_channel alert)).
      unfold mbind, M_bind, bind. by rewrite Hrun1. }
    split; [congruence|]. split; [congruence|].
    split; [by rewrite Htr2, Htr1, app_assoc|]. by apply Forall_app.
Qed.

(** X10. On a manager with no email password and no webhook URL
    configured, which is what the constructor builds when the environment
    sets neither, processing an alert for any list of channels stays inside
    the process: the alert is appended to the log, the dispatchers print, and
    no HTTP request or SMTP session is made.  The call is never suspended, so
    no other task runs in between, and on a standard output that takes what
    the dispatchers print it does not raise. *)
Theorem unconfigured_process_alert_is_local (alert : Alert) (chans : list string)
    (env : Env) (w : World) :
  stdout_ok env ->
  email_password (mgr w) = "" -> webhook_url (mgr w) = "" ->
  exists (w' : World) (log : list Event),
    _process_alert alert chans env w = Ok tt w'
    /\ mgr w' = with_queue (alerts_queue (mgr w) ++ [alert]) (mgr w)
    /\ tick w' = tick w
    /\ trace w' = (trace w ++ log)%list
    /\ Forall (fun ev => is_network ev = false) log.
Proof.
  intros Hout Hp Hu.
  destruct (dispatch_all_local alert chans env Hout
              (mkWorld (with_queue (alerts_queue (mgr w) ++ [alert]) (mgr w)) (tick w)
                       (trace w ++ [EvQueued alert])) Hp Hu)
    as (w' & log & Hrun & Hm & Ht & Htr & Hl).
  exists w', (EvQueued alert :: log). split; [|split; [|split; [|split]]].
  - unfold _process_alert, append_alert. run. exact Hrun.
  - exact Hm.
  - exact Ht.
  - rewrite Htr. simpl. by rewrite <- app_assoc.
  - by constructor.
Qed.

Lemma unconfigured_process_alert_is_local_witness :
  exists (w' : World) (log : list Event),
    _process_alert Sample.jane ["email"; "webhook"; "sms"; "pager"] Sample.quiet Sample.fresh
    = Ok tt w'
    /\ trace w' = log
    /\ Forall (fun ev => is_network ev = false) log.
Proof.
  destruct (unconfigured_process_alert_is_local Sample.jane
              ["email"; "webhook"; "sms"; "pager"] Sample.quiet Sample.fresh
              ltac:(intros n line; reflexivity) eq_refl eq_refl)
    as (w' & log & Hrun & _ & _ & Htr & Hl).
  exists w', log. split; [exact Hrun|]. split; [exact Htr|exact Hl].
Defined.

(** ** More on the source checkers *)

Lemma str_in_false (x : string) (l : list string) : ~ In x l -> str_in x l = false.
Proof.
  intros H. unfold str_in. destruct (existsb (String.eqb x) l) eqn:E; [|reflexivity].
  apply existsb_exists in E. destruct E as (y & Hy & Heq).
  apply String.eqb_eq in Heq. by subst.
Qed.

Lemma opinion_triggers_no_keyword (opinion : json) (triggers : list string)
    (env : Env) (w : World) :
  (forall k, In k keyword_triggers -> ~ In k triggers) ->
  opinion_triggers opinion triggers env w = Ok false w.
Proof.
  intros H. unfold opinion_triggers, keyword_triggers in *. simpl.
  rewrite !str_in_false by (apply H; simpl; tauto). reflexivity.
Qed.

Lemma scan_opinions_no_keyword (name : string) (triggers : list string) (env : Env)
    (opinions : list json) :
  (forall k, In k keyword_triggers -> ~ In k triggers) ->
  forall (alerts : list Alert) (w : World),
    scan_opinions name triggers opinions alerts env w = (alerts, Ok tt w).
Proof.
  intros H. induction opinions as [|o rest IH]; intros alerts w; simpl; [reflexivity|].
  rewrite opinion_triggers_no_keyword by exact H. apply IH.
Qed.

(** X11. The federal case search only ever reacts to the three words
    arrest, conviction and sentence, and only when the monitor's triggers
    contain them literally.  For a monitor none of whose triggers is one of
    these words the checker returns no alert, whatever CourtListener answers;
    in particular no opinion, however malformed, makes it fail.  (Standard
    output is taken to accept the line the handler prints when the request
    itself fails.) *)
Theorem courtlistener_needs_keyword (name : string) (triggers : list string)
    (env : Env) (w : World) :
  stdout_ok env ->
  (forall k, In k keyword_triggers -> ~ In k triggers) ->
  exists w', _check_courtlistener name triggers env w = Ok [] w'
             /\ forall opinions w1,
                  courtlistener_fetch name env w = Ok (Some opinions) w1 -> w' = w1.
Proof.
  intros Hout H. unfold _check_courtlistener.
  destruct (courtlistener_fetch name env w) as [[opinions|] w1|e w1].
  - rewrite scan_opinions_no_keyword by exact H. exists w1. split; [reflexivity|].
    by intros ? ? [= _ <-].
  - exists w1. split; [reflexivity|]. intros ? ? [=].
  - run. eexists. split; [reflexivity|]. intros ? ? [=].
Qed.

Lemma courtlistener_needs_keyword_witness :
  let env := mkEnv (fun _ => Sample.t0) (fun _ => 0) (fun _ => 0)
                   (fun _ => HttpResponse 200
                               (Some (JDict [("results",
                                              JList [JDict [("id", JInt 7);
                                                            ("plain_text", JStr "arrests")];
                                                     JInt 3])])))
                   (fun _ => None) (fun _ => []) (fun _ => "x") (fun _ => "0.0")
                   (fun _ => "{}") (fun _ _ => None) in
  exists w',
    _check_courtlistener "Jane Doe" ["court_cases"; "arrests"; "bankruptcies"] env
      (with_token "tok" Sample.fresh) = Ok [] w'
    /\ trace w' = [EvHttpGet "https://www.courtlistener.com/api/rest/v3/opinions/"
                             [("Authorization", "Token tok");
                              ("User-Agent", "TAVIT/1.0 (ceo@tavit.com)")]
                             [("q", "Jane Doe"); ("order_by", "-date_created");
                              ("date_created__gte", "2026-11-02")]].
Proof.
  intros env.
  destruct (courtlistener_needs_keyword "Jane Doe" ["court_cases"; "arrests"; "bankruptcies"]
              env (with_token "tok" Sample.fresh)) as (w' & Hrun & Hw).
  { intros n line. reflexivity. }
  { intros k Hk Hin. simpl in Hk, Hin.
    destruct Hk as [<-|[<-|[<-|[]]]]; destruct Hin as [E|[E|[E|[]]]]; discriminate. }
  exists w'. split; [exact Hrun|].
  erewrite (Hw _ _); [|vm_compute; reflexivity]. reflexivity.
Defined.

(** X12. Without a CourtListener token, unset or empty, the federal case
    search does nothing at all: it returns no alert, sends no request, reads
    no clock and prints nothing. *)
Theorem courtlistener_without_token (name : string) (triggers : list string)
    (env : Env) (w : World) :
  courtlistener_token (mgr w) = None \/ courtlistener_token (mgr w) = Some "" ->
  _check_courtlistener name triggers env w = Ok [] w.
Proof.
  intros H. unfold _check_courtlistener, courtlistener_fetch. run.
  destruct H as [-> | ->]; reflexivity.
Qed.

Lemma courtlistener_without_token_witness :
  _check_courtlistener "Jane Doe" ["arrest"] Sample.lucky Sample.fresh = Ok [] Sample.fresh.
Proof. apply courtlistener_without_token. left. reflexivity. Defined.

(** X13. With a token, the federal case search sends one GET to the
    opinions endpoint, authorised by the token, asking for the person's name,
    newest first, created since the day before the clock reading.  An answer
    with a status other than 200 gives no alert and is not reported: nothing
    is printed. *)
Theorem courtlistener_request (name : string) (triggers : list string) (env : Env)
    (w : World) (token : string) (since : datetime) (status : Z) (body : option json) :
  courtlistener_token (mgr w) = Some token -> token <> "" ->
  datetime_sub (env_now env (tick w)) US_PER_DAY = inr since ->
  env_http env (S (S (tick w))) = HttpResponse status body ->
  status <> 200 ->
  exists w',
    _check_courtlistener name triggers env w = Ok [] w'
    /\ trace w'
       = (trace w
          ++ [EvHttpGet "https://www.courtlistener.com/api/rest/v3/opinions/"
                        [("Authorization", "Token " +:+ token);
                         ("User-Agent", "TAVIT/1.0 (ceo@tavit.com)")]
                        [("q", name); ("order_by", "-date_created");
                         ("date_created__gte", strftime_date since)]])%list.
Proof.
  intros Htok Hne Hsub Hreply Hstatus.
  destruct w as [self n tr]. simpl in *.
  unfold _check_courtlistener, courtlistener_fetch, now. run. rewrite Htok.
  destruct token as [|c token]; [done|].
  change (timedelta_us US_PER_DAY) with (@inr Exn Z US_PER_DAY).
  unfold lift. run. rewrite Hsub. run. rewrite Hreply.
  apply Z.eqb_neq in Hstatus. rewrite Hstatus. eexists. split; reflexivity.
Qed.

Lemma courtlistener_request_witness :
  let env := mkEnv (fun _ => Sample.t0) (fun _ => 0) (fun _ => 0)
                   (fun _ => HttpResponse 429 None)
                   (fun _ => None) (fun _ => []) (fun _ => "x") (fun _ => "0.0")
                   (fun _ => "{}") (fun _ _ => None) in
  exists w',
    _check_courtlistener "Jane Doe" ["arrest"] env (with_token "tok" Sample.fresh) = Ok [] w'
    /\ trace w' = [EvHttpGet "https://www.courtlistener.com/api/rest/v3/opinions/"
                             [("Authorization", "Token tok");
                              ("User-Agent", "TAVIT/1.0 (ceo@tavit.com)")]
                             [("q", "Jane Doe"); ("order_by", "-date_created");
                              ("date_created__gte", "2026-11-02")]].
Proof.
  intros env.
  apply (courtlistener_request "Jane Doe" ["arrest"] env (with_token "tok" Sample.fresh)
           "tok" (mkDatetime 2026 11 2 12 0 0 0) 429 None).
  - reflexivity.
  - discriminate.
  - vm_compute. reflexivity.
  - reflexivity.
  - discriminate.
Defined.

Lemma courtlistener_alert_fields (name : string) (opinion : json) (env : Env)
    (w w' : World) (a : Alert) :
  courtlistener_alert name opinion env w = Ok a w' ->
  source a = "courtlistener" /\ severity a = CRITICAL
  /\ target_person a = name /\ target_id a = None.
Proof.
  unfold courtlistener_alert, now. intros H. run_in H; try discriminate.
  injection H as <- _. by repeat split.
Qed.

Lemma choice_in (k : Z) (seq : list string) :
  seq <> [] -> In (nth (Z.to_nat (k mod Z.of_nat (length seq))) seq "") seq.
Proof.
  intros Hne. apply nth_In.
  assert (0 < Z.of_nat (length seq)) by (destruct seq; [done|simpl; lia]).
  pose proof (Z.mod_pos_bound k (Z.of_nat (length seq))). lia.
Qed.

(** X14. Every alert a checker returns names the person it was asked
    about and the checker as its source.  The federal case search reports
    critical alerts without a target id; the custody-status lookup at most
    one urgent alert carrying the person's id; the federal docket search at
    most one alert, critical exactly when the case type it reports is
    Criminal and a warning otherwise; the state court search at most one
    warning, its source naming one of five states. *)
Theorem alert_provenance (name pid : string) (triggers : list string)
    (env : Env) (w : World) :
  Forall (fun a => source a = "courtlistener" /\ severity a = CRITICAL
                   /\ target_person a = name /\ target_id a = None)
         (result_alerts (_check_courtlistener name triggers env w))
  /\ (length (result_alerts (_check_vinelink name pid env w)) <= 1)%nat
  /\ Forall (fun a => source a = "vinelink" /\ severity a = URGENT
                      /\ target_person a = name /\ target_id a = Some pid)
            (result_alerts (_check_vinelink name pid env w))
  /\ (length (result_alerts (_check_pacer name triggers env w)) <= 1)%nat
  /\ Forall (fun a => source a = "pacer" /\ target_person a = name /\ target_id a = None
                      /\ exists case_type,
                           In case_type ["Criminal"; "Civil"; "Bankruptcy"; "Appeals"]
                           /\ assoc "case_type" (metadata a) = Some (JStr case_type)
                           /\ severity a = (if String.eqb case_type "Criminal"
                                            then CRITICAL else WARNING))
            (result_alerts (_check_pacer name triggers env w))
  /\ (length (result_alerts (_check_state_courts name triggers env w)) <= 1)%nat
  /\ Forall (fun a => severity a = WARNING /\ target_person a = name /\ target_id a = None
                      /\ exists state,
                           In state ["California"; "Texas"; "Florida"; "New York"; "Illinois"]
                           /\ source a = "state_court_" +:+ lower state)
            (result_alerts (_check_state_courts name triggers env w)).
Proof.
  split.
  { apply check_courtlistener_Forall. intros o w1 w2 a H.
    by apply courtlistener_alert_fields in H. }
  split; [|split].
  { unfold _check_vinelink, random_lt, now. run. destruct (_ <? _); simpl; lia. }
  { unfold _check_vinelink, random_lt, now. run.
    destruct (_ <? _); simpl; repeat constructor. }
  split; [|split].
  { unfold _check_pacer, random_lt, random_choice, random_randint, now. run.
    destruct (_ <? _); simpl; lia. }
  { unfold _check_pacer, random_lt, random_choice, random_randint, now. run.
    destruct (_ <? _); simpl; [|constructor].
    constructor; [|constructor]. simpl. do 3 (split; [reflexivity|]).
    eexists. split; [|split; reflexivity].
    apply (choice_in _ ["Criminal"; "Civil"; "Bankruptcy"; "Appeals"]). discriminate. }
  split.
  { unfold _check_state_courts, random_lt, random_choice, now. run.
    destruct (_ <? _); simpl; lia. }
  { unfold _check_state_courts, random_lt, random_choice, now. run.
    destruct (_ <? _); simpl; [|constructor].
    constructor; [|constructor]. simpl. do 3 (split; [reflexivity|]).
    eexists. split; [|reflexivity].
    apply (choice_in _ ["California"; "Texas"; "Florida"; "New York"; "Illinois"]).
    discriminate. }
Qed.

(** ** Which opinions raise an alert *)

Lemma py_any_pure (ts : list string) (f : string -> M bool) (g : string -> bool)
    (env : Env) (w : World) :
  (forall t, f t env w = Ok (g t) w) ->
  py_any (map f ts) env w = Ok (existsb g ts) w.
Proof.
  intros H. induction ts as [|t ts IH]; [reflexivity|].
  simpl. unfold mbind, M_bind, bind. rewrite H.
  destruct (g t); simpl; [reflexivity|exact IH].
Qed.

Lemma opinion_triggers_well_formed (opinion : json) (triggers : list string)
    (env : Env) (w : World) :
  well_formed_opinion opinion = true ->
  opinion_triggers opinion triggers env w = Ok (opinion_matches triggers opinion) w.
Proof.
  intros Hwf. unfold opinion_triggers, opinion_matches.
  apply py_any_pure. intros t.
  destruct opinion as [| | | | |?|kv]; try discriminate. simpl in Hwf |- *.
  unfold lift, dict_get. run.
  destruct (assoc "plain_text" kv) as [[| | | |text| |]|]; simpl in *;
    try reflexivity; rewrite ?andb_false_r in Hwf; simpl in Hwf; discriminate.
Qed.

Lemma courtlistener_alert_well_formed (name : string) (opinion : json)
    (env : Env) (w : World) :
  well_formed_opinion opinion = true ->
  exists a,
    courtlistener_alert name opinion env w
    = Ok a (mkWorld (mgr w) (S (S (tick w))) (trace w))
    /\ assoc "case_name" (metadata a) = Some (opinion_field opinion "case_name").
Proof.
  intros Hwf. destruct opinion as [| | | | |?|kv]; try discriminate.
  simpl in Hwf. apply andb_true_iff in Hwf. destruct Hwf as [Hwf Hcluster].
  apply andb_true_iff in Hwf. destruct Hwf as [Hid _].
  unfold courtlistener_alert, now, lift, subscript, dict_get. run.
  destruct (assoc "id" kv) as [oid|]; [|discriminate]. simpl.
  destruct (assoc "cluster" kv) as [[| | | | | |ckv]|]; try discriminate; simpl.
  - destruct (assoc "docket" ckv) as [[| | | | | |dkv]|]; try discriminate; simpl;
      eexists; split; reflexivity.
  - eexists; split; reflexivity.
Qed.

Lemma scan_opinions_well_formed (name : string) (triggers : list string) (env : Env)
    (opinions : list json) :
  Forall (fun o => well_formed_opinion o = true) opinions ->
  forall (alerts : list Alert) (w : World),
    exists (new : list Alert) (n : nat),
      scan_opinions name triggers opinions alerts env w
      = ((alerts ++ new)%list, Ok tt (mkWorld (mgr w) (n + tick w) (trace w)))
      /\ map (fun a => assoc "case_name" (metadata a)) new
         = map (fun o => Some (opinion_field o "case_name"))
               (List.filter (opinion_matches triggers) opinions).
Proof.
  induction 1 as [|o rest Ho Hrest IH]; intros alerts w.
  - exists [], 0%nat. rewrite app_nil_r. destruct w. by split.
  - simpl. rewrite opinion_triggers_well_formed by exact Ho.
    destruct (opinion_matches triggers o).
    + destruct (courtlistener_alert_well_formed name o env w Ho) as (a & Ha & Hcase).
      rewrite Ha.
      destruct (IH (alerts ++ [a])%list (mkWorld (mgr w) (S (S (tick w))) (trace w)))
        as (new & n & Hscan & Hmap).
      exists (a :: new), (n + 2)%nat. split.
      * rewrite Hscan. simpl. rewrite <- app_assoc. simpl.
        do 3 f_equal. lia.
      * simpl. by rewrite Hcase, Hmap.
    + destruct (IH alerts w) as (new & n & Hscan & Hmap). by exists new, n.
Qed.

(** X15. When CourtListener answers 200 with a list of opinions of the
    expected shape, the federal case search returns one alert per opinion
    whose text, in lower case, contains one of the words arrest, conviction
    and sentence that is also among the monitor's triggers, in the order of
    the answer and with the opinion's case name in its metadata; it
    returns no alert for the other opinions and prints nothing. *)
Theorem courtlistener_matches (name : string) (triggers : list string) (env : Env)
    (w : World) (token : string) (since : datetime) (data : list (string * json))
    (opinions : list json) :
  courtlistener_token (mgr w) = Some token -> token <> "" ->
  datetime_sub (env_now env (tick w)) US_PER_DAY = inr since ->
  env_http env (S (S (tick w))) = HttpResponse 200 (Some (JDict data)) ->
  assoc "results" data = Some (JList opinions) ->
  Forall (fun o => well_formed_opinion o = true) opinions ->
  exists (alerts : list Alert) (w' : World),
    _check_courtlistener name triggers env w = Ok alerts w'
    /\ map (fun a => assoc "case_name" (metadata a)) alerts
       = map (fun o => Some (opinion_field o "case_name"))
             (List.filter (opinion_matches triggers) opinions)
    /\ Forall (fun ev => forall line, ev <> EvPrint line)
              (drop (length (trace w)) (trace w')).
Proof.
  intros Htok Hne Hsub Hreply Hresults Hwf.
  destruct w as [self n tr]. simpl in *.
  set (w1 := mkWorld (foldl apply_foreign self (env_others env (S n))) (S (S (S n)))
                     (tr ++ [EvHttpGet (courtlistener_base_url +:+ "opinions/")
                               [("Authorization", "Token " +:+ token);
                                ("User-Agent", "TAVIT/1.0 (ceo@tavit.com)")]
                               [("q", name); ("order_by", "-date_created");
                                ("date_created__gte", strftime_date since)]])).
  assert (Hfetch : courtlistener_fetch name env (mkWorld self n tr) = Ok (Some opinions) w1).
  { unfold courtlistener_fetch, now. run. rewrite Htok.
    destruct token as [|c token]; [done|].
    change (timedelta_us US_PER_DAY) with (@inr Exn Z US_PER_DAY).
    unfold lift. run. rewrite Hsub. run. rewrite Hreply. simpl.
    unfold dict_get. rewrite Hresults. reflexivity. }
  destruct (scan_opinions_well_formed name triggers env opinions Hwf [] w1)
    as (alerts & k & Hscan & Hmap).
  exists alerts, (mkWorld (mgr w1) (k + tick w1) (trace w1)).
  unfold _check_courtlistener. rewrite Hfetch, Hscan. simpl.
  split; [reflexivity|]. split; [exact Hmap|].
  rewrite drop_app_length. repeat constructor. discriminate.
Qed.

Lemma courtlistener_matches_witness :
  let hit := JDict [("id", JInt 7); ("case_name", JStr "US v. Doe");
                    ("plain_text", JStr "The ARREST was lawful")] in
  let miss := JDict [("id", JInt 8); ("case_name", JStr "Doe v. Roe");
                     ("plain_text", JStr "A sentence was passed")] in
  let env := mkEnv (fun _ => Sample.t0) (fun _ => 0) (fun _ => 0)
                   (fun _ => HttpResponse 200 (Some (JDict [("results", JList [miss; hit])])))
                   (fun _ => None) (fun _ => []) (fun _ => "x") (fun _ => "0.0")
                   (fun _ => "{}") (fun _ _ => None) in
  exists alerts w',
    _check_courtlistener "Jane Doe" ["arrest"] env (with_token "tok" Sample.fresh)
    = Ok alerts w'
    /\ map (fun a => assoc "case_name" (metadata a)) alerts = [Some (JStr "US v. Doe")].
Proof.
  intros hit miss env.
  destruct (courtlistener_matches "Jane Doe" ["arrest"] env (with_token "tok" Sample.fresh)
              "tok" (mkDatetime 2026 11 2 12 0 0 0) [("results", JList [miss; hit])]
              [miss; hit])
    as (alerts & w' & Hrun & Hmap & _).
  - reflexivity.
  - discriminate.
  - vm_compute. reflexivity.
  - reflexivity.
  - reflexivity.
  - repeat constructor.
  - exists alerts, w'. split; [exact Hrun|]. rewrite Hmap. vm_compute. reflexivity.
Defined.

(** ** More on recent alerts *)

Lemma recent_filter (self : Manager) (now : datetime) (hours : Z) (recent : list Alert) :
  Forall (fun a => valid_datetime (created_at a)) (alerts_queue self) ->
  get_recent_alerts self now hours = inr recent ->
  recent = List.filter
             (fun a => to_micros now - to_micros (created_at a) <? hours * US_PER_HOUR)
             (alerts_queue self).
Proof.
  intros Hlog Hret. unfold get_recent_alerts in Hret.
  destruct (timedelta_us (hours * US_PER_HOUR)) as [e|td] eqn:Htd; [discriminate|].
  assert (td = hours * US_PER_HOUR) as ->.
  { unfold timedelta_us in Htd. destruct (_ <? _); congruence. }
  destruct (datetime_sub now (hours * US_PER_HOUR)) as [e|cutoff] eqn:Hsub; [discriminate|].
  apply datetime_sub_inr in Hsub. destruct Hsub as [Hvalid Hcut].
  injection Hret as <-.
  induction Hlog as [|a q Ha Hq IH]; [reflexivity|]. simpl. rewrite IH. clear IH.
  replace (datetime_lt cutoff (created_at a))
    with (to_micros now - to_micros (created_at a) <? hours * US_PER_HOUR); [reflexivity|].
  pose proof (datetime_lt_iff cutoff (created_at a) Hvalid Ha) as Hiff.
  destruct (Z.ltb_spec (to_micros now - to_micros (created_at a)) (hours * US_PER_HOUR)).
  - symmetry. apply Hiff. lia.
  - destruct (datetime_lt cutoff (created_at a)); [|reflexivity].
    assert (to_micros cutoff < to_micros (created_at a)) by (by apply Hiff). lia.
Qed.

(** X16. [get_recent_alerts] does not clamp its window to the calendar.
    When the start of the window, [hours] hours before a valid call time,
    falls before the first day of year 1 or after the last day of year 9999,
    the call raises an overflow error instead of returning the whole log or
    nothing. *)
Theorem get_recent_alerts_overflow (self : Manager) (now : datetime) (hours : Z) :
  valid_datetime now ->
  ~ (1 <= (to_micros now - hours * US_PER_HOUR) / US_PER_DAY <= MAXORDINAL) ->
  exists what, get_recent_alerts self now hours = inl (OverflowError what).
Proof.
  intros Hnow Hout. unfold get_recent_alerts, timedelta_us.
  destruct (999999999 <? Z.abs (hours * US_PER_HOUR / US_PER_DAY)); [by eexists|].
  unfold datetime_sub.
  destruct (999999999 <? Z.abs ((to_micros now - hours * US_PER_HOUR) / US_PER_DAY));
    [by eexists|].
  destruct (Z.ltb_spec 0 ((to_micros now - hours * US_PER_HOUR) / US_PER_DAY));
    destruct (Z.leb_spec ((to_micros now - hours * US_PER_HOUR) / US_PER_DAY) MAXORDINAL);
    simpl; try (by eexists).
  exfalso. apply Hout. lia.
Qed.

Lemma get_recent_alerts_overflow_witness :
  exists what,
    get_recent_alerts (mgr Sample.fresh) Sample.t0 18000000 = inl (OverflowError what).
Proof.
  apply get_recent_alerts_overflow.
  - repeat split; vm_compute; congruence.
  - vm_compute. intros [H _]. by apply H.
Defined.

Lemma filter_filter_implies {A} (p q : A -> bool) (l : list A) :
  (forall x, p x = true -> q x = true) ->
  List.filter p (List.filter q l) = List.filter p l.
Proof.
  intros H. induction l as [|x l IH]; [reflexivity|]. simpl.
  destruct (q x) eqn:Hq; simpl.
  - by rewrite IH.
  - destruct (p x) eqn:Hp; [|exact IH]. apply H in Hp. congruence.
Qed.

(** X17. A longer window returns everything a shorter one does.  For a
    log of alerts with valid creation times and two windows
    [hours1 <= hours2] at one call time, the answer for [hours1] is the
    answer for [hours2] restricted to the alerts younger than [hours1]
    hours, in the same order.  With no hours at all, or a negative number of
    them, and a log whose alerts were all created at or before the call
    time, the answer is empty. *)
Theorem get_recent_alerts_monotone (self : Manager) (now : datetime) (hours1 hours2 : Z)
    (recent1 recent2 : list Alert) :
  Forall (fun a => valid_datetime (created_at a)) (alerts_queue self) ->
  hours1 <= hours2 ->
  get_recent_alerts self now hours1 = inr recent1 ->
  get_recent_alerts self now hours2 = inr recent2 ->
  recent1 = List.filter
              (fun a => to_micros now - to_micros (created_at a) <? hours1 * US_PER_HOUR)
              recent2
  /\ (forall a, In a recent1 -> In a recent2)
  /\ (hours1 <= 0 ->
      Forall (fun a => to_micros (created_at a) <= to_micros now) (alerts_queue self) ->
      recent1 = []).
Proof.
  intros Hlog Hle H1 H2.
  apply recent_filter in H1; [|exact Hlog]. apply recent_filter in H2; [|exact Hlog].
  assert (Hsub : recent1 = List.filter
                   (fun a => to_micros now - to_micros (created_at a) <? hours1 * US_PER_HOUR)
                   recent2).
  { rewrite H1, H2. symmetry. apply filter_filter_implies.
    intros a Ha. apply Z.ltb_lt in Ha. apply Z.ltb_lt.
    unfold US_PER_HOUR, US_PER_SECOND in *. lia. }
  split; [exact Hsub|]. split.
  - intros a Ha. rewrite Hsub in Ha. apply filter_In in Ha. tauto.
  - intros Hneg Hpast. rewrite H1. clear -Hneg Hpast.
    induction Hpast as [|a q Ha Hq IH]; [reflexivity|]. simpl. rewrite IH.
    destruct (Z.ltb_spec (to_micros now - to_micros (created_at a)) (hours1 * US_PER_HOUR));
      [|reflexivity].
    unfold US_PER_HOUR, US_PER_SECOND in *. lia.
Qed.

Lemma get_recent_alerts_monotone_witness :
  let old := mkAlert "a1" "t" "m" INFO "pacer" "Jane Doe" None
                     (mkDatetime 2026 11 3 10 30 0 0) [EMAIL] [] in
  let new := mkAlert "a2" "t" "m" INFO "pacer" "Jane Doe" None
                     (mkDatetime 2026 11 3 11 30 0 0) [EMAIL] [] in
  let self := with_queue [old; new] (mgr Sample.fresh) in
  get_recent_alerts self Sample.t0 1 = inr [new]
  /\ get_recent_alerts self Sample.t0 2 = inr [old; new]
  /\ forall a, In a [new] -> In a [old; new].
Proof.
  intros old new self.
  assert (H1 : get_recent_alerts self Sample.t0 1 = inr [new]) by (vm_compute; reflexivity).
  assert (H2 : get_recent_alerts self Sample.t0 2 = inr [old; new])
    by (vm_compute; reflexivity).
  split; [exact H1|]. split; [exact H2|].
  assert (Hlog : Forall (fun a => valid_datetime (created_at a)) (alerts_queue self)).
  { repeat constructor; vm_compute; congruence. }
  apply (get_recent_alerts_monotone self Sample.t0 1 2 [new] [old; new] Hlog
           ltac:(lia) H1 H2).
Defined.

(** ** A whole check cycle *)

Ltac run_all :=
  run;
  repeat match goal with
         | |- context [match ?x with inl _ => _ | inr _ => _ end] => destruct x; simpl
         end.

Lemma check_vinelink_run (name pid : string) (env : Env) (w : World) :
  exists alerts w',
    _check_vinelink name pid env w = Ok alerts w'
    /\ mgr w' = mgr w /\ trace w' = trace w
    /\ Forall (fun a => source a = "vinelink") alerts.
Proof.
  unfold _check_vinelink, random_lt, now. run.
  destruct (_ <? _); eexists _, _; (split; [reflexivity|]); simpl;
    repeat split; repeat constructor.
Qed.

Lemma check_pacer_run (name : string) (triggers : list string) (env : Env) (w : World) :
  exists alerts w',
    _check_pacer name triggers env w = Ok alerts w'
    /\ mgr w' = mgr w /\ trace w' = trace w
    /\ Forall (fun a => source a = "pacer") alerts.
Proof.
  unfold _check_pacer, random_lt, random_choice, random_randint, now. run.
  destruct (_ <? _); eexists _, _; (split; [reflexivity|]); simpl;
    repeat split; repeat constructor.
Qed.

Lemma prefix_append (a b : string) : String.prefix a (a +:+ b) = true.
Proof.
  induction a as [|c a IH]; [change ("" +:+ b) with b; by destruct b|].
  change (String c a +:+ b) with (String c (a +:+ b)). simpl.
  destruct (ascii_dec c c); [exact IH|done].
Qed.

Lemma check_state_courts_run (name : string) (triggers : list string)
    (env : Env) (w : World) :
  exists alerts w',
    _check_state_courts name triggers env w = Ok alerts w'
    /\ mgr w' = mgr w /\ trace w' = trace w
    /\ Forall (fun a => String.prefix "state_court_" (source a) = true) alerts.
Proof.
  unfold _check_state_courts, random_lt, random_choice, now. run.
  destruct (_ <? _); eexists _, _; (split; [reflexivity|]); simpl;
    repeat split; repeat constructor.
  apply prefix_append.
Qed.

Lemma courtlistener_fetch_marks (name : string) (env : Env) (w : World) :
  marks (trace (world_of (courtlistener_fetch name env w))) = marks (trace w).
Proof.
  destruct w as [self n tr].
  assert (Hget : forall ev, is_mark ev = false -> marks (tr ++ [ev]) = marks tr).
  { intros ev Hev. rewrite marks_app. simpl. rewrite Hev. apply app_nil_r. }
  unfold courtlistener_fetch, now. run.
  destruct (courtlistener_token self) as [[|c token]|]; try reflexivity.
  change (timedelta_us US_PER_DAY) with (@inr Exn Z US_PER_DAY).
  unfold lift. run.
  destruct (datetime_sub (env_now env n) US_PER_DAY) as [e|since]; run; [reflexivity|].
  destruct (env_http env (S (S n))) as [e|status body]; simpl; [by apply Hget|].
  destruct (status =? 200); simpl; [|by apply Hget].
  destruct body as [data|]; simpl; [|by apply Hget].
  destruct (dict_get data "results" (JList [])) as [e|results]; simpl; [by apply Hget|].
  destruct (py_iter results) as [e|opinions]; simpl; by apply Hget.
Qed.

Lemma py_any_trace (gen : list (M bool)) (env : Env) :
  Forall (fun c => forall w, trace (world_of (c env w)) = trace w) gen ->
  forall w, trace (world_of (py_any gen env w)) = trace w.
Proof.
  induction 1 as [|c rest Hc Hrest IH]; intros w; [reflexivity|].
  simpl. unfold mbind, M_bind, bind. specialize (Hc w).
  destruct (c env w) as [[|] w1|e w1]; simpl in *; [exact Hc| |exact Hc].
  rewrite IH. exact Hc.
Qed.

Lemma opinion_triggers_trace (opinion : json) (triggers : list string)
    (env : Env) (w : World) :
  trace (world_of (opinion_triggers opinion triggers env w)) = trace w.
Proof.
  unfold opinion_triggers. apply py_any_trace.
  apply List.Forall_forall. intros c Hc. apply in_map_iff in Hc.
  destruct Hc as (t & <- & _). intros w0.
  unfold lift, dict_get, py_lower. run.
  destruct opinion; simpl; try reflexivity.
  destruct (default (JStr "") (assoc "plain_text" kv)); reflexivity.
Qed.

Lemma courtlistener_alert_trace (name : string) (opinion : json) (env : Env) (w : World) :
  trace (world_of (courtlistener_alert name opinion env w)) = trace w.
Proof.
  destruct w as [self n tr].
  unfold courtlistener_alert, now, lift, subscript, dict_get. run_all; reflexivity.
Qed.

Lemma scan_opinions_trace (name : string) (triggers : list string) (env : Env)
    (opinions : list json) :
  forall (alerts : list Alert) (w : World),
    trace (world_of (snd (scan_opinions name triggers opinions alerts env w))) = trace w.
Proof.
  induction opinions as [|o rest IH]; intros alerts w; simpl; [reflexivity|].
  pose proof (opinion_triggers_trace o triggers env w) as Ht.
  destruct (opinion_triggers o triggers env w) as [[|] w1|e w1]; simpl in *.
  - pose proof (courtlistener_alert_trace name o env w1) as Ha.
    destruct (courtlistener_alert name o env w1) as [a w2|e w2]; simpl in *.
    + rewrite IH. congruence.
    + congruence.
  - rewrite IH. exact Ht.
  - exact Ht.
Qed.

Lemma check_courtlistener_run (name : string) (triggers : list string)
    (env : Env) (w : World) :
  stdout_ok env ->
  exists alerts w',
    _check_courtlistener name triggers env w = Ok alerts w'
    /\ monitors_frozen (mgr w) (mgr w')
    /\ marks (trace w') = marks (trace w)
    /\ Forall (fun a => source a = "courtlistener") alerts.
Proof.
  intros Hout.
  destruct (check_courtlistener_returns name triggers env w Hout) as (alerts & w' & Hrun).
  exists alerts, w'. split; [exact Hrun|]. split; [|split].
  - pose proof (preserves_check_courtlistener monitors_frozen monitors_frozen_refl
                  monitors_frozen_trans env (monitors_frozen_others env)
                  name triggers w) as H.
    by rewrite Hrun in H.
  - unfold _check_courtlistener in Hrun.
    pose proof (courtlistener_fetch_marks name env w) as Hf.
    destruct (courtlistener_fetch name env w) as [[opinions|] w1|e w1]; simpl in *.
    + pose proof (scan_opinions_trace name triggers env opinions [] w1) as Hs.
      destruct (scan_opinions name triggers opinions [] env w1) as [al [[] w2|e w2]];
        simpl in *.
      * injection Hrun as _ <-. congruence.
      * run_in Hrun. injection Hrun as _ <-. simpl.
        rewrite marks_app, Hs. simpl. by rewrite app_nil_r.
    + injection Hrun as _ <-. exact Hf.
    + run_in Hrun. injection Hrun as _ <-. simpl.
      rewrite marks_app. simpl. by rewrite app_nil_r.
  - pose proof (check_courtlistener_Forall (fun a => source a = "courtlistener")
                  name triggers env w) as H.
    rewrite Hrun in H. apply H. intros o w1 w2 a Ha.
    apply courtlistener_alert_fields in Ha. tauto.
Qed.

Lemma bind_ok {A B} (m : M A) (k : A -> M B) (env : Env) (w w1 : World) (a : A) :
  m env w = Ok a w1 -> (m ≫= k) env w = k a env w1.
Proof. intros H. unfold mbind, M_bind, bind. by rewrite H. Qed.

Lemma process_alert_run (a : Alert) (chans : list string) (env : Env) (w : World) :
  stdout_ok env ->
  exists w',
    _process_alert a chans env w = Ok tt w'
    /\ marks (trace w') = (marks (trace w) ++ alert_marks chans a)%list
    /\ monitors_frozen (mgr w) (mgr w').
Proof.
  intros Hout.
  destruct (dispatch_all_does a chans env
              (mkWorld (with_queue (alerts_queue (mgr w) ++ [a]) (mgr w)) (tick w)
                       (trace w ++ [EvQueued a])) Hout) as (w' & Hrun & Hmarks & _).
  assert (Hp : _process_alert a chans env w = Ok tt w').
  { unfold _process_alert, append_alert. run. exact Hrun. }
  exists w'. split; [exact Hp|]. split.
  - rewrite Hmarks. simpl. rewrite marks_app. simpl. by rewrite <- app_assoc.
  - pose proof (preserves_process_alert monitors_frozen monitors_frozen_refl
                  monitors_frozen_trans env (fun s x => monitors_frozen_queue s _)
                  (monitors_frozen_others env) a chans w) as H.
    by rewrite Hp in H.
Qed.

Lemma process_all_run (l : nat) (env : Env) (alerts : list Alert) :
  stdout_ok env ->
  forall w : World,
    (l < length (objects (mgr w)))%nat ->
    exists w',
      for_each alerts
        (fun alert => monitor ← monitor_at l; _process_alert alert (mon_channels monitor))
        env w = Ok tt w'
      /\ marks (trace w')
         = (marks (trace w)
            ++ flat_map (alert_marks (mon_channels (objects (mgr w) !!! l))) alerts)%list
      /\ monitors_frozen (mgr w) (mgr w').
Proof.
  intros Hout. induction alerts as [|a alerts IH]; intros w Hl.
  - exists w. split; [reflexivity|]. simpl. rewrite app_nil_r.
    split; [reflexivity|apply monitors_frozen_refl].
  - destruct (process_alert_run a (mon_channels (objects (mgr w) !!! l)) env w Hout)
      as (w1 & Hrun1 & Hmarks1 & Hfrozen1).
    pose proof Hfrozen1 as (Hlen & Hid & _).
    destruct (IH w1 ltac:(lia)) as (w2 & Hrun2 & Hmarks2 & Hfrozen2).
    exists w2. split; [|split].
    + cbn [for_each]. rewrite (bind_ok _ _ env w w1 tt); [exact Hrun2|exact Hrun1].
    + rewrite Hmarks2, Hmarks1. simpl.
      destruct (Hid l Hl) as (_ & _ & _ & _ & -> & _). by rewrite <- app_assoc.
    + by eapply monitors_frozen_trans.
Qed.

Lemma check_cycle_run (cs : Checkers) (l : nat) (env : Env)
    (w w1 w2 w3 w4 w5 : World) (a1 a2 a3 a4 : list Alert) :
  check_courtlistener cs (person_name (objects (mgr w) !!! l))
    (alert_triggers (objects (mgr w) !!! l)) env w = Ok a1 w1 ->
  check_vinelink cs (person_name (objects (mgr w1) !!! l))
    (person_id (objects (mgr w1) !!! l)) env w1 = Ok a2 w2 ->
  check_pacer cs (person_name (objects (mgr w2) !!! l))
    (alert_triggers (objects (mgr w2) !!! l)) env w2 = Ok a3 w3 ->
  check_state_courts cs (person_name (objects (mgr w3) !!! l))
    (alert_triggers (objects (mgr w3) !!! l)) env w3 = Ok a4 w4 ->
  for_each (a1 ++ a2 ++ a3 ++ a4)%list
    (fun alert => monitor ← monitor_at l; _process_alert alert (mon_channels monitor))
    env w4 = Ok tt w5 ->
  check_cycle cs l env w = finish_cycle l env w5.
Proof.
  intros H1 H2 H3 H4 H5. unfold check_cycle.
  rewrite (bind_ok (monitor_at l) _ env w w (objects (mgr w) !!! l)) by reflexivity.
  rewrite (bind_ok _ _ env w w1 a1) by exact H1.
  rewrite (bind_ok (monitor_at l) _ env w1 w1 (objects (mgr w1) !!! l)) by reflexivity.
  rewrite (bind_ok _ _ env w1 w2 a2) by exact H2.
  rewrite (bind_ok (monitor_at l) _ env w2 w2 (objects (mgr w2) !!! l)) by reflexivity.
  rewrite (bind_ok _ _ env w2 w3 a3) by exact H3.
  rewrite (bind_ok (monitor_at l) _ env w3 w3 (objects (mgr w3) !!! l)) by reflexivity.
  rewrite (bind_ok _ _ env w3 w4 a4) by exact H4.
  cbv zeta. rewrite (bind_ok _ _ env w4 w5 tt) by exact H5.
  reflexivity.
Qed.

Lemma checked_at_alter (f : Monitor -> Monitor) (l l' : nat) (s : Manager) :
  (forall m, is_Some (last_check m) -> is_Some (last_check (f m))) ->
  checked_at l s -> checked_at l (with_objects (alter f l' (objects s)) s).
Proof.
  intros Hf [Hl Hc]. split; [simpl; by rewrite length_alter|].
  simpl. rewrite list_lookup_total_alter.
  case_decide as H; [|exact Hc]. destruct H as [-> _]. by apply Hf.
Qed.

Lemma checked_at_foreign (l : nat) (s : Manager) (f : Foreign) :
  checked_at l s -> checked_at l (apply_foreign s f).
Proof.
  destruct f; simpl.
  - unfold stop_monitoring. destruct (active_monitors s !! monitor_id); simpl; [|done].
    apply checked_at_alter. by intros m.
  - intros [Hl Hc]. split; [simpl; rewrite length_app; lia|].
    simpl. by rewrite lookup_total_app_l.
  - done.
  - apply checked_at_alter. intros m _. by eexists.
Qed.

Lemma checked_at_others (l : nat) (env : Env) (t : nat) (s : Manager) :
  checked_at l s -> checked_at l (foldl apply_foreign s (env_others env t)).
Proof.
  revert s. induction (env_others env t) as [|f fs IH]; intros s H; [exact H|].
  simpl. apply IH. by apply checked_at_foreign.
Qed.

Lemma finish_cycle_run (l : nat) (env : Env) (w : World) :
  (l < length (objects (mgr w)))%nat ->
  exists w',
    finish_cycle l env w = Ok tt w'
    /\ trace w' = (trace w ++ [EvSleep (check_interval (objects (mgr w) !!! l))])%list
    /\ checked_at l (mgr w')
    /\ monitors_frozen (mgr w) (mgr w').
Proof.
  intros Hl. destruct w as [self n tr]. simpl in Hl.
  unfold finish_cycle, now, monitor_at, sleep. run.
  eexists. split; [reflexivity|]. simpl. split; [|split].
  - rewrite list_lookup_total_alter. case_decide as H; [|lia]. reflexivity.
  - apply checked_at_others. split; [simpl; by rewrite length_alter|].
    simpl. rewrite list_lookup_total_alter. case_decide as H; [|lia]. by eexists.
  - eapply monitors_frozen_trans; [|apply monitors_frozen_others].
    apply monitors_frozen_alter. intros m. by repeat split.
Qed.

Lemma real_cycle_run (l : nat) (env : Env) (w : World) :
  stdout_ok env ->
  (l < length (objects (mgr w)))%nat ->
  let m := objects (mgr w) !!! l in
  exists (a1 a2 a3 a4 : list Alert) (w1 w2 w3 w4 w' : World),
    _check_courtlistener (person_name m) (alert_triggers m) env w = Ok a1 w1
    /\ _check_vinelink (person_name m) (person_id m) env w1 = Ok a2 w2
    /\ _check_pacer (person_name m) (alert_triggers m) env w2 = Ok a3 w3
    /\ _check_state_courts (person_name m) (alert_triggers m) env w3 = Ok a4 w4
    /\ check_cycle NotificationManager_checkers l env w = Ok tt w'
    /\ Forall (fun a => source a = "courtlistener") a1
    /\ Forall (fun a => source a = "vinelink") a2
    /\ Forall (fun a => source a = "pacer") a3
    /\ Forall (fun a => String.prefix "state_court_" (source a) = true) a4
    /\ marks (trace w')
       = (marks (trace w)
          ++ flat_map (alert_marks (mon_channels m)) (a1 ++ a2 ++ a3 ++ a4))%list
    /\ last (trace w') = Some (EvSleep (check_interval m))
    /\ checked_at l (mgr w')
    /\ monitors_frozen (mgr w) (mgr w').
Proof.
  intros Hout Hl m.
  destruct (check_courtlistener_run (person_name m) (alert_triggers m) env w Hout)
    as (a1 & w1 & H1 & F1 & M1 & S1).
  pose proof F1 as (Hlen1 & Hid1 & _).
  destruct (Hid1 l Hl) as (_ & Hn & Hp & Ht & _). fold m in Hn, Hp, Ht.
  destruct (check_vinelink_run (person_name m) (person_id m) env w1)
    as (a2 & w2 & H2 & G2 & T2 & S2).
  destruct (check_pacer_run (person_name m) (alert_triggers m) env w2)
    as (a3 & w3 & H3 & G3 & T3 & S3).
  destruct (check_state_courts_run (person_name m) (alert_triggers m) env w3)
    as (a4 & w4 & H4 & G4 & T4 & S4).
  assert (G : mgr w4 = mgr w1) by congruence.
  assert (T : trace w4 = trace w1) by congruence.
  assert (Hl4 : (l < length (objects (mgr w4)))%nat) by (rewrite G; lia).
  destruct (process_all_run l env (a1 ++ a2 ++ a3 ++ a4) Hout w4 Hl4)
    as (w5 & H5 & M5 & F5).
  pose proof F5 as (Hlen5 & Hid5 & _).
  destruct (finish_cycle_run l env w5 ltac:(lia)) as (w' & H6 & T6 & C6 & F6).
  assert (Hm4 : same_identity m (objects (mgr w4) !!! l)) by (rewrite G; by apply Hid1).
  assert (Hm5 : same_identity m (objects (mgr w5) !!! l)).
  { eapply same_identity_trans; [exact Hm4|by apply Hid5]. }
  exists a1, a2, a3, a4, w1, w2, w3, w4, w'.
  split; [exact H1|]. split; [exact H2|]. split; [exact H3|]. split; [exact H4|].
  split.
  { rewrite (check_cycle_run NotificationManager_checkers l env w w1 w2 w3 w4 w5
               a1 a2 a3 a4); [exact H6|exact H1| | |  |exact H5];
      cbn [check_vinelink check_pacer check_state_courts NotificationManager_checkers].
    - rewrite Hn, Hp. exact H2.
    - rewrite G2, Hn, Ht. exact H3.
    - rewrite G3, G2, Hn, Ht. exact H4. }
  do 4 (split; [assumption|]). split; [|split; [|split]].
  - rewrite T6, marks_app. simpl. rewrite app_nil_r, M5, T, M1.
    by destruct Hm4 as (_ & _ & _ & _ & -> & _).
  - rewrite T6. destruct Hm5 as (_ & _ & _ & _ & _ & -> & _). apply last_snoc.
  - exact C6.
  - eapply monitors_frozen_trans; [exact F1|]. rewrite <- G.
    eapply monitors_frozen_trans; [exact F5|exact F6].
Qed.

Lemma flat_map_marks_sources (chans : list string) (alerts : list Alert) (P : Alert -> Prop) :
  Forall P alerts ->
  Forall (fun ev => forall a, ev = EvQueued a -> P a) (flat_map (alert_marks chans) alerts).
Proof.
  induction 1 as [|a rest Ha Hrest IH]; [constructor|].
  simpl. constructor; [by intros ? [= <-]|].
  apply Forall_app. split; [|exact IH].
  apply List.Forall_forall. intros ev Hev a' ->.
  apply in_map_iff in Hev. by destruct Hev as (c & Hc & _).
Qed.

(** X18. One check cycle of the shipped loop, for a monitor that exists
    and on a standard output that takes what the dispatchers print,
    completes, and what it logs and dispatches are exactly the alerts the
    four checkers return for the monitor's person, id and triggers, asked
    one after the other: the federal case search first, then the
    custody-status lookup, the federal docket search and the state court
    search, each in the state the one before has left.  The alerts are
    processed in that order, each appended to the alert log and then
    dispatched on the monitor's channels before the next one is touched. *)
Theorem cycle_pipeline (monitor_id : string) (l : nat) (env : Env) (w : World) :
  stdout_ok env ->
  (l < length (objects (mgr w)))%nat ->
  let monitor := objects (mgr w) !!! l in
  let r1 := _check_courtlistener (person_name monitor) (alert_triggers monitor) env w in
  let r2 := _check_vinelink (person_name monitor) (person_id monitor) env (world_of r1) in
  let r3 := _check_pacer (person_name monitor) (alert_triggers monitor) env (world_of r2) in
  let r4 := _check_state_courts (person_name monitor) (alert_triggers monitor) env
              (world_of r3) in
  exists w' : World,
    iteration NotificationManager_checkers monitor_id l env w = Ok tt w'
    /\ marks (trace w')
       = (marks (trace w)
          ++ flat_map (alert_marks (mon_channels monitor))
                      (result_alerts r1 ++ result_alerts r2 ++ result_alerts r3
                         ++ result_alerts r4))%list.
Proof.
  intros Hout Hl monitor r1 r2 r3 r4.
  destruct (real_cycle_run l env w Hout Hl)
    as (a1 & a2 & a3 & a4 & w1 & w2 & w3 & w4 & w' & H1 & H2 & H3 & H4 & Hrun
        & _ & _ & _ & _ & Hmarks & _).
  fold monitor in H1, H2, H3, H4, Hmarks.
  assert (E1 : r1 = Ok a1 w1) by exact H1.
  assert (E2 : r2 = Ok a2 w2) by (unfold r2; rewrite E1; exact H2).
  assert (E3 : r3 = Ok a3 w3) by (unfold r3; rewrite E2; exact H3).
  assert (E4 : r4 = Ok a4 w4) by (unfold r4; rewrite E3; exact H4).
  exists w'. split.
  { unfold iteration, try_except. by rewrite Hrun. }
  rewrite E1, E2, E3, E4. exact Hmarks.
Qed.

Lemma cycle_pipeline_witness :
  let w := world_of (register_monitor "Jane Doe" "42" ["arrest"] ["sms"; "pager"; "slack"]
                                      Sample.lucky Sample.fresh) in
  let logged := alerts_queue
                  (mgr (world_of (iteration NotificationManager_checkers
                                    "monitor_Jane_Doe_20261103_120000" 0 Sample.lucky w))) in
  exists (a2 a3 a4 : Alert) (w' : World),
    iteration NotificationManager_checkers "monitor_Jane_Doe_20261103_120000" 0
      Sample.lucky w = Ok tt w'
    /\ logged = [a2; a3; a4]
    /\ map source [a2; a3; a4] = ["vinelink"; "pacer"; "state_court_california"]
    /\ marks (trace w')
       = [EvQueued a2; EvDispatch SMS a2; EvDispatch SLACK a2;
          EvQueued a3; EvDispatch SMS a3; EvDispatch SLACK a3;
          EvQueued a4; EvDispatch SMS a4; EvDispatch SLACK a4].
Proof.
  intros w logged.
  destruct (cycle_pipeline "monitor_Jane_Doe_20261103_120000" 0 Sample.lucky w)
    as (w' & Hrun & Hmarks).
  { intros n line. reflexivity. }
  { vm_compute. lia. }
  exists (nth 0 logged Sample.jane), (nth 1 logged Sample.jane),
         (nth 2 logged Sample.jane), w'.
  split; [exact Hrun|]. split; [vm_compute; reflexivity|].
  split; [vm_compute; reflexivity|].
  rewrite Hmarks. vm_compute. reflexivity.
Defined.

(** X19. With the four shipped checkers and a standard output that takes
    every line, the [try] block of the loop never raises, so the [except]
    block never runs: an iteration for a monitor that exists always
    completes its cycle.  (A refused line is how the block does raise: the
    witness of C10 is such a run.)
    It logs no alert of source "system", it records a last check time for the
    monitor, and the last thing it does is sleep for the monitor's check
    interval; the monitor's identity and the manager's configuration come
    out unchanged. *)
Theorem cycle_never_faults (monitor_id : string) (l : nat) (env : Env) (w : World) :
  stdout_ok env ->
  (l < length (objects (mgr w)))%nat ->
  exists w',
    check_cycle NotificationManager_checkers l env w = Ok tt w'
    /\ iteration NotificationManager_checkers monitor_id l env w = Ok tt w'
    /\ Forall (fun ev => forall a, ev = EvQueued a -> source a <> "system")
              (drop (length (marks (trace w))) (marks (trace w')))
    /\ is_Some (last_check (objects (mgr w') !!! l))
    /\ last (trace w') = Some (EvSleep (check_interval (objects (mgr w) !!! l)))
    /\ monitors_frozen (mgr w) (mgr w').
Proof.
  intros Hout Hl.
  destruct (real_cycle_run l env w Hout Hl)
    as (a1 & a2 & a3 & a4 & w1 & w2 & w3 & w4 & w' & _ & _ & _ & _ & Hrun
        & S1 & S2 & S3 & S4 & Hmarks & Hlast & [_ Hc] & Hf).
  exists w'. split; [exact Hrun|]. split.
  { unfold iteration, try_except. by rewrite Hrun. }
  split; [|split; [exact Hc|split; [exact Hlast|exact Hf]]].
  rewrite Hmarks, drop_app_length. apply flat_map_marks_sources.
  repeat (apply Forall_app; split).
  - eapply Forall_impl; [exact S1|]. by intros a ->.
  - eapply Forall_impl; [exact S2|]. by intros a ->.
  - eapply Forall_impl; [exact S3|]. by intros a ->.
  - eapply Forall_impl; [exact S4|]. intros a Hp Hs. cbv beta in Hp. rewrite Hs in Hp.
    discriminate.
Qed.

Lemma cycle_never_faults_witness :
  let w := world_of (register_monitor "Jane Doe" "42" ["arrest"] ["sms"]
                                      Sample.quiet Sample.fresh) in
  exists w',
    iteration NotificationManager_checkers "monitor_Jane_Doe_20261103_120000" 0
      Sample.quiet w = Ok tt w'
    /\ last_check (objects (mgr w') !!! 0%nat) = Some Sample.t0
    /\ last (trace w') = Some (EvSleep 3600).
Proof.
  intros w.
  destruct (cycle_never_faults "monitor_Jane_Doe_20261103_120000" 0 Sample.quiet w)
    as (w' & _ & Hrun & _ & _ & Hlast & _).
  { intros n line. reflexivity. }
  { vm_compute. lia. }
  set (r := iteration NotificationManager_checkers "monitor_Jane_Doe_20261103_120000" 0
              Sample.quiet w) in *.
  assert (Hw : world_of r = w') by (rewrite Hrun; reflexivity).
  exists w'. split; [exact Hrun|]. split; [|exact Hlast].
  rewrite <- Hw. vm_compute. reflexivity.
Defined.

(** ** A fault inside the handler *)

Lemma dispatch_all_grows (alert : Alert) (chans : list string) (env : Env) :
  forall w : World, grows w (world_of (for_each chans (dispatch_channel alert) env w)).
Proof.
  induction chans as [|c chans IH]; intros w; [apply grows_refl|].
  change (for_each (c :: chans) (dispatch_channel alert))
    with (dispatch_channel alert c;; for_each chans (dispatch_channel alert)).
  unfold mbind, M_bind, bind.
  destruct (dispatch_channel_marks alert c env w) as [_ Hg].
  destruct (dispatch_channel alert c env w) as [[] w1|e w1]; simpl in *; [|exact Hg].
  eapply grows_trans; [exact Hg|apply IH].
Qed.

Lemma process_alert_logs (alert : Alert) (chans : list string) (env : Env) (w : World) :
  exists later,
    alerts_queue (mgr (world_of (_process_alert alert chans env w)))
    = (alerts_queue (mgr w) ++ alert :: later)%list.
Proof.
  unfold _process_alert, append_alert.
  destruct (dispatch_all_grows alert chans env
              (mkWorld (with_queue (alerts_queue (mgr w) ++ [alert]) (mgr w)) (tick w)
                       (trace w ++ [EvQueued alert]))) as [later Hq].
  exists later. run. rewrite Hq. simpl. by rewrite <- app_assoc.
Qed.

(** X20. The handler of the loop does not guard itself.  When the [try]
    block of an iteration has raised and the dispatch of the handler's own
    alert raises too (a dispatcher printing to a standard output that
    refuses the line), that second exception leaves the loop: the iteration
    raises it, the loop ends with it after this iteration whatever budget of
    iterations it had, and there is no pause.  The alert has been logged by
    then, and the [active] flag of the monitor is as the fault found it: a
    monitor that was active stays registered and active, with nothing
    polling for it any more. *)
Theorem handler_fault_ends_loop (fuel : nat) (cs : Checkers) (monitor_id : string)
    (l : nat) (env : Env) (w w1 w3 : World) (e e' : Exn) :
  let monitor := objects (mgr w1) !!! l in
  let alert := error_alert_of env monitor_id monitor e
                 (env_now env (tick w1)) (env_now env (S (tick w1))) in
  active (objects (mgr w) !!! l) = true ->
  check_cycle cs l env w = Raised e w1 ->
  _process_alert alert (mon_channels monitor) env
    (mkWorld (mgr w1) (S (S (tick w1))) (trace w1)) = Raised e' w3 ->
  iteration cs monitor_id l env w = Raised e' w3
  /\ monitoring_loop (S fuel) cs monitor_id l env w = Failed e' w3
  /\ (exists later, alerts_queue (mgr w3) = (alerts_queue (mgr w1) ++ alert :: later)%list)
  /\ (no_stops env -> (l < length (objects (mgr w1)))%nat ->
      active (objects (mgr w3) !!! l) = active (objects (mgr w1) !!! l)).
Proof.
  intros monitor alert Hactive Hraise Hdispatch.
  assert (Hhandler : on_exception monitor_id l e env w1 = Raised e' w3).
  { rewrite on_exception_run. fold monitor. fold alert. by rewrite Hdispatch. }
  assert (Hit : iteration cs monitor_id l env w = Raised e' w3).
  { unfold iteration, try_except. by rewrite Hraise. }
  split; [exact Hit|]. split; [|split].
  - rewrite monitoring_loop_S, Hactive, Hit. reflexivity.
  - destruct (process_alert_logs alert (mon_channels monitor) env
                (mkWorld (mgr w1) (S (S (tick w1))) (trace w1))) as [later Hq].
    rewrite Hdispatch in Hq. by exists later.
  - intros Hno Hl.
    pose proof (on_exception_keeps_flags monitor_id l e env w1 Hno) as [_ Hkeep].
    rewrite Hhandler in Hkeep. by apply Hkeep.
Qed.

Lemma handler_fault_ends_loop_witness :
  let w := with_token "tok"
             (world_of (register_monitor "José Pérez" "42" ["arrest"] ["sms"]
                                         reported Sample.fresh)) in
  exists (w3 : World) (alert : Alert),
    monitoring_loop 5 NotificationManager_checkers "monitor_José_Pérez_20261103_120000" 0
      reported w
    = Failed (UnicodeEncodeError "'ascii' codec can't encode character") w3
    /\ map source (alerts_queue (mgr w3)) = ["courtlistener"; "system"]
    /\ active (objects (mgr w3) !!! 0%nat) = true
    /\ trace w3 = (trace (world_of (check_cycle NotificationManager_checkers 0 reported w))
                   ++ [EvQueued alert; EvDispatch SMS alert])%list.
Proof.
  intros w.
  set (r1 := check_cycle NotificationManager_checkers 0 reported w).
  set (w1 := world_of r1).
  set (alert := error_alert_of reported "monitor_José_Pérez_20261103_120000"
                  (objects (mgr w1) !!! 0%nat)
                  (UnicodeEncodeError "'ascii' codec can't encode character")
                  (env_now reported (tick w1)) (env_now reported (S (tick w1)))).
  set (r3 := _process_alert alert (mon_channels (objects (mgr w1) !!! 0%nat)) reported
               (mkWorld (mgr w1) (S (S (tick w1))) (trace w1))).
  assert (Hactive : active (objects (mgr w) !!! 0%nat) = true) by (vm_compute; reflexivity).
  assert (Hraise : r1 = Raised (UnicodeEncodeError "'ascii' codec can't encode character") w1)
    by (vm_compute; reflexivity).
  assert (Hdispatch : r3 = Raised (UnicodeEncodeError "'ascii' codec can't encode character")
                               (world_of r3)) by (vm_compute; reflexivity).
  destruct (handler_fault_ends_loop 4 NotificationManager_checkers
              "monitor_José_Pérez_20261103_120000" 0 reported w w1 (world_of r3) _ _
              Hactive Hraise Hdispatch) as (_ & Hloop & _ & _).
  exists (world_of r3), alert. split; [exact Hloop|].
  split; [vm_compute; reflexivity|]. split; vm_compute; reflexivity.
Defined.
